(** * SPI auto-answer: question bank lookup, model-answer parsing,
      solver error boundary, transport retry policy and trigger handler.

    A shallow embedding of [excel_handler.py], [api_handler.py] and
    [main.py], with the configuration store of [utils.py], the debounce
    of [hotkey_listener.py] and the text clean-up of [ocr_handler.py].
    Python [str] values are sequences of Unicode code points;
    dictionaries with string keys that are only looked up are [gmap]s,
    dictionaries that are iterated in insertion order are association
    lists.  A [float] is the rational number it stands for, and every
    operation on floats rounds its exact result to the nearest double. *)

From Stdlib Require Import ZArith NArith QArith Qround Qpower List String Ascii Bool Lia Lqa.
From Stdlib Require Import DecimalString Sorted Permutation.
From stdpp Require Import base option list gmap.
Import ListNotations.

Local Open Scope N_scope.

(** ** Python strings *)

Module Py.

(** A Python [str]: a list of code points. *)
Definition str := list N.

(** Decoding of the UTF-8 bytes of a source literal into code points. *)
Fixpoint utf8_decode (bs : list N) : str :=
  match bs with
  | [] => []
  | b0 :: r0 =>
    if b0 <? 128 then b0 :: utf8_decode r0
    else
      match r0 with
      | [] => []
      | b1 :: r1 =>
        if b0 <? 224 then ((b0 - 192) * 64 + (b1 - 128)) :: utf8_decode r1
        else
          match r1 with
          | [] => []
          | b2 :: r2 =>
            if b0 <? 240 then
              ((b0 - 224) * 4096 + (b1 - 128) * 64 + (b2 - 128)) :: utf8_decode r2
            else
              match r2 with
              | [] => []
              | b3 :: r3 =>
                ((b0 - 240) * 262144 + (b1 - 128) * 4096 + (b2 - 128) * 64 + (b3 - 128))
                  :: utf8_decode r3
              end
          end
      end
  end.

Definition lit (s : string) : str :=
  utf8_decode (map N_of_ascii (list_ascii_of_string s)).

(** [str.isspace], which is also the regular expression class [\s]. *)
Definition isspace (c : N) : bool :=
  ((9 <=? c) && (c <=? 13)) || ((28 <=? c) && (c <=? 32)) || (c =? 133) || (c =? 160)
  || (c =? 5760) || ((8192 <=? c) && (c <=? 8202)) || (c =? 8232) || (c =? 8233)
  || (c =? 8239) || (c =? 8287) || (c =? 12288).

Fixpoint lstrip (s : str) : str :=
  match s with
  | [] => []
  | c :: r => if isspace c then lstrip r else s
  end.

Definition rstrip (s : str) : str := rev (lstrip (rev s)).

(** [s.strip()] *)
Definition strip (s : str) : str := rstrip (lstrip s).

(** [s.startswith(p)] *)
Fixpoint startswith (p s : str) : bool :=
  match p, s with
  | [], _ => true
  | _ :: _, [] => false
  | a :: p', b :: s' => (a =? b) && startswith p' s'
  end.

(** [p in s] for strings: [p] occurs in [s] as a contiguous run. *)
Fixpoint contains (p s : str) : bool :=
  startswith p s || match s with [] => false | _ :: r => contains p r end.

(** [s.split(sep)] for a one-character separator: never the empty list. *)
Fixpoint split (sep : N) (s : str) : list str :=
  match s with
  | [] => [[]]
  | c :: r =>
    if c =? sep then [] :: split sep r
    else match split sep r with
         | h :: t => (c :: h) :: t
         | [] => [[c]]
         end
  end.

(** [s.split(sep, 1)]: at most one cut, at the first separator. *)
Fixpoint split1 (sep : N) (s : str) : list str :=
  match s with
  | [] => [[]]
  | c :: r =>
    if c =? sep then [[]; r]
    else match split1 sep r with
         | h :: t => (c :: h) :: t
         | [] => [[c]]
         end
  end.

(** [bool(s)]: a string is true when it is not empty. *)
Definition truthy (s : str) : bool := match s with [] => false | _ => true end.

Definition eqb (a b : str) : bool := bool_decide (a = b).

Definition ascii_upper (c : N) : N := if (97 <=? c) && (c <=? 122) then c - 32 else c.
Definition ascii_lower (c : N) : N := if (65 <=? c) && (c <=? 90) then c + 32 else c.
Definition ascii_isalnum (c : N) : bool :=
  ((48 <=? c) && (c <=? 57)) || ((65 <=? c) && (c <=? 90)) || ((97 <=? c) && (c <=? 122)).

(** The part of the Unicode character database the program reaches through
    [re] and [str.lower]/[str.upper], for code points from 128 on (the ASCII
    range is written out above).  It belongs to the interpreter, not to the
    repository, and is a parameter of the development. *)
Record UnicodeDB := {
  uni_isalnum : N -> bool;     (* [str.isalnum] of one character *)
  uni_lower : N -> list N;     (* [str.lower] of one character *)
  uni_upper : N -> list N;     (* [str.upper] of one character *)
  uni_tolower : N -> N         (* simple lower case used by [re.IGNORECASE] *)
}.

Section WithDB.
Variable db : UnicodeDB.

(** The class [\w] of a [str] pattern. *)
Definition is_word (c : N) : bool :=
  if c <? 128 then ascii_isalnum c || (c =? 95) else uni_isalnum db c.

(** [s.lower()], character by character.  The one rule of [str.lower]
    that looks at the neighbours, the final sigma, is left out: a capital
    sigma maps as [uni_lower] says wherever it stands. *)
Definition lower (s : str) : str :=
  flat_map (fun c => if c <? 128 then [ascii_lower c] else uni_lower db c) s.

Definition upper (s : str) : str :=
  flat_map (fun c => if c <? 128 then [ascii_upper c] else uni_upper db c) s.

(** Two characters match under [re.IGNORECASE]. *)
Definition ci_eqb (a b : N) : bool :=
  let f c := if c <? 128 then ascii_lower c else uni_tolower db c in
  f a =? f b.

Fixpoint ci_startswith (p s : str) : bool :=
  match p, s with
  | [], _ => true
  | _ :: _, [] => false
  | a :: p', b :: s' => ci_eqb a b && ci_startswith p' s'
  end.

(** [re.search(re.escape(p), s, re.IGNORECASE)] is not [None]. *)
Fixpoint ci_contains (p s : str) : bool :=
  ci_startswith p s || match s with [] => false | _ :: r => ci_contains p r end.
End WithDB.

(** A database for examples: Hiragana, Katakana, the CJK unified ideographs
    and the full-width digits and letters are alphanumeric, and no character
    from 128 on has a case mapping. *)
Definition sample_db : UnicodeDB := {|
  uni_isalnum c :=
    ((12353 <=? c) && (c <=? 12438)) || ((12449 <=? c) && (c <=? 12538))
    || ((19968 <=? c) && (c <=? 40959)) || ((65296 <=? c) && (c <=? 65305))
    || ((65313 <=? c) && (c <=? 65338)) || ((65345 <=? c) && (c <=? 65370));
  uni_lower c := [c];
  uni_upper c := [c];
  uni_tolower c := c
|}.

End Py.

(** ** Exceptions *)

(** The subclasses of [Exception] the program can meet, and the outcome of a
    call: a value, or an exception on its way to the caller. *)
Inductive exn_class :=
| AttributeError | IndexError | KeyError | TypeError | ValueError
| JSONDecodeError | Timeout | ConnectionError | RetryError | RequestException
| OtherError.

(** An exception: its class and [str(e)]. *)
Definition exn : Type := exn_class * Py.str.

Inductive outcome (A : Type) : Type :=
| Return (a : A)
| Raise (e : exn).
Arguments Return {A} a.
Arguments Raise {A} e.

Definition obind {A B} (c : outcome A) (k : A -> outcome B) : outcome B :=
  match c with
  | Return a => k a
  | Raise e => Raise e
  end.

(** [try: body except Exception as e: handler(e)] *)
Definition try_except {A} (body : outcome A) (handler : exn -> outcome A) : outcome A :=
  match body with
  | Return a => Return a
  | Raise e => handler e
  end.

Declare Scope outcome_scope.
Delimit Scope outcome_scope with outcome.
Notation "x <-- c ;; k" := (obind c (fun x => k))
  (at level 100, c at next level, right associativity) : outcome_scope.

(** ** JSON values, as [response.json()] returns them *)

#[local] Unset Elimination Schemes.
Inductive json :=
| JNull
| JBool (b : bool)
| JNum (q : Q)
| JStr (s : Py.str)
| JList (l : list json)
| JDict (d : gmap Py.str json).
#[local] Set Elimination Schemes.

(** [bool(v)] *)
Definition json_truthy (v : json) : bool :=
  match v with
  | JNull => false
  | JBool b => b
  | JNum q => negb (Qeq_bool q 0)
  | JStr s => Py.truthy s
  | JList l => match l with [] => false | _ => true end
  | JDict d => negb (bool_decide (d = ∅))
  end.

Definition is_jstr (k : Py.str) (v : json) : bool :=
  match v with JStr s => Py.eqb s k | _ => false end.

(** [type(v).__name__], for the text of an error.  A number is held as
    the rational it stands for: a whole one is named as an [int] (the
    JSON text [2.0] parses to a [float], which the number does not
    record). *)
Definition json_type_name (v : json) : Py.str :=
  match v with
  | JNull => Py.lit "NoneType"
  | JBool _ => Py.lit "bool"
  | JNum q => if (Zpos (Qden (Qred q)) =? 1)%Z then Py.lit "int" else Py.lit "float"
  | JStr _ => Py.lit "str"
  | JList _ => Py.lit "list"
  | JDict _ => Py.lit "dict"
  end.

(** The text of [AttributeError] for a missing attribute. *)
Definition no_attribute (v : json) (name : Py.str) : exn :=
  (AttributeError,
   Py.lit "'" ++ json_type_name v ++ Py.lit "' object has no attribute '"
   ++ name ++ Py.lit "'").

(** [str(KeyError(k))] is [repr(k)]: the key between single quotes, for
    a key of printable characters without quote or backslash, as are
    the keys the code looks up. *)
Definition key_error (k : Py.str) : exn :=
  (KeyError, Py.lit "'" ++ k ++ Py.lit "'").

(** [k in v] for a string [k] *)
Definition json_contains (k : Py.str) (v : json) : outcome bool :=
  match v with
  | JDict d => Return (bool_decide (is_Some (d !! k)))
  | JList l => Return (existsb (is_jstr k) l)
  | JStr s => Return (Py.contains k s)
  | _ => Raise (TypeError, Py.lit "argument of type '" ++ json_type_name v
                           ++ Py.lit "' is not iterable")
  end.

(** [v[k]] for a string [k] *)
Definition json_getitem (v : json) (k : Py.str) : outcome json :=
  match v with
  | JDict d => match d !! k with Some x => Return x | None => Raise (key_error k) end
  | JList _ => Raise (TypeError, Py.lit "list indices must be integers or slices, not str")
  | JStr _ => Raise (TypeError, Py.lit "string indices must be integers, not 'str'")
  | _ => Raise (TypeError, Py.lit "'" ++ json_type_name v
                           ++ Py.lit "' object is not subscriptable")
  end.

(** [v[0]]; the keys of a JSON object are strings, so [0] is never one. *)
Definition json_getitem0 (v : json) : outcome json :=
  match v with
  | JList (x :: _) => Return x
  | JList [] => Raise (IndexError, Py.lit "list index out of range")
  | JStr (c :: _) => Return (JStr [c])
  | JStr [] => Raise (IndexError, Py.lit "string index out of range")
  | JDict _ => Raise (KeyError, Py.lit "0")
  | _ => Raise (TypeError, Py.lit "'" ++ json_type_name v
                           ++ Py.lit "' object is not subscriptable")
  end.

(** [v.get(k, default)] *)
Definition json_get (v : json) (k : Py.str) (dflt : json) : outcome json :=
  match v with
  | JDict d => Return (default dflt (d !! k))
  | _ => Raise (no_attribute v (Py.lit "get"))
  end.

(** ** The HTTP transport *)

(** What the server does with one attempt of a request. *)
Record Response := {
  status_code : Z;
  retry_after : bool;          (* the reply carries a [Retry-After] header *)
  body : outcome json          (* [response.json()] *)
}.

Inductive attempt :=
| ConnectTimeout
| ConnectFailed
| ReadTimeout
| Answer (r : Response).

(** The attempts of one request, numbered from 0. *)
Definition server := nat -> attempt.

(** The retry loop is not repository code: [requests] hands the [Retry]
    object built by [_create_session] to [urllib3], whose connection pool
    runs the loop.  This module follows that library's documented
    behaviour: [total] counts retries, a status of [status_forcelist] is
    retried only for a method of [allowed_methods], whose default leaves
    POST out, and connection errors are retried for every method. *)
Module Urllib3.

Inductive http_method := HEAD | GET | PUT | DELETE | OPTIONS | TRACE | POST | PATCH.

Definition method_eqb (a b : http_method) : bool :=
  match a, b with
  | HEAD, HEAD | GET, GET | PUT, PUT | DELETE, DELETE
  | OPTIONS, OPTIONS | TRACE, TRACE | POST, POST | PATCH, PATCH => true
  | _, _ => false
  end.

Record Retry := {
  total : nat;
  backoff_factor : Q;
  status_forcelist : list Z;
  allowed_methods : list http_method;
  raise_on_status : bool;
  respect_retry_after_header : bool
}.

Definition DEFAULT_ALLOWED_METHODS : list http_method :=
  [HEAD; GET; PUT; DELETE; OPTIONS; TRACE].

Definition RETRY_AFTER_STATUS_CODES : list Z := [413; 429; 503]%Z.

(** [Retry(total=t, backoff_factor=b, status_forcelist=l)] *)
Definition make_Retry (t : nat) (b : Q) (l : list Z) : Retry :=
  {| total := t; backoff_factor := b; status_forcelist := l;
     allowed_methods := DEFAULT_ALLOWED_METHODS;
     raise_on_status := true; respect_retry_after_header := true |}.

Definition set_total (t : nat) (r : Retry) : Retry :=
  {| total := t; backoff_factor := backoff_factor r;
     status_forcelist := status_forcelist r; allowed_methods := allowed_methods r;
     raise_on_status := raise_on_status r;
     respect_retry_after_header := respect_retry_after_header r |}.

Definition _is_method_retryable (r : Retry) (m : http_method) : bool :=
  existsb (method_eqb m) (allowed_methods r).

Definition mem_status (c : Z) (l : list Z) : bool := existsb (Z.eqb c) l.

Definition is_retry (r : Retry) (m : http_method) (status : Z) (has_retry_after : bool)
    : bool :=
  if negb (_is_method_retryable r m) then false
  else if mem_status status (status_forcelist r) then true
  else negb (Nat.eqb (total r) 0) && respect_retry_after_header r && has_retry_after
       && mem_status status RETRY_AFTER_STATUS_CODES.

(** [urlopen] as [requests] sees it: the response or the exception, and
    the number of attempts sent.  [left] is what remains of [total]; attempt
    number [n] is the next one. *)
Fixpoint urlopen (r : Retry) (m : http_method) (srv : server) (left n : nat)
    : outcome Response * nat :=
  let retry (exhausted : outcome Response) :=
    match left with
    | O => (exhausted, S n)
    | S left' => urlopen r m srv left' (S n)
    end in
  match srv n with
  | Answer resp =>
    if is_retry (set_total left r) m (status_code resp) (retry_after resp)
    then retry (if raise_on_status r
                then Raise (RetryError, Py.lit "too many error responses")
                else Return resp)
    else (Return resp, S n)
  | ConnectTimeout => retry (Raise (Timeout, Py.lit "connect timeout"))
  | ConnectFailed => retry (Raise (ConnectionError, Py.lit "connection failed"))
  | ReadTimeout =>
    if _is_method_retryable r m
    then retry (Raise (ConnectionError, Py.lit "read timed out"))
    else (Raise (Timeout, Py.lit "read timed out"), S n)
  end.

Definition send (r : Retry) (m : http_method) (srv : server) : outcome Response * nat :=
  urlopen r m srv (total r) 0.

End Urllib3.

(** ** [api_handler.py]: parsing the model's reply *)

Module Api.

Record ParsedAnswer := {
  question_type : Py.str;
  reasoning : Py.str;
  answer : Py.str;
  correct_option : Py.str;
  confidence : Q
}.

Definition set_question_type (v : Py.str) (r : ParsedAnswer) : ParsedAnswer :=
  {| question_type := v; reasoning := reasoning r; answer := answer r;
     correct_option := correct_option r; confidence := confidence r |}.
Definition set_reasoning (v : Py.str) (r : ParsedAnswer) : ParsedAnswer :=
  {| question_type := question_type r; reasoning := v; answer := answer r;
     correct_option := correct_option r; confidence := confidence r |}.
Definition set_answer (v : Py.str) (r : ParsedAnswer) : ParsedAnswer :=
  {| question_type := question_type r; reasoning := reasoning r; answer := v;
     correct_option := correct_option r; confidence := confidence r |}.
Definition set_correct_option (v : Py.str) (r : ParsedAnswer) : ParsedAnswer :=
  {| question_type := question_type r; reasoning := reasoning r; answer := answer r;
     correct_option := v; confidence := confidence r |}.

(** The [result] dictionary is updated in place, so what was written before
    an exception is still there in the handler: a computation takes the
    dictionary and gives it back together with its outcome. *)
Definition M (A : Type) : Type := ParsedAnswer -> ParsedAnswer * outcome A.

Definition ret {A} (a : A) : M A := fun r => (r, Return a).
Definition bind {A B} (c : M A) (k : A -> M B) : M B :=
  fun r => match c r with
           | (r', Return a) => k a r'
           | (r', Raise e) => (r', Raise e)
           end.
Definition lift {A} (c : outcome A) : M A := fun r => (r, c).
Definition modify (f : ParsedAnswer -> ParsedAnswer) : M unit := fun r => (f r, Return tt).
Definition get : M ParsedAnswer := fun r => (r, Return r).
Definition try_ (body : M unit) (handler : exn -> M unit) : M unit :=
  fun r => match body r with
           | (r', Return a) => (r', Return a)
           | (r', Raise e) => handler e r'
           end.

Declare Scope parse_scope.
Delimit Scope parse_scope with parse.
Notation "x <- c ;; k" := (bind c (fun x => k))
  (at level 100, c at next level, right associativity) : parse_scope.
Notation "c ;;; k" := (bind c (fun _ => k))
  (at level 100, right associativity) : parse_scope.

Fixpoint for_each {A} (f : A -> M unit) (l : list A) : M unit :=
  match l with
  | [] => ret tt
  | x :: r => bind (f x) (fun _ => for_each f r)
  end.

(** [parts[1]] *)
Definition item1 (parts : list Py.str) : outcome Py.str :=
  match parts with
  | _ :: x :: _ => Return x
  | _ => Raise (IndexError, Py.lit "list index out of range")
  end.

Definition colon : N := 58.
Definition newline : N := 10.

(** [line.split(':', 1)[1].strip()] *)
Definition labelled_value (line : Py.str) : M Py.str :=
  (v <- lift (item1 (Py.split1 colon line)) ;; ret (Py.strip v))%parse.

(** One turn of the loop over the lines. *)
Definition parse_line (line0 : Py.str) : M unit :=
  let line := Py.strip line0 in
  (if Py.startswith (Py.lit "思考過程:") line || Py.startswith (Py.lit "思考过程:") line then
     v <- labelled_value line ;; modify (set_reasoning v)
   else if Py.startswith (Py.lit "答え:") line || Py.startswith (Py.lit "答案:") line then
     v <- labelled_value line ;; modify (set_answer v)
   else if Py.startswith (Py.lit "問題の種類:") line || Py.startswith (Py.lit "问题类型:") line then
     v <- labelled_value line ;; modify (set_question_type v)
   else if Py.startswith (Py.lit "解法・考え方:") line || Py.startswith (Py.lit "解答过程:") line then
     v <- labelled_value line ;; modify (set_reasoning v)
   else if Py.startswith (Py.lit "正解:") line || Py.startswith (Py.lit "正确答案:") line then
     v <- labelled_value line ;; modify (set_correct_option v)
   else ret tt)%parse.

Definition initial_result : ParsedAnswer :=
  {| question_type := []; reasoning := []; answer := []; correct_option := [];
     confidence := (9 # 10)%Q |}.

(** *** The loop read as a function

    The keys of [result] a labelled line can write, the label a stripped
    line carries (the first branch of the chain that fires), and the value
    it writes. *)
Inductive label := LReasoning | LAnswer | LQuestionType | LCorrectOption.

Definition label_eqb (a b : label) : bool :=
  match a, b with
  | LReasoning, LReasoning | LAnswer, LAnswer
  | LQuestionType, LQuestionType | LCorrectOption, LCorrectOption => true
  | _, _ => false
  end.

Definition classify (line : Py.str) : option label :=
  if Py.startswith (Py.lit "思考過程:") line || Py.startswith (Py.lit "思考过程:") line
  then Some LReasoning
  else if Py.startswith (Py.lit "答え:") line || Py.startswith (Py.lit "答案:") line
  then Some LAnswer
  else if Py.startswith (Py.lit "問題の種類:") line || Py.startswith (Py.lit "问题类型:") line
  then Some LQuestionType
  else if Py.startswith (Py.lit "解法・考え方:") line || Py.startswith (Py.lit "解答过程:") line
  then Some LReasoning
  else if Py.startswith (Py.lit "正解:") line || Py.startswith (Py.lit "正确答案:") line
  then Some LCorrectOption
  else None.

Definition line_value (line : Py.str) : Py.str :=
  Py.strip (nth 1 (Py.split1 colon line) []).

Definition field (l : label) (r : ParsedAnswer) : Py.str :=
  match l with
  | LReasoning => reasoning r
  | LAnswer => answer r
  | LQuestionType => question_type r
  | LCorrectOption => correct_option r
  end.

Definition set_field (l : label) (v : Py.str) (r : ParsedAnswer) : ParsedAnswer :=
  match l with
  | LReasoning => set_reasoning v r
  | LAnswer => set_answer v r
  | LQuestionType => set_question_type v r
  | LCorrectOption => set_correct_option v r
  end.

Definition apply_line (r : ParsedAnswer) (line0 : Py.str) : ParsedAnswer :=
  match classify (Py.strip line0) with
  | Some l => set_field l (line_value (Py.strip line0)) r
  | None => r
  end.

(** [response_text.strip().split('\n')] *)
Definition lines_of (response_text : Py.str) : list Py.str :=
  Py.split newline (Py.strip response_text).

(** The lines that carry label [l], in order. *)
Definition labelled (l : label) (lines : list Py.str) : list Py.str :=
  List.filter (fun line => match classify (Py.strip line) with
                           | Some l' => label_eqb l l'
                           | None => false
                           end) lines.

(** [[line.strip() for line in lines if line.strip()]] *)
Definition non_empty_lines (lines : list Py.str) : list Py.str :=
  map Py.strip (List.filter (fun line => Py.truthy (Py.strip line)) lines).

(** [A-Da-d] *)
Definition is_option_letter (c : N) : bool :=
  ((65 <=? c) && (c <=? 68)) || ((97 <=? c) && (c <=? 100)).

Section Regex.
Variable db : Py.UnicodeDB.

Definition word_opt (c : option N) : bool :=
  match c with Some c => Py.is_word db c | None => false end.

(** [re.search(r'\b([A-Da-d])\b', s)]: the group of the leftmost match.
    An option letter is a word character, so [\b] holds before it when
    the previous character is missing or not a word character, and after
    it when the next one is. *)
Fixpoint search_bare_letter (prev : option N) (s : Py.str) : option N :=
  match s with
  | [] => None
  | c :: r =>
    if is_option_letter c && negb (word_opt prev) && negb (word_opt (head r))
    then Some c
    else search_bare_letter (Some c) r
  end.

(** [[：:]\s*([A-Da-d])] matched at the start of [t]. *)
Definition match_colon_letter (t : Py.str) : option N :=
  match t with
  | c :: r =>
    if (c =? 65306) || (c =? colon) then
      match Py.lstrip r with
      | x :: _ => if is_option_letter x then Some x else None
      | [] => None
      end
    else None
  | [] => None
  end.

(** [.*[：:]\s*([A-Da-d])] matched at the start of [t]: the greedy [.*]
    takes as many characters other than a newline as it can and gives
    them back one at a time. *)
Fixpoint match_dotstar (t : Py.str) : option N :=
  match t with
  | [] => None
  | c :: r =>
    match (if c =? newline then None else match_dotstar r) with
    | Some x => Some x
    | None => match_colon_letter t
    end
  end.

(** [re.search(r'[答正解].*[：:]\s*([A-Da-d])', s)]: the group of the
    leftmost match. *)
Fixpoint search_answer_is (s : Py.str) : option N :=
  match s with
  | [] => None
  | c :: r =>
    if (c =? 31572) || (c =? 27491) || (c =? 35299) then
      match match_dotstar r with
      | Some x => Some x
      | None => search_answer_is r
      end
    else search_answer_is r
  end.

(** *** The two patterns, in the words of the regular expressions

    [\b([A-Da-d])\b] matches in [s] at the letter [c] that stands between
    [pre] and [post]: a letter of the class, with no word character on
    either side. *)
Definition bare_letter_at (s pre : Py.str) (c : N) (post : Py.str) : Prop :=
  s = pre ++ c :: post
  /\ In c (Py.lit "ABCDabcd")
  /\ word_opt (last pre) = false
  /\ word_opt (head post) = false.

(** [re.search] gives the leftmost match. *)
Definition first_bare_letter (s : Py.str) (c : N) : Prop :=
  exists pre post,
    bare_letter_at s pre c post
    /\ forall pre' c' post', bare_letter_at s pre' c' post' ->
                             (length pre <= length pre')%nat.

Definition no_bare_letter (s : Py.str) : Prop :=
  forall pre c post, ~ bare_letter_at s pre c post.

(** [[答正解].*[：:]\s*([A-Da-d])] matches in [s] after [pre], with [mid]
    for [.*] and the letter [c] for the group: one of the three characters,
    characters other than the newline, a colon of either width, white
    space, a letter of the class. *)
Definition answer_is_at (s pre mid : Py.str) (c : N) : Prop :=
  exists h col ws post,
    s = pre ++ h :: mid ++ col :: ws ++ c :: post
    /\ In h (Py.lit "答正解")
    /\ Forall (fun x => x <> newline) mid
    /\ In col (Py.lit "：:")
    /\ Forall (fun x => Py.isspace x = true) ws
    /\ In c (Py.lit "ABCDabcd").

(** The leftmost match, and of the matches that start there the one with
    the longest [.*]. *)
Definition first_answer_is (s : Py.str) (c : N) : Prop :=
  exists pre mid,
    answer_is_at s pre mid c
    /\ forall pre' mid' c', answer_is_at s pre' mid' c' ->
          (length pre <= length pre')%nat
          /\ (length pre' = length pre -> (length mid' <= length mid)%nat).

Definition no_answer_is (s : Py.str) : Prop :=
  forall pre mid c, ~ answer_is_at s pre mid c.

(** The body of the [try] block of [_parse_answer]. *)
Definition parse_body (response_text : Py.str) : M unit :=
  let lines := Py.split newline (Py.strip response_text) in
  (for_each parse_line lines ;;;
   r <- get ;;
   (if negb (Py.truthy (answer r)) && negb (Py.truthy (correct_option r)) then
      match last (non_empty_lines lines) with
      | Some l => modify (set_answer l)
      | None => modify (set_answer (Py.strip response_text))
      end
    else ret tt) ;;;
   r <- get ;;
   if negb (Py.truthy (correct_option r)) then
     match search_bare_letter None (answer r) with
     | Some c => modify (set_correct_option [Py.ascii_upper c])
     | None =>
       match search_answer_is (answer r) with
       | Some c => modify (set_correct_option [Py.ascii_upper c])
       | None => ret tt
       end
     end
   else ret tt)%parse.

Definition _parse_answer (response_text : Py.str) : ParsedAnswer :=
  fst (try_ (parse_body response_text)
            (fun _ => modify (set_answer (Py.strip response_text)))
            initial_result).

(** The option letter the two patterns find in an answer text, in upper
    case, or the empty string. *)
Definition option_of (answer_text : Py.str) : Py.str :=
  match search_bare_letter None answer_text with
  | Some c => [Py.ascii_upper c]
  | None =>
    match search_answer_is answer_text with
    | Some c => [Py.ascii_upper c]
    | None => []
    end
  end.
End Regex.

(** *** The solver *)

Record ApiConfig := {
  api_key : option Py.str;
  api_endpoint : option Py.str;
  api_version : option Py.str;
  deployment_name : option Py.str
}.

(** The arguments of [session.post] that matter here. *)
Record PostArgs := {
  post_url : Py.str;
  post_timeout : Z
}.

(** The dictionary [solve_question] returns; a key that is not set is
    [None]. *)
Record SolveResult := {
  success : bool;
  solved_answer : option ParsedAnswer;
  raw_response : option Py.str;
  usage : option json;
  model : option json;
  error : option Py.str;
  source : Py.str
}.

Definition failure (reason : Py.str) : SolveResult :=
  {| success := false; solved_answer := None; raw_response := None; usage := None;
     model := None; error := Some reason; source := Py.lit "api" |}.

(** The retry strategy mounted on the session by [_create_session]. *)
Definition _create_session : Urllib3.Retry :=
  Urllib3.make_Retry 3 1 [429; 500; 502; 503; 504]%Z.

Definition math_keywords : list Py.str :=
  map Py.lit ["計算"; "数値"; "+"; "-"; "×"; "÷"; "="; "%"; "割合"; "確率"; "平均"]%string.
Definition lang_keywords : list Py.str :=
  map Py.lit ["意味"; "読み方"; "漢字"; "ひらがな"; "カタカナ"; "語彙"; "文法"; "敬語"]%string.
Definition logic_keywords : list Py.str :=
  map Py.lit ["論理"; "推論"; "条件"; "ならば"; "すべて"; "一部"; "関係"; "順序"]%string.

Definition _detect_math_question (text : Py.str) : bool :=
  existsb (fun keyword => Py.contains keyword text) math_keywords.
Definition _detect_language_question (text : Py.str) : bool :=
  existsb (fun keyword => Py.contains keyword text) lang_keywords.
Definition _detect_logic_question (text : Py.str) : bool :=
  existsb (fun keyword => Py.contains keyword text) logic_keywords.

Definition base_prompt : Py.str := Py.lit
"あなたは日本のSPIテストの専門家です。以下の問題に素早く正確に答えてください。

【重要】簡潔に答えてください。長い説明は不要です。

【回答形式】
思考過程: [簡潔な解法・考え方]
答え: [最終答案]

【問題】
{question}".

(** [s.rstrip('/')] *)
Fixpoint lstrip_slash (s : Py.str) : Py.str :=
  match s with
  | [] => []
  | c :: r => if c =? 47 then lstrip_slash r else s
  end.
Definition rstrip_slash (s : Py.str) : Py.str := rev (lstrip_slash (rev s)).

Section Solver.
Variable db : Py.UnicodeDB.
(** [template.format(question=q)], a builtin of the interpreter: it
    raises on a template that has a field other than [question]. *)
Variable str_format : Py.str -> Py.str -> outcome Py.str.
Variable config : ApiConfig.
(** What the endpoint does with the attempts of the one request. *)
Variable srv : server.

Definition _build_prompt (question_text : Py.str) (context : option (gmap Py.str Py.str))
    : outcome Py.str :=
  let base_prompt :=
    match context with
    | Some ctx =>
      match ctx !! Py.lit "question_type" with
      | Some t => base_prompt ++ Py.lit "

【参考】問題タイプ: " ++ t
      | None => base_prompt
      end
    | None => base_prompt
    end in
  (prompt <-- str_format base_prompt question_text ;;
   if _detect_math_question question_text then
     Return (prompt ++ Py.lit "

【数学】計算ミスに注意。")
   else if _detect_language_question question_text then
     Return (prompt ++ Py.lit "

【言語】語彙の意味を正確に。")
   else if _detect_logic_question question_text then
     Return (prompt ++ Py.lit "

【論理】前提条件を整理。")
   else Return prompt)%outcome.

(** [self.session.post(url, ..., timeout=30)]: the answer or the
    exception, and the number of attempts that went out. *)
Definition session_post (args : PostArgs) : outcome Response * nat :=
  Urllib3.send _create_session Urllib3.POST srv.

Definition post_args (api_endpoint : Py.str) : PostArgs :=
  {| post_url :=
       rstrip_slash api_endpoint ++ Py.lit "/openai/deployments/"
       ++ default (Py.lit "gpt-4") (deployment_name config)
       ++ Py.lit "/chat/completions";
     post_timeout := 30 |}.

(** [None] is [JNull]; each of the three [except] clauses returns it. *)
Definition _call_api (prompt : Py.str) : json :=
  let body :=
    (api_endpoint <--
       match api_endpoint config with
       | Some e => Return e
       | None => Raise (AttributeError, Py.lit "'NoneType' object has no attribute 'rstrip'")
       end ;;
     response <-- fst (session_post (post_args api_endpoint)) ;;
     if (status_code response =? 200)%Z then body response
     else Return JNull)%outcome in
  match try_except body (fun _ => Return JNull) with
  | Return result => result
  | Raise _ => JNull
  end.

(** [_parse_answer] applied to whatever [content] holds: only a string
    has [strip], and the call in the handler raises like the first. *)
Definition parse_content (content : json) : outcome (Py.str * ParsedAnswer) :=
  match content with
  | JStr text => Return (text, _parse_answer db text)
  | _ => Raise (no_attribute content (Py.lit "strip"))
  end.

Definition solve_question (question_text : Py.str)
    (context : option (gmap Py.str Py.str)) : outcome SolveResult :=
  try_except
    (prompt <-- _build_prompt question_text context ;;
     let response := _call_api prompt in
     has_choices <--
       (if json_truthy response then json_contains (Py.lit "choices") response
        else Return false) ;;
     if has_choices then
       choices <-- json_getitem response (Py.lit "choices") ;;
       choice <-- json_getitem0 choices ;;
       message <-- json_getitem choice (Py.lit "message") ;;
       content <-- json_getitem message (Py.lit "content") ;;
       parsed <-- parse_content content ;;
       usage <-- json_get response (Py.lit "usage") (JDict ∅) ;;
       model <-- json_get response (Py.lit "model") (JStr []) ;;
       Return {| success := true; solved_answer := Some (snd parsed);
                 raw_response := Some (fst parsed); usage := Some usage;
                 model := Some model; error := None; source := Py.lit "api" |}
     else
       Return (failure (Py.lit "API响应格式错误")))%outcome
    (fun e => Return (failure (snd e))).

(** The request failed: an exception from the transport, a status other
    than 200, or a body that is not JSON. *)
Definition transport_failed : Prop :=
  match fst (Urllib3.send _create_session Urllib3.POST srv) with
  | Return resp => status_code resp <> 200%Z \/ exists e, body resp = Raise e
  | Raise _ => True
  end.

(** The two shapes of the dictionary [solve_question] returns. *)
Definition well_formed (r : SolveResult) : Prop :=
  (success r = false /\ solved_answer r = None /\ exists reason, error r = Some reason)
  \/ (success r = true /\ error r = None /\
      exists text, raw_response r = Some text
                   /\ solved_answer r = Some (_parse_answer db text)).

(** The request ends with status 200 and a JSON object whose first choice
    has a message with the text [text] as content. *)
Definition replied_with (text : Py.str) : Prop :=
  exists endpoint resp d c rest m,
    api_endpoint config = Some endpoint
    /\ fst (Urllib3.send _create_session Urllib3.POST srv) = Return resp
    /\ status_code resp = 200%Z
    /\ body resp = Return (JDict d)
    /\ d !! Py.lit "choices" = Some (JList (JDict c :: rest))
    /\ c !! Py.lit "message" = Some (JDict m)
    /\ m !! Py.lit "content" = Some (JStr text).

(** The prompt for the question can be built. *)
Definition prompt_built (question_text : Py.str)
    (context : option (gmap Py.str Py.str)) : Prop :=
  exists prompt, _build_prompt question_text context = Return prompt.

(** A status that the retry strategy leaves alone for every method: it is
    not on the list and does not ask for a retry through [Retry-After]. *)
Definition final_status (status : Z) : Prop :=
  Urllib3.mem_status status (Urllib3.status_forcelist _create_session) = false
  /\ Urllib3.mem_status status Urllib3.RETRY_AFTER_STATUS_CODES = false.

(** [result['success']] of an outcome, when there is a result. *)
Definition succeeded (o : outcome SolveResult) : option bool :=
  match o with
  | Return r => Some (success r)
  | Raise _ => None
  end.

(** The number of attempts the request of one [solve_question] makes,
    when the prompt could be built and the endpoint is configured. *)
Definition attempts : nat := snd (Urllib3.send _create_session Urllib3.POST srv).
End Solver.

End Api.

(** ** Python floats *)

(** A [float] is an IEEE 754 double; the finite ones are rational numbers.
    An operation computes the exact result and rounds it to the nearest
    double, a tie to the one with the even significand.  Infinities and
    not-a-number are left out: the magnitudes met here stay below
    [2 ** 1024]. *)
Module Float.

(** [2 ** k] *)
Definition pow2 (k : Z) : Q := (2 ^ k)%Q.

(** The exponent of the binade of a positive [x]: the [e] with
    [2 ** e <= x < 2 ** (e + 1)]. *)
Definition ilog2 (x : Q) : Z :=
  let e := (Z.log2 (Qnum x) - Z.log2 (Zpos (Qden x)))%Z in
  if Qle_bool (pow2 e) x then e else (e - 1)%Z.

(** Rounding to the nearest whole number, a tie to the even one; this is
    also the builtin [round] of one argument. *)
Definition rne (y : Q) : Z :=
  let f := Qfloor y in
  match (y - inject_Z f ?= 1 # 2)%Q with
  | Lt => f
  | Eq => if Z.even f then f else (f + 1)%Z
  | Gt => (f + 1)%Z
  end.

(** The double nearest to a positive [x]: 53 significant bits, and the
    least exponent for the subnormal numbers. *)
Definition round_pos (x : Q) : Q :=
  let e := Z.max (ilog2 x) (-1022) in
  Qred (inject_Z (rne (x * pow2 (52 - e))) * pow2 (e - 52)).

Definition round (x : Q) : Q :=
  match (x ?= 0)%Q with
  | Eq => 0%Q
  | Gt => round_pos x
  | Lt => (- round_pos (- x))%Q
  end.

Definition add (a b : Q) : Q := round (a + b).
Definition mul (a b : Q) : Q := round (a * b).
Definition div (a b : Q) : Q := round (a / b).

(** [float(z)], also where an [int] meets a [float] in an operation. *)
Definition of_Z (z : Z) : Q := round (inject_Z z).

(** A decimal literal of the source. *)
Definition lit (q : Q) : Q := round q.

End Float.

(** ** [excel_handler.py]: the question bank *)

Module Bank.

(** A spreadsheet cell as [pandas] hands it over: text, a whole number
    (of a column read as [int64] or [object]), or a missing value.  The
    cells of a [float64] column are not modelled: fractions, and the
    whole numbers of a numeric column with a blank cell, which [str]
    prints as [2.0]. *)
Inductive cell :=
| CStr (s : Py.str)
| CInt (z : Z)
| CNaN.

(** A loaded sheet.  A row shorter than the header has missing values at
    the end. *)
Record DataFrame := {
  df_columns : list Py.str;
  df_rows : list (list cell)
}.

Fixpoint index_of (col : Py.str) (cols : list Py.str) : option nat :=
  match cols with
  | [] => None
  | c :: r => if Py.eqb c col then Some 0%nat else S <$> index_of col r
  end.

(** [col in df.columns], which is also [col in row.index]. *)
Definition has_column (df : DataFrame) (col : Py.str) : bool :=
  bool_decide (is_Some (index_of col (df_columns df))).

(** [row[col]] for a column of the sheet. *)
Definition row_get (df : DataFrame) (row : list cell) (col : Py.str) : cell :=
  match index_of col (df_columns df) with
  | Some i => nth i row CNaN
  | None => CNaN
  end.

(** [pd.notna(x)] *)
Definition notna (c : cell) : bool := match c with CNaN => false | _ => true end.

Definition of_ascii_string (s : string) : Py.str := map N_of_ascii (list_ascii_of_string s).

(** [str(x)] *)
Definition str_of_cell (c : cell) : Py.str :=
  match c with
  | CStr s => s
  | CInt z => of_ascii_string (NilZero.string_of_int (Z.to_int z))
  | CNaN => Py.lit "nan"
  end.

Inductive method := Fuzzy | Exact.

Record AnswerInfo := {
  options : gmap Py.str Py.str;
  correct_answer : Py.str;
  answer_text : Py.str
}.

Record MatchResult := {
  sheet_name : Py.str;
  row_index : nat;
  question : Py.str;
  match_score : Q;
  answer_info : AnswerInfo;
  matched_method : method
}.

(** One entry of [excel.sheets_config]. *)
Record SheetConfig := {
  question_column : option Py.str;
  answer_columns : list Py.str;
  correct_answer_column : option Py.str
}.

(** [excel.fuzzy_match]; an absent key has its default at the place of use. *)
Record FuzzyConfig := {
  threshold : option Q;
  max_results : option Z
}.

(** The handler: [sheets_config] is walked in insertion order, [_cache] is
    only looked up. *)
Record ExcelHandler := {
  sheets_config : list (Py.str * SheetConfig);
  fuzzy_config : FuzzyConfig;
  _cache : gmap Py.str DataFrame
}.

(** The four measures of [fuzzywuzzy.fuzz], each a whole number of percent.
    The library is not part of the repository. *)
Record Fuzz := {
  ratio : Py.str -> Py.str -> Z;
  partial_ratio : Py.str -> Py.str -> Z;
  token_sort_ratio : Py.str -> Py.str -> Z;
  token_set_ratio : Py.str -> Py.str -> Z
}.

(** What the library documents about them: percentages, and [fuzz.ratio]
    of a string with itself is 100. *)
Record FuzzSpec (fz : Fuzz) : Prop := {
  ratio_range : forall a b, (0 <= ratio fz a b <= 100)%Z;
  partial_ratio_range : forall a b, (0 <= partial_ratio fz a b <= 100)%Z;
  token_sort_ratio_range : forall a b, (0 <= token_sort_ratio fz a b <= 100)%Z;
  token_set_ratio_range : forall a b, (0 <= token_set_ratio fz a b <= 100)%Z;
  ratio_same : forall a, ratio fz a a = 100%Z
}.

(** [chr(65 + i)] *)
Definition option_label (i : nat) : Py.str := [65 + N.of_nat i].

(** [re.sub(r'\s+', ' ', s)]; [in_run] says that the previous character was
    white space, already replaced. *)
Fixpoint collapse_spaces (in_run : bool) (s : Py.str) : Py.str :=
  match s with
  | [] => []
  | c :: r =>
    if Py.isspace c then
      if in_run then collapse_spaces true r else 32 :: collapse_spaces true r
    else c :: collapse_spaces false r
  end.

(** [぀-ゟ゠-ヿ一-龯] *)
Definition is_japanese (c : N) : bool :=
  ((12352 <=? c) && (c <=? 12447)) || ((12448 <=? c) && (c <=? 12543))
  || ((19968 <=? c) && (c <=? 40879)).

(** [sorted(l, key=match_score, reverse=True)]: a stable sort, so results of
    equal score stay in the order they were found. *)
Definition Qltb (a b : Q) : bool := negb (Qle_bool b a).

Fixpoint insert_desc (x : MatchResult) (l : list MatchResult) : list MatchResult :=
  match l with
  | [] => [x]
  | y :: r =>
    if Qltb (match_score x) (match_score y) then y :: insert_desc x r else x :: l
  end.

Definition sort_desc (l : list MatchResult) : list MatchResult :=
  foldr insert_desc [] l.

(** What the overlay shows of a result: row, method, score in lowest
    terms, resolved answer text. *)
Definition summary (r : MatchResult) : nat * method * Q * Py.str :=
  (row_index r, matched_method r, Qred (match_score r), answer_text (answer_info r)).

Definition is_exact (r : MatchResult) : bool :=
  match matched_method r with Exact => true | Fuzzy => false end.

(** [a] may stand before [b] in a list by descending score. *)
Definition score_ge (a b : MatchResult) : Prop :=
  (match_score b <= match_score a)%Q.

(** The default of [fuzzy_match.threshold]: the literal [0.8]. *)
Definition default_threshold : Q := Float.lit (8 # 10).

(** [l] holds the matches [m] by descending score, those of equal score in
    the order they have in [m]. *)
Definition sorted_matches (l m : list MatchResult) : Prop :=
  Permutation l m
  /\ StronglySorted score_ge l
  /\ forall v, List.filter (fun r => Qeq_bool (match_score r) v) l
               = List.filter (fun r => Qeq_bool (match_score r) v) m.

(** [l[:n]] *)
Definition slice_to {A} (n : Z) (l : list A) : list A :=
  if (0 <=? n)%Z then take (Z.to_nat n) l
  else take (Z.to_nat (Z.of_nat (length l) + n)) l.

Section Handler.
Variable db : Py.UnicodeDB.
Variable fz : Fuzz.

Definition _clean_question_text (text : Py.str) : Py.str :=
  if negb (Py.truthy text) then []
  else
    let text := collapse_spaces false (Py.strip text) in
    let text :=
      List.filter (fun c => Py.is_word db c || Py.isspace c || is_japanese c) text in
    Py.lower db text.

Definition weights : list Q :=
  [Float.lit (2 # 10); Float.lit (3 # 10); Float.lit (25 # 100); Float.lit (25 # 100)].

(** [fuzz.x(query, target) / 100.0] *)
Definition sub_measure (percent : Z) : Q := Float.div (Float.of_Z percent) (Float.lit 100).

(** The builtin [sum] starts from the integer 0 and adds from left to
    right, each addition rounded (the interpreters from 3.12 on
    compensate the rounding errors of a sum of floats instead). *)
Definition _calculate_match_score (query target : Py.str) : Q :=
  if negb (Py.truthy query) || negb (Py.truthy target) then 0%Q
  else
    let ratio := sub_measure (ratio fz query target) in
    let partial_ratio := sub_measure (partial_ratio fz query target) in
    let token_sort_ratio := sub_measure (token_sort_ratio fz query target) in
    let token_set_ratio := sub_measure (token_set_ratio fz query target) in
    let scores := [ratio; partial_ratio; token_sort_ratio; token_set_ratio] in
    fold_left Float.add
              (map (fun ws => Float.mul (fst ws) (snd ws)) (combine weights scores))
              0%Q.

(** The loop over [enumerate(answer_columns)]. *)
Fixpoint extract_options (df : DataFrame) (row : list cell) (i : nat)
    (cols : list Py.str) (opts : gmap Py.str Py.str) : gmap Py.str Py.str :=
  match cols with
  | [] => opts
  | col :: r =>
    let opts :=
      if has_column df col && notna (row_get df row col)
      then <[option_label i := str_of_cell (row_get df row col)]> opts
      else opts in
    extract_options df row (S i) r opts
  end.

(** Nothing in the body raises here, so its [try] is left out. *)
Definition _extract_answer_info (df : DataFrame) (row : list cell) (sc : SheetConfig)
    : AnswerInfo :=
  let opts := extract_options df row 0%nat (answer_columns sc) ∅ in
  match correct_answer_column sc with
  | Some correct_column =>
    if Py.truthy correct_column && has_column df correct_column
       && notna (row_get df row correct_column)
    then
      let raw := str_of_cell (row_get df row correct_column) in
      let correct_answer := Py.upper db raw in
      match opts !! correct_answer with
      | Some text => {| options := opts; correct_answer := raw; answer_text := text |}
      | None => {| options := opts; correct_answer := raw; answer_text := raw |}
      end
    else {| options := opts; correct_answer := []; answer_text := [] |}
  | None => {| options := opts; correct_answer := []; answer_text := [] |}
  end.

(** [df[col]] for the configured column name, which may be [None]. *)
Definition getitem_column (df : DataFrame) (col : option Py.str) : outcome Py.str :=
  match col with
  | Some c => if has_column df c then Return c else Raise (key_error c)
  | None => Raise (KeyError, Py.lit "None")
  end.

(** [df[col].str]: the accessor exists on a column that holds text and
    raises on a column of numbers or of missing values only. *)
Definition str_accessor (df : DataFrame) (col : Py.str) : outcome (list cell) :=
  let cells := map (fun row => row_get df row col) (df_rows df) in
  match cells with
  | [] => Return []
  | _ =>
    if existsb (fun c => match c with CStr _ => true | _ => false end) cells
    then Return cells
    else Raise (AttributeError, Py.lit "Can only use .str accessor with string values!")
  end.

(** [.str.contains(re.escape(q), case=False, na=False)] on one cell. *)
Definition cell_contains (q : Py.str) (c : cell) : bool :=
  match c with
  | CStr s => Py.ci_contains db q s
  | _ => false
  end.

(** The rows of the sheet with their index, as [iterrows] gives them. *)
Definition iterrows (df : DataFrame) : list (nat * list cell) :=
  imap (fun i row => (i, row)) (df_rows df).

Definition exact_result (df : DataFrame) (name : Py.str) (sc : SheetConfig)
    (col : Py.str) (ir : nat * list cell) : MatchResult :=
  {| sheet_name := name; row_index := fst ir;
     question := str_of_cell (row_get df (snd ir) col);
     match_score := 1%Q;
     answer_info := _extract_answer_info df (snd ir) sc;
     matched_method := Exact |}.

Definition _exact_search_in_sheet (question_text : Py.str) (name : Py.str)
    (df : DataFrame) (sc : SheetConfig) : list MatchResult :=
  let body :=
    (col <-- getitem_column df (question_column sc) ;;
     cells <-- str_accessor df col ;;
     let exact_matches :=
       List.filter (fun ir => cell_contains question_text (row_get df (snd ir) col))
                   (iterrows df) in
     Return (map (exact_result df name sc col) exact_matches))%outcome in
  match try_except body (fun _ => Return []) with
  | Return l => l
  | Raise _ => []
  end.

Definition fuzzy_result (df : DataFrame) (name : Py.str) (sc : SheetConfig)
    (ir : nat * list cell) (db_question : Py.str) (score : Q) : MatchResult :=
  {| sheet_name := name; row_index := fst ir; question := db_question;
     match_score := score;
     answer_info := _extract_answer_info df (snd ir) sc;
     matched_method := Fuzzy |}.

Section Search.
Variable eh : ExcelHandler.

(** One turn of the loop over the rows: the result appended, if any. *)
Definition fuzzy_row (cleaned_question : Py.str) (name : Py.str) (df : DataFrame)
    (sc : SheetConfig) (col : Py.str) (ir : nat * list cell) : list MatchResult :=
  let db_question := str_of_cell (row_get df (snd ir) col) in
  if negb (Py.truthy db_question) || Py.eqb db_question (Py.lit "nan") then []
  else
    let cleaned_db_question := _clean_question_text db_question in
    let match_score := _calculate_match_score cleaned_question cleaned_db_question in
    let threshold := default default_threshold (threshold (fuzzy_config eh)) in
    if Qle_bool threshold match_score
    then [fuzzy_result df name sc ir db_question match_score]
    else [].

(** Nothing in the body raises here, so its [try] is left out. *)
Definition _search_in_sheet (question_text : Py.str) (name : Py.str)
    (df : DataFrame) (sc : SheetConfig) : list MatchResult :=
  match question_column sc with
  | Some col =>
    if negb (Py.truthy col) || negb (has_column df col) then []
    else
      let cleaned_question := _clean_question_text question_text in
      let results :=
        flat_map (fuzzy_row cleaned_question name df sc col) (iterrows df) in
      let exact_matches := _exact_search_in_sheet cleaned_question name df sc in
      results ++ exact_matches
  | None => []
  end.

(** The loop over the configured sheets: [all_results] before it is
    sorted. *)
Definition all_results (question_text : Py.str) : list MatchResult :=
  flat_map (fun nc =>
              match _cache eh !! fst nc with
              | None => []
              | Some df => _search_in_sheet question_text (fst nc) df (snd nc)
              end)
           (sheets_config eh).

Definition search_question (question_text : Py.str) : list MatchResult :=
  let all_results := sort_desc (all_results question_text) in
  let max_results := default 3%Z (max_results (fuzzy_config eh)) in
  slice_to max_results all_results.

(** *** The contract of the lookup, in the words of its description *)

(** Every match of one sheet: each row with a question, scored by the
    blended measure, and each row that contains the query. *)
Definition fuzzy_candidate (cleaned_question : Py.str) (name : Py.str)
    (df : DataFrame) (sc : SheetConfig) (col : Py.str) (ir : nat * list cell)
    : list MatchResult :=
  let db_question := str_of_cell (row_get df (snd ir) col) in
  if negb (Py.truthy db_question) || Py.eqb db_question (Py.lit "nan") then []
  else [fuzzy_result df name sc ir db_question
          (_calculate_match_score cleaned_question
             (_clean_question_text db_question))].

Definition sheet_matches (question_text : Py.str) (nc : Py.str * SheetConfig)
    : list MatchResult :=
  match _cache eh !! fst nc, question_column (snd nc) with
  | Some df, Some col =>
    if Py.truthy col && has_column df col then
      let q := _clean_question_text question_text in
      flat_map (fuzzy_candidate q (fst nc) df (snd nc) col) (iterrows df)
      ++ _exact_search_in_sheet q (fst nc) df (snd nc)
    else []
  | _, _ => []
  end.

(** A match the lookup keeps: a scored row at or above the threshold, or
    a hit of the exact pass, whatever the threshold. *)
Definition kept (r : MatchResult) : bool :=
  Qle_bool (default default_threshold (threshold (fuzzy_config eh))) (match_score r)
  || is_exact r.

(** The matches of all configured sheets that the lookup keeps, in the
    order of the sheets and their rows. *)
Definition all_matches (question_text : Py.str) : list MatchResult :=
  List.filter kept (flat_map (sheet_matches question_text) (sheets_config eh)).
End Search.
End Handler.

(** *** Measures for examples

    A stand-in for the library, for running the definitions: the share of
    characters on a longest common subsequence, with the short cuts of the
    library for equal and for empty strings. *)
Fixpoint lcs (a b : Py.str) : nat :=
  match a with
  | [] => 0%nat
  | x :: a' =>
    (fix aux (b : Py.str) : nat :=
       match b with
       | [] => 0%nat
       | y :: b' => if x =? y then S (lcs a' b') else Nat.max (lcs a' b) (aux b')
       end) b
  end.

Definition sample_ratio (a b : Py.str) : Z :=
  if Py.eqb a b then 100%Z
  else if negb (Py.truthy a) || negb (Py.truthy b) then 0%Z
  else Z.min 100 (200 * Z.of_nat (lcs a b) / Z.of_nat (length a + length b)).

Definition sample_partial_ratio (a b : Py.str) : Z :=
  if Py.contains a b || Py.contains b a then 100%Z else sample_ratio a b.

Definition sample_fuzz : Fuzz := {|
  ratio := sample_ratio;
  partial_ratio := sample_partial_ratio;
  token_sort_ratio := sample_ratio;
  token_set_ratio := sample_ratio
|}.

End Bank.

(** ** The measures of [fuzzywuzzy.fuzz]

    The library is not part of the repository; this module follows its
    documented behaviour.  Every measure is a whole number of percent.
    [ratio] and [partial_ratio] are wrapped so that they answer 100 for two
    equal strings and 0 when one of the two is empty; otherwise [ratio] is
    100 times the ratio of the sequence matcher of the interpreter, rounded
    to a whole number.  The sequence matcher and the bodies of the other
    three measures are parameters. *)
Module Fuzzywuzzy.

Record Core := {
  (* [SequenceMatcher(None, s1, s2).ratio()] *)
  matcher_ratio : Py.str -> Py.str -> Q;
  partial_core : Py.str -> Py.str -> Z;
  token_sort_core : Py.str -> Py.str -> Z;
  token_set_core : Py.str -> Py.str -> Z
}.

(** What their documentation says of the parameters: a ratio between 0 and
    1, percentages between 0 and 100. *)
Record CoreSpec (core : Core) : Prop := {
  matcher_ratio_range : forall a b, (0 <= matcher_ratio core a b <= 1)%Q;
  partial_core_range : forall a b, (0 <= partial_core core a b <= 100)%Z;
  token_sort_core_range : forall a b, (0 <= token_sort_core core a b <= 100)%Z;
  token_set_core_range : forall a b, (0 <= token_set_core core a b <= 100)%Z
}.

(** [utils.intr]: [int(round(n))] *)
Definition intr (n : Q) : Z := Float.rne n.

(** [check_for_equivalence] around [check_empty_string] around the body. *)
Definition checked (body : Py.str -> Py.str -> Z) (s1 s2 : Py.str) : Z :=
  if Py.eqb s1 s2 then 100%Z
  else if negb (Py.truthy s1) || negb (Py.truthy s2) then 0%Z
  else body s1 s2.

Definition ratio (core : Core) : Py.str -> Py.str -> Z :=
  checked (fun s1 s2 => intr (Float.mul (Float.of_Z 100) (matcher_ratio core s1 s2))).

Definition partial_ratio (core : Core) : Py.str -> Py.str -> Z :=
  checked (partial_core core).

Definition fuzz (core : Core) : Bank.Fuzz :=
  {| Bank.ratio := ratio core;
     Bank.partial_ratio := partial_ratio core;
     Bank.token_sort_ratio := token_sort_core core;
     Bank.token_set_ratio := token_set_core core |}.

(** A stand-in for the parameters, from the measures for examples. *)
Definition sample_core : Core :=
  {| matcher_ratio := fun a b =>
       Float.div (Float.of_Z (Bank.sample_ratio a b)) (Float.lit 100);
     partial_core := Bank.sample_partial_ratio;
     token_sort_core := Bank.sample_ratio;
     token_set_core := Bank.sample_ratio |}.

End Fuzzywuzzy.

(** ** [main.py]: the trigger handler *)

Module Main.

Record Stats := {
  total_requests : nat;
  excel_matches : nat;
  api_calls : nat;
  successful_answers : nat;
  failed_answers : nat
}.

(** The fields of [SPIAutoAnswerApp] the handler reads and writes. *)
Record App := {
  is_processing : bool;
  stats : Stats
}.

Definition set_is_processing (b : bool) (a : App) : App :=
  {| is_processing := b; stats := stats a |}.
Definition map_stats (f : Stats -> Stats) (a : App) : App :=
  {| is_processing := is_processing a; stats := f (stats a) |}.

Definition incr_total_requests (s : Stats) : Stats :=
  {| total_requests := S (total_requests s); excel_matches := excel_matches s;
     api_calls := api_calls s; successful_answers := successful_answers s;
     failed_answers := failed_answers s |}.
Definition incr_excel_matches (s : Stats) : Stats :=
  {| total_requests := total_requests s; excel_matches := S (excel_matches s);
     api_calls := api_calls s; successful_answers := successful_answers s;
     failed_answers := failed_answers s |}.
Definition incr_api_calls (s : Stats) : Stats :=
  {| total_requests := total_requests s; excel_matches := excel_matches s;
     api_calls := S (api_calls s); successful_answers := successful_answers s;
     failed_answers := failed_answers s |}.
Definition incr_successful_answers (s : Stats) : Stats :=
  {| total_requests := total_requests s; excel_matches := excel_matches s;
     api_calls := api_calls s; successful_answers := S (successful_answers s);
     failed_answers := failed_answers s |}.
Definition incr_failed_answers (s : Stats) : Stats :=
  {| total_requests := total_requests s; excel_matches := excel_matches s;
     api_calls := api_calls s; successful_answers := successful_answers s;
     failed_answers := S (failed_answers s) |}.

(** What a result dictionary carries besides the flag and the error. *)
Inductive payload :=
| FromExcel (best_match : Bank.MatchResult)
| FromApi (api_result : Api.SolveResult)
| NoPayload.

Record Result := {
  success : bool;
  error : option Py.str;
  content : payload
}.

Definition failed (reason : Py.str) : Result :=
  {| success := false; error := Some reason; content := NoPayload |}.

(** A call that leaves the handler: a step of the pipeline or a call of the
    overlay window. *)
Inductive event :=
| Capture
| Search (question_text : Py.str)
| Solve (question_text : Py.str)
| ShowStatus (message : Py.str)
| ShowAnswer (result : Result)
| ShowError (message : Py.str).

Definition is_pipeline_step (e : event) : bool :=
  match e with
  | Capture | Search _ | Solve _ => true
  | _ => false
  end.

(** A computation reads and writes the application object and adds to the
    trace of calls; both outlive an exception. *)
Definition state : Type := App * list event.
Definition M (A : Type) : Type := state -> state * outcome A.

Definition ret {A} (a : A) : M A := fun s => (s, Return a).
Definition bind {A B} (c : M A) (k : A -> M B) : M B :=
  fun s => match c s with
           | (s', Return a) => k a s'
           | (s', Raise e) => (s', Raise e)
           end.
Definition emit (e : event) : M unit := fun s => ((fst s, snd s ++ [e]), Return tt).
Definition lift {A} (c : outcome A) : M A := fun s => (s, c).
Definition update (f : App -> App) : M unit := fun s => ((f (fst s), snd s), Return tt).
Definition read : M App := fun s => (s, Return (fst s)).

(** [try: body except Exception as e: handler(e)] *)
Definition try_ {A} (body : M A) (handler : exn -> M A) : M A :=
  fun s => match body s with
           | (s', Return a) => (s', Return a)
           | (s', Raise e) => handler e s'
           end.

(** [try: body finally: final]: [final] runs on both ways out, and the
    outcome of [body] stands unless [final] raises. *)
Definition finally {A} (body : M A) (final : M unit) : M A :=
  fun s => match body s with
           | (s', out) =>
             match final s' with
             | (s'', Return _) => (s'', out)
             | (s'', Raise e) => (s'', Raise e)
             end
           end.

(** A computation that returns and leaves the busy flag as it found it. *)
Definition quiet {A} (c : M A) : Prop :=
  forall s, exists s' a, c s = (s', Return a)
                         /\ is_processing (fst s') = is_processing (fst s).

(** A computation that may raise but leaves the busy flag as it found it. *)
Definition keeps_flag {A} (c : M A) : Prop :=
  forall s, is_processing (fst (fst (c s))) = is_processing (fst s).

Declare Scope main_scope.
Delimit Scope main_scope with main.
Notation "x <- c ;; k" := (bind c (fun x => k))
  (at level 100, c at next level, right associativity) : main_scope.
Notation "c ;;; k" := (bind c (fun _ => k))
  (at level 100, right associativity) : main_scope.

Section Handler.
(** The collaborators of the orchestrator; any of them may raise. *)
Variable capture_and_extract : outcome (option Py.str).
Variable search_question : Py.str -> outcome (list Bank.MatchResult).
Variable solve_question : Py.str -> outcome Api.SolveResult.
(** [root.after] behind [show_status], and the body of [show_answer]. *)
Variable tk_status : Py.str -> outcome unit.
Variable tk_render : Result -> outcome unit.

(** [gui_window.show_status]: no [try] around the toolkit call. *)
Definition show_status (message : Py.str) : M unit :=
  (emit (ShowStatus message) ;;; lift (tk_status message))%main.

(** [gui_window.show_answer]: its [try] swallows every exception. *)
Definition show_answer (result : Result) : M unit :=
  (emit (ShowAnswer result) ;;;
   try_ (lift (tk_render result)) (fun _ => ret tt))%main.

(** [gui_window.show_error], which goes through [show_answer]. *)
Definition show_error (message : Py.str) : M unit :=
  (emit (ShowError message) ;;;
   try_ (lift (tk_render (failed message))) (fun _ => ret tt))%main.

(** The log lines are left out, and so is [_save_api_answer_to_excel],
    whose body is [pass]. *)
Definition _process_question : M (option Result) :=
  try_
    (show_status (Py.lit "正在识别题目...") ;;;
     emit Capture ;;;
     question_text <- lift capture_and_extract ;;
     match question_text with
     | None => ret (Some (failed (Py.lit "OCR识别失败或文本过短")))
     | Some question_text =>
       if negb (Py.truthy question_text)
          || (length (Py.strip question_text) <? 3)%nat
       then ret (Some (failed (Py.lit "OCR识别失败或文本过短")))
       else
         show_status (Py.lit "正在查询题库...") ;;;
         emit (Search question_text) ;;;
         excel_results <- lift (search_question question_text) ;;
         match excel_results with
         | best_match :: _ =>
           update (map_stats incr_excel_matches) ;;;
           let result :=
             {| success := true; error := None; content := FromExcel best_match |} in
           show_answer result ;;;
           ret (Some result)
         | [] =>
           show_status (Py.lit "正在调用AI解答...") ;;;
           update (map_stats incr_api_calls) ;;;
           emit (Solve question_text) ;;;
           api_result <- lift (solve_question question_text) ;;
           if Api.success api_result then
             let result :=
               {| success := true; error := None; content := FromApi api_result |} in
             show_answer result ;;;
             ret (Some result)
           else
             ret (Some (failed (Py.lit "API调用失败: "
                                ++ default (Py.lit "None") (Api.error api_result))))
         end
     end)%main
    (fun e => ret (Some (failed (snd e)))).

Definition _on_hotkey_triggered : M unit :=
  (app <- read ;;
   if is_processing app then
     show_status (Py.lit "处理中，请稍候...")
   else
     update (set_is_processing true) ;;;
     update (map_stats incr_total_requests) ;;;
     finally
       (try_
          (result <- _process_question ;;
           match result with
           | Some r =>
             if success r then update (map_stats incr_successful_answers)
             else
               update (map_stats incr_failed_answers) ;;;
               show_error (Py.lit "处理失败: "
                           ++ default (Py.lit "未知错误") (error r))
           | None =>
             update (map_stats incr_failed_answers) ;;;
             show_error (Py.lit "处理失败: " ++ Py.lit "处理失败")
           end)
          (fun e =>
             update (map_stats incr_failed_answers) ;;;
             show_error (Py.lit "处理异常: " ++ snd e)))
       (update (set_is_processing false)))%main.
End Handler.

End Main.

(** ** Inputs for examples *)

Module Examples.

(** A reply in the shape the endpoint documents. *)
Definition good_body (text : Py.str) : json :=
  JDict {[ Py.lit "choices" :=
             JList [JDict {[ Py.lit "message" :=
                               JDict {[ Py.lit "content" := JStr text ]} ]}] ]}.

Definition answer_with (status : Z) : attempt :=
  Answer {| status_code := status; retry_after := false;
            body := if (status =? 200)%Z
                    then Return (good_body (Py.lit "思考過程: 1 と 1 を足す
答え: 2"))
                    else Raise (JSONDecodeError, Py.lit "Expecting value") |}.

(** Status 500 twice, then 200. *)
Definition srv_500_500_200 : server :=
  fun n => match n with
           | 0%nat | 1%nat => answer_with 500
           | _ => answer_with 200
           end.

(** Status 401 on every attempt. *)
Definition srv_401 : server := fun _ => answer_with 401.

(** Status 200 on every attempt. *)
Definition srv_200 : server := fun _ => answer_with 200.

(** The connection fails once, then status 200. *)
Definition srv_refused_200 : server :=
  fun n => match n with
           | 0%nat => ConnectFailed
           | _ => answer_with 200
           end.

(** The connection fails on every attempt. *)
Definition srv_down : server := fun _ => ConnectFailed.

(** A [format] for the template of the prompt: the one field replaced. *)
Fixpoint replace_field (template question : Py.str) : Py.str :=
  if Py.startswith (Py.lit "{question}") template
  then question ++ drop 10 template
  else match template with
       | [] => []
       | c :: r => c :: replace_field r question
       end.

Definition sample_format (template question : Py.str) : outcome Py.str :=
  Return (replace_field template question).

Definition sample_config : Api.ApiConfig :=
  {| Api.api_key := Some (Py.lit "key");
     Api.api_endpoint := Some (Py.lit "https://example.openai.azure.com/");
     Api.api_version := None; Api.deployment_name := None |}.

(** The first sheet of [create_sample_excel], with one more option column
    and the correct answer after the options: the question in column A, the
    options "1", "2", "3", "4", "4" in columns B to F, the correct answer
    "B" in column G. *)
Definition math_sheet : Bank.DataFrame :=
  {| Bank.df_columns := map Py.lit ["A"; "B"; "C"; "D"; "E"; "F"; "G"]%string;
     Bank.df_rows :=
       [ map (fun s => Bank.CStr (Py.lit s))
             ["1+1等于多少？"; "1"; "2"; "3"; "4"; "4"; "B"]%string;
         map (fun s => Bank.CStr (Py.lit s))
             ["2*3等于多少？"; "5"; "6"; "7"; "8"; "8"; "B"]%string ] |}.

(** The same sheet with the first row only. *)
Definition one_row_sheet : Bank.DataFrame :=
  {| Bank.df_columns := Bank.df_columns math_sheet;
     Bank.df_rows := take 1 (Bank.df_rows math_sheet) |}.

(** The options are the columns B to F, so their letters are A to E. *)
Definition by_columns : Bank.SheetConfig :=
  {| Bank.question_column := Some (Py.lit "A");
     Bank.answer_columns := map Py.lit ["B"; "C"; "D"; "E"; "F"]%string;
     Bank.correct_answer_column := Some (Py.lit "G") |}.

(** A first answer column that the sheet does not have, so that the
    letters of the columns B to F are B to F. *)
Definition by_letters : Bank.SheetConfig :=
  {| Bank.question_column := Some (Py.lit "A");
     Bank.answer_columns := map Py.lit ["-"; "B"; "C"; "D"; "E"; "F"]%string;
     Bank.correct_answer_column := Some (Py.lit "G") |}.

Definition bank (df : Bank.DataFrame) (sc : Bank.SheetConfig) (thr : option Q)
    : Bank.ExcelHandler :=
  {| Bank.sheets_config := [(Py.lit "数学问题", sc)];
     Bank.fuzzy_config := {| Bank.threshold := thr; Bank.max_results := None |};
     Bank._cache := {[ Py.lit "数学问题" := df ]} |}.

Definition idle_app : Main.App :=
  {| Main.is_processing := false;
     Main.stats := {| Main.total_requests := 0; Main.excel_matches := 0;
                      Main.api_calls := 0; Main.successful_answers := 0;
                      Main.failed_answers := 0 |} |}.

Definition busy_app : Main.App := Main.set_is_processing true idle_app.

(** A toolkit whose main loop is gone: every call raises. *)
Definition tk_dead {A} (_ : A) : outcome unit :=
  Raise (OtherError, Py.lit "main thread is not in main loop").

End Examples.

(** ** [utils.py]: the configuration store *)

Module Config.

(** [d[k] = v] *)
Definition json_setitem (config : json) (k : Py.str) (v : json) : outcome json :=
  match config with
  | JDict d => Return (JDict (<[k := v]> d))
  | _ => Raise (TypeError, Py.lit "object does not support item assignment")
  end.

(** The walk of [get] over the keys of the path. *)
Fixpoint get_keys (value : json) (keys : list Py.str) (dflt : json) : json :=
  match keys with
  | [] => value
  | key :: rest =>
    match value with
    | JDict d =>
      match d !! key with
      | Some v => get_keys v rest dflt
      | None => dflt
      end
    | _ => dflt
    end
  end.

(** [ConfigManager.get(key_path, default)] on the loaded tree. *)
Definition get (config : json) (key_path : Py.str) (dflt : json) : json :=
  get_keys config (Py.split 46 key_path) dflt.

(** One turn of the loop of [update]: [key not in config], the empty
    dictionary stored for a missing key, and [config = config[key]].  For a
    value that is not a dictionary one of the three raises. *)
Definition descend (config : json) (key : Py.str) : outcome json :=
  match config with
  | JDict d => Return (default (JDict ∅) (d !! key))
  | _ => Raise (TypeError, Py.lit "value on the path is not a dictionary")
  end.

(** The walk of [update]: the dictionaries on the path are changed in
    place, which reads here as storing the changed child back. *)
Fixpoint update_keys (config : json) (keys : list Py.str) (value : json) : outcome json :=
  match keys with
  | [] => Raise (IndexError, Py.lit "list index out of range")
  | [key] => json_setitem config key value
  | key :: rest =>
    (child <-- descend config key ;;
     child' <-- update_keys child rest value ;;
     json_setitem config key child')%outcome
  end.

(** [ConfigManager.update(key_path, value)]: the tree afterwards.  Writing
    the file is left out; its errors are swallowed by [_save_config]. *)
Definition update (config : json) (key_path : Py.str) (value : json) : outcome json :=
  update_keys config (Py.split 46 key_path) value.

(** The walk of [update] meets a value that is not a dictionary where it
    needs one. *)
Fixpoint walk_blocked (config : json) (keys : list Py.str) : bool :=
  match keys with
  | [] => false
  | key :: rest =>
    match config with
    | JDict d =>
      match d !! key, rest with
      | Some v, _ :: _ => walk_blocked v rest
      | _, _ => false
      end
    | _ => true
    end
  end.

Definition required_keys : list Py.str :=
  map Py.lit ["api.api_key"; "api.api_endpoint"; "ocr.language"; "excel.file_path";
              "hotkey.trigger_key"]%string.

(** [validate_config]: no required key is missing or false. *)
Definition validate_config (config : json) : bool :=
  let missing_keys :=
    List.filter (fun key => negb (json_truthy (get config key JNull))) required_keys in
  match missing_keys with
  | [] => true
  | _ => false
  end.

(** [APIHandler._validate_config]: raises [ValueError] on a missing key. *)
Definition _validate_config (config : json) : outcome unit :=
  let required_keys := map Py.lit ["api.api_key"; "api.api_endpoint"]%string in
  let missing_keys :=
    List.filter (fun key => negb (json_truthy (get config key JNull))) required_keys in
  match missing_keys with
  | [] => Return tt
  | _ => Raise (ValueError, Py.lit "缺少必要的API配置")
  end.

(** [d.setdefault(k, {})]: the dictionary afterwards and the value. *)
Definition json_setdefault (config : json) (k : Py.str) : outcome (json * json) :=
  match config with
  | JDict d =>
    match d !! k with
    | Some v => Return (config, v)
    | None => Return (JDict (<[k := JDict ∅]> d), JDict ∅)
    end
  | _ => Raise (no_attribute config (Py.lit "setdefault"))
  end.

(** [config[section][key] = v] for a section that is there. *)
Definition set_in_section (config : json) (section key : Py.str) (v : json)
    : outcome json :=
  (sec <-- json_getitem config section ;;
   sec' <-- json_setitem sec key v ;;
   json_setitem config section sec')%outcome.

(** [APIHandler.test_connection]: the configuration afterwards and the
    answer.  [solve] is [solve_question] on the test prompt, which reads the
    configuration of the moment and does not raise. *)
Definition test_connection (solve : json -> Api.SolveResult) (config : json)
    : json * bool :=
  let body :=
    (let original_max_tokens := get config (Py.lit "api.max_tokens") (JNum 500) in
     cs <-- json_setdefault config (Py.lit "api") ;;
     config1 <-- set_in_section (fst cs) (Py.lit "api") (Py.lit "max_tokens") (JNum 50) ;;
     let result := solve config1 in
     config2 <-- set_in_section config1 (Py.lit "api") (Py.lit "max_tokens")
                   original_max_tokens ;;
     Return (config2, Api.success result))%outcome in
  match body with
  | Return r => r
  | Raise _ => (config, false)
  end.

(** A configuration with the keys that [validate_config] asks for. *)
Definition sample_tree : json :=
  JDict {[ Py.lit "api" := JDict {[ Py.lit "api_key" := JStr (Py.lit "key");
                                    Py.lit "api_endpoint" := JStr (Py.lit "https://example.openai.azure.com/") ]};
           Py.lit "ocr" := JDict {[ Py.lit "language" := JStr (Py.lit "jpn") ]};
           Py.lit "excel" := JDict {[ Py.lit "file_path" := JStr (Py.lit "questions.xlsx") ]};
           Py.lit "hotkey" := JDict {[ Py.lit "trigger_key" := JStr (Py.lit "f12") ]} ]}.

End Config.

(** ** More inputs for examples *)

Module MoreExamples.

(** A match of the bank, as [search_question] would return it. *)
Definition sample_hit : Bank.MatchResult :=
  {| Bank.sheet_name := Py.lit "数学问题"; Bank.row_index := 0%nat;
     Bank.question := Py.lit "1+1等于多少？"; Bank.match_score := 1%Q;
     Bank.answer_info := {| Bank.options := {[ Py.lit "A" := Py.lit "1";
                                               Py.lit "B" := Py.lit "2" ]};
                            Bank.correct_answer := Py.lit "B";
                            Bank.answer_text := Py.lit "2" |};
     Bank.matched_method := Bank.Exact |}.

(** A window that takes every call. *)
Definition tk_ok {A} (_ : A) : outcome unit := Return tt.

End MoreExamples.

(** ** What a match says about the bank *)

Module BankFacts.
Import Bank.

(** A match points into the bank: its sheet is configured and loaded, its
    row is a row of that sheet, and its question and its answer are read
    from that row. *)
Definition grounded (db : Py.UnicodeDB) (eh : ExcelHandler) (r : MatchResult) : Prop :=
  exists sc df col row,
    In (sheet_name r, sc) (sheets_config eh)
    /\ _cache eh !! sheet_name r = Some df
    /\ question_column sc = Some col
    /\ has_column df col = true
    /\ df_rows df !! row_index r = Some row
    /\ question r = str_of_cell (row_get df row col)
    /\ answer_info r = _extract_answer_info db df row sc.

(** A lower-case letter, a digit, an underscore or a space. *)
Definition clean_ascii (c : N) : Prop :=
  c = 32 \/ c = 95 \/ 48 <= c <= 57 \/ 97 <= c <= 122.

End BankFacts.

(** ** [hotkey_listener.py]: the key handlers *)

Module Hotkey.

(** What the handlers put on the event queue. *)
Inductive queued :=
| QTrigger (timestamp : Q)
| QExit
| QReloadConfig
| QShowStats.

(** The fields of [HotkeyListener] the key handlers read and write.  The
    clock gives exact rationals here, and the queue is the sequence of
    what was put on it. *)
Record HotkeyListener := {
  last_trigger_time : Q;
  debounce_interval : Q;
  total_triggers : nat;
  event_queue : list queued
}.

(** The fields as [__init__] sets them. *)
Definition init : HotkeyListener :=
  {| last_trigger_time := 0; debounce_interval := 1; total_triggers := 0;
     event_queue := [] |}.

Definition put (e : queued) (h : HotkeyListener) : HotkeyListener :=
  {| last_trigger_time := last_trigger_time h;
     debounce_interval := debounce_interval h;
     total_triggers := total_triggers h;
     event_queue := event_queue h ++ [e] |}.

(** [_on_trigger_key], with the value of [time.time()]. *)
Definition _on_trigger_key (current_time : Q) (h : HotkeyListener) : HotkeyListener :=
  if Bank.Qltb (current_time - last_trigger_time h) (debounce_interval h) then h
  else
    put (QTrigger current_time)
        {| last_trigger_time := current_time;
           debounce_interval := debounce_interval h;
           total_triggers := S (total_triggers h);
           event_queue := event_queue h |}.

Definition _on_exit_key (h : HotkeyListener) : HotkeyListener := put QExit h.
Definition _on_reload_config (h : HotkeyListener) : HotkeyListener := put QReloadConfig h.
Definition _on_show_stats (h : HotkeyListener) : HotkeyListener := put QShowStats h.

(** A press of one of the four registered hot keys; for the trigger key,
    with the time of the press. *)
Inductive key :=
| TriggerKey (current_time : Q)
| ExitKey
| ReloadKey
| StatsKey.

Definition press (h : HotkeyListener) (k : key) : HotkeyListener :=
  match k with
  | TriggerKey t => _on_trigger_key t h
  | ExitKey => _on_exit_key h
  | ReloadKey => _on_reload_config h
  | StatsKey => _on_show_stats h
  end.

(** The time stamps of the triggers among queued events. *)
Definition trigger_stamps (l : list queued) : list Q :=
  flat_map (fun e => match e with QTrigger t => [t] | _ => [] end) l.

(** The queued events other than triggers. *)
Definition others (l : list queued) : list queued :=
  List.filter (fun e => match e with QTrigger _ => false | _ => true end) l.

Definition key_event (k : key) : queued :=
  match k with
  | TriggerKey t => QTrigger t
  | ExitKey => QExit
  | ReloadKey => QReloadConfig
  | StatsKey => QShowStats
  end.

(** Each time stamp is at least [d] after the one before it, the first
    one after [last]. *)
Fixpoint spaced (d last : Q) (l : list Q) : Prop :=
  match l with
  | [] => True
  | t :: r => (d <= t - last)%Q /\ spaced d t r
  end.

End Hotkey.

(** ** [ocr_handler.py]: the recognised text *)

Module Ocr.

(** [sep.join(l)] *)
Definition join (sep : Py.str) (l : list Py.str) : Py.str :=
  match l with
  | [] => []
  | x :: r => x ++ flat_map (fun y => sep ++ y) r
  end.

(** The pieces between the white space characters of [s]. *)
Fixpoint fields (s : Py.str) : list Py.str :=
  match s with
  | [] => [[]]
  | c :: r =>
    if Py.isspace c then [] :: fields r
    else match fields r with
         | h :: t => (c :: h) :: t
         | [] => [[c]]
         end
  end.

(** [s.split()] *)
Definition split_ws (s : Py.str) : list Py.str := List.filter Py.truthy (fields s).

(** Replacement of the matches of a pattern from left to right, without
    overlap: [m] says whether the pattern matches at the start of a text,
    and gives the replacement and the length of the match, which is not 0;
    [skip] characters are still part of the last match. *)
Fixpoint sub_with (m : Py.str -> option (Py.str * nat)) (skip : nat) (s : Py.str)
    : Py.str :=
  match s with
  | [] => []
  | c :: r =>
    match skip with
    | S k => sub_with m k r
    | O =>
      match m s with
      | Some (new, n) => new ++ sub_with m (n - 1) r
      | None => c :: sub_with m 0 r
      end
    end
  end.

(** [s.replace(old, new)] for an [old] that is not empty. *)
Definition replace (old new : Py.str) (s : Py.str) : Py.str :=
  sub_with (fun t => if Py.startswith old t then Some (new, length old) else None) 0%nat s.

Definition error_chars : list Py.str :=
  map Py.lit ["|"; "_"; "~"; "^"; "`"; "¢"; "£"; "¥"; "©"; "®"; "™"]%string.

(** The dictionary [replacements], in the order of its items. *)
Definition replacements : list (Py.str * Py.str) :=
  [(Py.lit "O", Py.lit "0"); (Py.lit "l", Py.lit "1"); (Py.lit "I", Py.lit "1");
   (Py.lit "…", Py.lit "..."); (Py.lit "―", Py.lit "—")].

(** [[+\-×÷=]] *)
Definition is_operator (c : N) : bool := existsb (N.eqb c) (Py.lit "+-×÷=").

(** [[。、！？：；]] *)
Definition is_punctuation (c : N) : bool := existsb (N.eqb c) (Py.lit "。、！？：；").

Section Clean.
(** The decimal digits from 128 on, from the character database of the
    interpreter. *)
Variable uni_isdecimal : N -> bool.

(** The class [\d] of a [str] pattern. *)
Definition is_digit (c : N) : bool :=
  if c <? 128 then (48 <=? c) && (c <=? 57) else uni_isdecimal c.

(** [(\d)\s*([+\-×÷=])\s*(\d)] at the start of [s], with the replacement
    [\1\2\3].  What follows [\s*] is not white space, so the greedy match
    is the only one. *)
Definition match_arithmetic (s : Py.str) : option (Py.str * nat) :=
  match s with
  | d1 :: r =>
    if is_digit d1 then
      match Py.lstrip r with
      | op :: r2 =>
        if is_operator op then
          match Py.lstrip r2 with
          | d2 :: tail =>
            if is_digit d2 then Some ([d1; op; d2], (length s - length tail)%nat)
            else None
          | [] => None
          end
        else None
      | [] => None
      end
    else None
  | [] => None
  end.

(** [\s+([。、！？：；])] at the start of [s], with the replacement [\1]. *)
Definition match_space_punctuation (s : Py.str) : option (Py.str * nat) :=
  match s with
  | c :: r =>
    if Py.isspace c then
      match Py.lstrip r with
      | p :: tail =>
        if is_punctuation p then Some ([p], (length s - length tail)%nat) else None
      | [] => None
      end
    else None
  | [] => None
  end.

Definition _clean_text (text : Py.str) : Py.str :=
  if negb (Py.truthy text) then []
  else
    let text := join (Py.lit " ") (split_ws text) in
    let text := fold_left (fun text char => replace char [] text) error_chars text in
    let text :=
      fold_left (fun text old_new => replace (fst old_new) (snd old_new) text)
                replacements text in
    let text := replace (Py.lit " 、") (Py.lit "、")
                  (replace (Py.lit " 。") (Py.lit "。") text) in
    let text := replace (Py.lit " ？") (Py.lit "？")
                  (replace (Py.lit " ！") (Py.lit "！") text) in
    let text := replace (Py.lit " )") (Py.lit "）")
                  (replace (Py.lit "( ") (Py.lit "（") text) in
    let text := replace (Py.lit " ]") (Py.lit "」")
                  (replace (Py.lit "[ ") (Py.lit "「") text) in
    let text := replace (Py.lit " }") (Py.lit "】")
                  (replace (Py.lit "{ ") (Py.lit "【") text) in
    let text := sub_with match_arithmetic 0%nat text in
    let text := sub_with match_space_punctuation 0%nat text in
    let text := Bank.collapse_spaces false text in
    Py.strip text.

(** The three settings [extract_text] runs the engine with. *)
Inductive tess_config := Standard | SingleWord | Basic.

(** [pytesseract.image_to_string] on the image [extract_text] ends up
    with, for each setting; [image.copy()]; the two flags of the module. *)
Variable image_to_string : tess_config -> outcome Py.str.
Variable image_copy : outcome unit.
Variable PYTESSERACT_AVAILABLE PIL_AVAILABLE : bool.

(** One of the [try] blocks around a call of the engine. *)
Definition recognise (cfg : tess_config) (text_results : list Py.str) : list Py.str :=
  match image_to_string cfg with
  | Return text => if Py.truthy (Py.strip text) then text_results ++ [text]
                   else text_results
  | Raise _ => text_results
  end.

(** [max(l, key=key)]: the first of the greatest elements. *)
Definition py_max {A} (key : A -> nat) (l : list A) : option A :=
  match l with
  | [] => None
  | x :: r => Some (fold_left (fun best y => if (key best <? key y)%nat then y else best) r x)
  end.

Definition extract_text : Py.str :=
  if negb PYTESSERACT_AVAILABLE then []
  else if negb PIL_AVAILABLE then []
  else
    match image_copy with
    | Raise _ => []
    | Return _ =>
      let text_results := recognise Standard [] in
      let text_results := recognise SingleWord text_results in
      let text_results :=
        match text_results with
        | [] => recognise Basic text_results
        | _ => text_results
        end in
      match py_max (fun x => length (Py.strip x)) text_results with
      | Some best_text => _clean_text best_text
      | None => []
      end
    end.
End Clean.

(** The characters [_clean_text] removes or rewrites. *)
Definition rewritten : Py.str := Py.lit "|_~^`¢£¥©®™OlI…―".

End Ocr.

(** * Properties *)

(** ** Strings *)

Example lit_answer_label : Py.lit "答え:" = [31572; 12360; 58].
Proof. reflexivity. Qed.

Example split_lines : Py.split 10 (Py.lit "a
b") = [[97]; [98]].
Proof. reflexivity. Qed.

Example strip_both : Py.strip (Py.lit "  a b ") = Py.lit "a b".
Proof. reflexivity. Qed.

(** ** Parsing the model's reply *)

Section ParseFacts.
Import Api.

Lemma split1_after_prefix (p line : Py.str) :
  Py.startswith p line = true -> In colon p ->
  exists a b t, Py.split1 colon line = a :: b :: t.
Proof.
  revert line. induction p as [|x p IH]; intros line Hp Hin; [destruct Hin|].
  destruct line as [|y line]; [discriminate|].
  simpl in Hp. apply andb_prop in Hp as [Hxy Hp].
  apply N.eqb_eq in Hxy. subst y. cbn [Py.split1].
  destruct (x =? colon) eqn:Hx.
  - eauto.
  - destruct Hin as [Hin|Hin]; [subst x; rewrite N.eqb_refl in Hx; discriminate|].
    destruct (IH line Hp Hin) as (a & b & t & ->). eauto.
Qed.

Lemma labelled_value_ok (p line : Py.str) (r : ParsedAnswer) :
  Py.startswith p line = true -> In colon p ->
  labelled_value line r = (r, Return (line_value line)).
Proof.
  intros Hp Hin. destruct (split1_after_prefix p line Hp Hin) as (a & b & t & E).
  unfold labelled_value, line_value, bind, lift, ret. rewrite E. reflexivity.
Qed.

Ltac label_case p :=
  match goal with
  | H : Py.startswith (Py.lit p) ?line = true |- _ =>
    rewrite (labelled_value_ok (Py.lit p) line _ H) by (vm_compute; tauto)
  end.

(** A turn of the loop never raises, and writes what [apply_line] says. *)
Lemma parse_line_apply (line0 : Py.str) (r : ParsedAnswer) :
  parse_line line0 r = (apply_line r line0, Return tt).
Proof.
  unfold parse_line, apply_line, classify.
  set (line := Py.strip line0).
  repeat match goal with
  | |- context [if Py.startswith (Py.lit ?p) line || _ then _ else _] =>
    let E := fresh "E" in
    destruct (Py.startswith (Py.lit p) line) eqn:E; cbn [orb];
    [unfold bind, modify; label_case p; reflexivity|]
  | |- context [if Py.startswith (Py.lit ?p) line then _ else _] =>
    let E := fresh "E" in
    destruct (Py.startswith (Py.lit p) line) eqn:E;
    [unfold bind, modify; label_case p; reflexivity|]
  end.
  reflexivity.
Qed.

Lemma for_each_parse_line (lines : list Py.str) (r : ParsedAnswer) :
  for_each parse_line lines r = (fold_left apply_line lines r, Return tt).
Proof.
  revert r. induction lines as [|l lines IH]; intros r; [reflexivity|].
  simpl. unfold bind. rewrite parse_line_apply. apply IH.
Qed.

Lemma field_set_field (l l' : label) (v : Py.str) (r : ParsedAnswer) :
  field l (set_field l' v r) = if label_eqb l l' then v else field l r.
Proof. destruct l, l'; reflexivity. Qed.

(** After the loop a key holds the value of the last line that carries its
    label, or what it held before when there is none. *)
Lemma scan_last_wins (l : label) (lines : list Py.str) (r : ParsedAnswer) :
  field l (fold_left apply_line lines r) =
  match last (labelled l lines) with
  | Some line => line_value (Py.strip line)
  | None => field l r
  end.
Proof.
  revert r. induction lines as [|x lines IH]; intros r; [reflexivity|].
  simpl fold_left. rewrite IH. unfold labelled. simpl List.filter.
  fold (labelled l lines). unfold apply_line.
  destruct (classify (Py.strip x)) as [l'|].
  - rewrite field_set_field. destruct (label_eqb l l').
    + rewrite last_cons. destruct (last (labelled l lines)); reflexivity.
    + reflexivity.
  - reflexivity.
Qed.

Variable db : Py.UnicodeDB.

(** The whole parser as a function: the loop, the fall-back on the last
    line that is not blank, the search for an option letter.  Its [try]
    never reaches the handler. *)
Lemma parse_answer_unfold (text : Py.str) :
  let scanned := fold_left apply_line (lines_of text) initial_result in
  let filled :=
    if negb (Py.truthy (answer scanned)) && negb (Py.truthy (correct_option scanned))
    then set_answer (default (Py.strip text) (last (non_empty_lines (lines_of text))))
                    scanned
    else scanned in
  _parse_answer db text =
  if negb (Py.truthy (correct_option filled))
  then match option_of db (answer filled) with
       | [] => filled
       | o => set_correct_option o filled
       end
  else filled.
Proof.
  intros scanned filled.
  unfold _parse_answer, try_, parse_body, bind, get.
  fold (lines_of text). rewrite for_each_parse_line. fold scanned.
  assert (E : (if negb (Py.truthy (answer scanned)) && negb (Py.truthy (correct_option scanned))
               then match last (non_empty_lines (lines_of text)) with
                    | Some l => modify (set_answer l)
                    | None => modify (set_answer (Py.strip text))
                    end
               else ret tt) scanned = (filled, Return tt)).
  { unfold filled.
    destruct (negb (Py.truthy (answer scanned)) && negb (Py.truthy (correct_option scanned)));
      [|reflexivity].
    destruct (last (non_empty_lines (lines_of text))); reflexivity. }
  rewrite E. unfold option_of.
  destruct (negb (Py.truthy (correct_option filled))); [|reflexivity].
  destruct (search_bare_letter db None (answer filled)); [reflexivity|].
  destruct (search_answer_is (answer filled)); reflexivity.
Qed.

(** What the parser returns under a key whose label occurs in the reply. *)
Lemma parse_answer_labelled (text : Py.str) (l : label) (line : Py.str) :
  last (labelled l (lines_of text)) = Some line ->
  (l = LAnswer \/ l = LCorrectOption -> line_value (Py.strip line) <> []) ->
  field l (_parse_answer db text) = line_value (Py.strip line).
Proof.
  intros Hlast Hne. rewrite parse_answer_unfold.
  set (scanned := fold_left apply_line (lines_of text) initial_result).
  assert (Hs : field l scanned = line_value (Py.strip line)).
  { unfold scanned. rewrite scan_last_wins, Hlast. reflexivity. }
  destruct l; simpl in Hs.
  - (* reasoning *)
    destruct (negb (Py.truthy (answer scanned)) && negb (Py.truthy (correct_option scanned)));
      match goal with |- context [negb (Py.truthy (correct_option ?f))] =>
        destruct (negb (Py.truthy (correct_option f))), (option_of db (answer f)) end;
      exact Hs.
  - (* answer *)
    assert (Ht : Py.truthy (answer scanned) = true).
    { rewrite Hs. destruct (line_value (Py.strip line)); [|reflexivity].
      exfalso. apply Hne; auto. }
    rewrite Ht. cbn [negb andb].
    destruct (negb (Py.truthy (correct_option scanned))), (option_of db (answer scanned));
      exact Hs.
  - (* question_type *)
    destruct (negb (Py.truthy (answer scanned)) && negb (Py.truthy (correct_option scanned)));
      match goal with |- context [negb (Py.truthy (correct_option ?f))] =>
        destruct (negb (Py.truthy (correct_option f))), (option_of db (answer f)) end;
      exact Hs.
  - (* correct_option *)
    assert (Ht : Py.truthy (correct_option scanned) = true).
    { rewrite Hs. destruct (line_value (Py.strip line)); [|reflexivity].
      exfalso. apply Hne; auto. }
    rewrite Ht, andb_false_r. cbn [negb]. rewrite Ht. exact Hs.
Qed.

(** What the parser returns when no line carries the answer label or the
    correct-option label. *)
Lemma parse_answer_unlabelled (text : Py.str) :
  labelled LAnswer (lines_of text) = [] ->
  labelled LCorrectOption (lines_of text) = [] ->
  let ans := default (Py.strip text) (last (non_empty_lines (lines_of text))) in
  answer (_parse_answer db text) = ans /\
  correct_option (_parse_answer db text) = option_of db ans.
Proof.
  intros Ha Hc ans. rewrite parse_answer_unfold.
  set (scanned := fold_left apply_line (lines_of text) initial_result).
  assert (Hsa : answer scanned = []).
  { change (field LAnswer scanned = []). unfold scanned.
    rewrite scan_last_wins, Ha. reflexivity. }
  assert (Hsc : correct_option scanned = []).
  { change (field LCorrectOption scanned = []). unfold scanned.
    rewrite scan_last_wins, Hc. reflexivity. }
  rewrite Hsa, Hsc. cbn [Py.truthy negb andb]. fold ans.
  cbn [correct_option set_answer answer]. rewrite Hsc. cbn [Py.truthy negb].
  destruct (option_of db ans) eqn:E; cbn; rewrite ?Hsc; auto.
Qed.

End ParseFacts.

(** ** The two patterns for the option letter *)

Section RegexFacts.
Import Api.
Variable db : Py.UnicodeDB.

Lemma option_letter_class (c : N) :
  is_option_letter c = true <-> In c (Py.lit "ABCDabcd").
Proof.
  change (Py.lit "ABCDabcd") with [65; 66; 67; 68; 97; 98; 99; 100].
  unfold is_option_letter. cbn [In]. split.
  - intros H. apply orb_true_iff in H. rewrite !andb_true_iff, !N.leb_le in H. lia.
  - intros H. repeat (destruct H as [<-|H]; [reflexivity|]). destruct H.
Qed.

Lemma colon_class (c : N) :
  (c =? 65306) || (c =? colon) = true <-> In c (Py.lit "：:").
Proof.
  change (Py.lit "：:") with [65306; 58]. unfold colon. cbn [In]. split.
  - intros H. apply orb_true_iff in H. rewrite !N.eqb_eq in H. lia.
  - intros H. repeat (destruct H as [<-|H]; [reflexivity|]). destruct H.
Qed.

Lemma head_class (c : N) :
  (c =? 31572) || (c =? 27491) || (c =? 35299) = true <-> In c (Py.lit "答正解").
Proof.
  change (Py.lit "答正解") with [31572; 27491; 35299]. cbn [In]. split.
  - intros H. rewrite !orb_true_iff, !N.eqb_eq in H. lia.
  - intros H. repeat (destruct H as [<-|H]; [reflexivity|]). destruct H.
Qed.

Lemma option_letter_not_space (c : N) : In c (Py.lit "ABCDabcd") -> Py.isspace c = false.
Proof.
  change (Py.lit "ABCDabcd") with [65; 66; 67; 68; 97; 98; 99; 100]. cbn [In].
  intros H. repeat (destruct H as [<-|H]; [reflexivity|]). destruct H.
Qed.

(** The character before the letter, when [prev] stands before the text. *)
Abbreviation before prev pre :=
  (match last pre with Some y => Some y | None => prev end).

Lemma before_cons (prev : option N) (x : N) (pre : Py.str) :
  before prev (x :: pre) = before (Some x) pre.
Proof. rewrite last_cons. destruct (last pre); reflexivity. Qed.

Lemma search_bare_letter_spec (prev : option N) (s : Py.str) :
  match search_bare_letter db prev s with
  | Some c =>
    exists pre post,
      s = pre ++ c :: post
      /\ (In c (Py.lit "ABCDabcd") /\ word_opt db (before prev pre) = false
          /\ word_opt db (head post) = false)
      /\ forall pre' c' post',
           s = pre' ++ c' :: post' ->
           In c' (Py.lit "ABCDabcd") /\ word_opt db (before prev pre') = false
           /\ word_opt db (head post') = false ->
           (length pre <= length pre')%nat
  | None =>
    forall pre c post,
      s = pre ++ c :: post ->
      ~ (In c (Py.lit "ABCDabcd") /\ word_opt db (before prev pre) = false
         /\ word_opt db (head post) = false)
  end.
Proof.
  revert prev. induction s as [|x r IH]; intros prev.
  - cbn. intros pre c post H. destruct pre; discriminate.
  - cbn [search_bare_letter].
    destruct (is_option_letter x && negb (word_opt db prev)
              && negb (word_opt db (head r))) eqn:T.
    + apply andb_true_iff in T as [T T3]. apply andb_true_iff in T as [T1 T2].
      apply negb_true_iff in T2, T3. apply option_letter_class in T1.
      exists [], r. split; [reflexivity|]. split; [cbn; auto|].
      intros pre' c' post' _ _. cbn. lia.
    + assert (Hhere : forall c' post',
                x :: r = [] ++ c' :: post' ->
                ~ (In c' (Py.lit "ABCDabcd") /\ word_opt db (before prev []) = false
                   /\ word_opt db (head post') = false)).
      { intros c' post' E (H1 & H2 & H3). cbn in E, H2. injection E as <- <-.
        apply option_letter_class in H1. rewrite H1, H2, H3 in T. discriminate. }
      specialize (IH (Some x)).
      destruct (search_bare_letter db (Some x) r) as [c|].
      * destruct IH as (pre1 & post & -> & Hok & Hmin).
        exists (x :: pre1), post. split; [reflexivity|].
        split; [rewrite before_cons; exact Hok|].
        intros pre' c' post' E Hok'. destruct pre' as [|x' pre1'].
        { exfalso. exact (Hhere c' post' E Hok'). }
        cbn in E. injection E as <- E. rewrite before_cons in Hok'.
        cbn [length]. apply le_n_S. exact (Hmin pre1' c' post' E Hok').
      * intros pre c post E Hok. destruct pre as [|x' pre1].
        { exact (Hhere c post E Hok). }
        cbn in E. injection E as <- E. rewrite before_cons in Hok.
        exact (IH pre1 c post E Hok).
Qed.

Lemma before_none (pre : Py.str) : before None pre = last pre.
Proof. destruct (last pre); reflexivity. Qed.

(** The first pattern: the function gives the group of its leftmost match. *)
Lemma search_bare_letter_first (s : Py.str) :
  match search_bare_letter db None s with
  | Some c => first_bare_letter db s c
  | None => no_bare_letter db s
  end.
Proof.
  pose proof (search_bare_letter_spec None s) as H.
  destruct (search_bare_letter db None s) as [c|].
  - destruct H as (pre & post & E & Hok & Hmin). exists pre, post.
    rewrite before_none in Hok. split; [split; assumption|].
    intros pre' c' post' (E' & Hok'). apply (Hmin pre' c' post' E').
    rewrite before_none. exact Hok'.
  - intros pre c post (E & Hok). apply (H pre c post E).
    rewrite before_none. exact Hok.
Qed.

Lemma lstrip_spec (r : Py.str) :
  exists ws, r = ws ++ Py.lstrip r /\ Forall (fun x => Py.isspace x = true) ws.
Proof.
  induction r as [|x r (ws & E & Hws)]; [exists []; split; [reflexivity|constructor]|].
  cbn [Py.lstrip]. destruct (Py.isspace x) eqn:Ex.
  - exists (x :: ws). split; [cbn; congruence|constructor; assumption].
  - exists []. split; [reflexivity|constructor].
Qed.

Lemma lstrip_unique (ws : Py.str) (x : N) (t : Py.str) :
  Forall (fun y => Py.isspace y = true) ws -> Py.isspace x = false ->
  Py.lstrip (ws ++ x :: t) = x :: t.
Proof.
  intros Hws Hx. induction Hws as [|y ws Hy Hws IH]; cbn [app Py.lstrip].
  - rewrite Hx. reflexivity.
  - rewrite Hy. exact IH.
Qed.

Lemma match_colon_letter_spec (t : Py.str) :
  match match_colon_letter t with
  | Some c =>
    exists col ws post,
      t = col :: ws ++ c :: post /\ In col (Py.lit "：:")
      /\ Forall (fun x => Py.isspace x = true) ws /\ In c (Py.lit "ABCDabcd")
  | None =>
    forall col ws c post,
      t = col :: ws ++ c :: post -> In col (Py.lit "：:") ->
      Forall (fun x => Py.isspace x = true) ws -> In c (Py.lit "ABCDabcd") -> False
  end.
Proof.
  destruct t as [|x r]; [intros col ws c post E; discriminate|].
  cbn [match_colon_letter].
  destruct ((x =? 65306) || (x =? colon)) eqn:Hc.
  - destruct (lstrip_spec r) as (ws & Hr & Hws).
    destruct (Py.lstrip r) as [|y t'] eqn:El.
    + intros col ws' c post E _ Hws' Hl. injection E as _ E.
      rewrite E, (lstrip_unique ws' c post Hws' (option_letter_not_space c Hl)) in El.
      discriminate.
    + destruct (is_option_letter y) eqn:Hy.
      * exists x, ws, t'. split; [congruence|]. split; [apply colon_class, Hc|].
        split; [exact Hws|apply option_letter_class, Hy].
      * intros col ws' c post E _ Hws' Hl. injection E as _ E.
        rewrite E, (lstrip_unique ws' c post Hws' (option_letter_not_space c Hl)) in El.
        injection El as <- _. apply option_letter_class in Hl. congruence.
  - intros col ws c post E Hcol _ _. injection E as <- _.
    apply colon_class in Hcol. congruence.
Qed.

Lemma match_dotstar_spec (t : Py.str) :
  match match_dotstar t with
  | Some c =>
    exists mid col ws post,
      t = mid ++ col :: ws ++ c :: post
      /\ Forall (fun x => x <> newline) mid /\ In col (Py.lit "：:")
      /\ Forall (fun x => Py.isspace x = true) ws /\ In c (Py.lit "ABCDabcd")
      /\ forall mid' col' ws' c' post',
           t = mid' ++ col' :: ws' ++ c' :: post' ->
           Forall (fun x => x <> newline) mid' -> In col' (Py.lit "：:") ->
           Forall (fun x => Py.isspace x = true) ws' -> In c' (Py.lit "ABCDabcd") ->
           (length mid' <= length mid)%nat
  | None =>
    forall mid col ws c post,
      t = mid ++ col :: ws ++ c :: post ->
      Forall (fun x => x <> newline) mid -> In col (Py.lit "：:") ->
      Forall (fun x => Py.isspace x = true) ws -> In c (Py.lit "ABCDabcd") -> False
  end.
Proof.
  induction t as [|x r IH].
  - cbn. intros mid col ws c post E. destruct mid; discriminate.
  - cbn [match_dotstar].
    assert (Hlater : (x =? newline) = true \/ match_dotstar r = None ->
              forall mid col ws c post,
                x :: r = (x :: mid) ++ col :: ws ++ c :: post ->
                Forall (fun y => y <> newline) (x :: mid) -> In col (Py.lit "：:") ->
                Forall (fun y => Py.isspace y = true) ws -> In c (Py.lit "ABCDabcd") ->
                False).
    { intros Hcase mid col ws c post E Hmid Hcol Hws Hl.
      apply Forall_cons in Hmid as [Hx Hmid]. destruct Hcase as [Hnl|Hnone].
      - apply N.eqb_eq in Hnl. contradiction.
      - rewrite Hnone in IH. cbn in E. injection E as E.
        exact (IH mid col ws c post E Hmid Hcol Hws Hl). }
    destruct (x =? newline) eqn:Hnl.
    + pose proof (match_colon_letter_spec (x :: r)) as Hm.
      destruct (match_colon_letter (x :: r)) as [c|].
      * destruct Hm as (col & ws & post & E & Hcol & Hws & Hl).
        exists [], col, ws, post. split; [exact E|]. split; [constructor|].
        split; [exact Hcol|]. split; [exact Hws|]. split; [exact Hl|].
        intros mid' col' ws' c' post' E' Hmid' Hcol' Hws' Hl'.
        destruct mid' as [|x' mid']; [cbn; lia|]. exfalso.
        cbn in E'. injection E' as <- E'.
        eapply (Hlater (or_introl eq_refl) mid' col' ws' c' post'); eauto.
        cbn. congruence.
      * intros mid col ws c post E Hmid Hcol Hws Hl.
        destruct mid as [|x' mid]; [exact (Hm col ws c post E Hcol Hws Hl)|].
        cbn in E. injection E as <- E.
        eapply (Hlater (or_introl eq_refl) mid col ws c post); eauto.
        cbn. congruence.
    + destruct (match_dotstar r) as [y|] eqn:Hr.
      * destruct IH as (mid & col & ws & post & E & Hmid & Hcol & Hws & Hl & Hmax).
        exists (x :: mid), col, ws, post. split; [cbn; congruence|].
        split; [constructor; [apply N.eqb_neq, Hnl|exact Hmid]|].
        split; [exact Hcol|]. split; [exact Hws|]. split; [exact Hl|].
        intros mid' col' ws' c' post' E' Hmid' Hcol' Hws' Hl'.
        destruct mid' as [|x' mid']; [cbn; lia|].
        cbn in E'. injection E' as <- E'. apply Forall_cons in Hmid' as [_ Hmid'].
        cbn [length]. apply le_n_S. eapply Hmax; eauto.
      * pose proof (match_colon_letter_spec (x :: r)) as Hm.
        destruct (match_colon_letter (x :: r)) as [c|].
        -- destruct Hm as (col & ws & post & E & Hcol & Hws & Hl).
           exists [], col, ws, post. split; [exact E|]. split; [constructor|].
           split; [exact Hcol|]. split; [exact Hws|]. split; [exact Hl|].
           intros mid' col' ws' c' post' E' Hmid' Hcol' Hws' Hl'.
           destruct mid' as [|x' mid']; [cbn; lia|]. exfalso.
           cbn in E'. injection E' as <- E'.
           eapply (Hlater (or_intror eq_refl) mid' col' ws' c' post'); eauto.
           cbn. congruence.
        -- intros mid col ws c post E Hmid Hcol Hws Hl.
           destruct mid as [|x' mid]; [exact (Hm col ws c post E Hcol Hws Hl)|].
           cbn in E. injection E as <- E.
           eapply (Hlater (or_intror eq_refl) mid col ws c post); eauto.
           cbn. congruence.
Qed.

(** A text after one more character: its matches are those of the text,
    when no match starts at that character. *)
Lemma first_answer_is_later (x : N) (r : Py.str) :
  (forall mid c, ~ answer_is_at (x :: r) [] mid c) ->
  match search_answer_is r with
  | Some c => first_answer_is r c
  | None => no_answer_is r
  end ->
  match search_answer_is r with
  | Some c => first_answer_is (x :: r) c
  | None => no_answer_is (x :: r)
  end.
Proof.
  intros Hno IH.
  assert (Htail : forall pre mid c,
            answer_is_at (x :: r) (x :: pre) mid c -> answer_is_at r pre mid c).
  { intros pre mid c (h & col & ws & post & E & H). cbn in E. injection E as E.
    exists h, col, ws, post. split; assumption. }
  assert (Hcons : forall pre mid c,
            answer_is_at (x :: r) pre mid c -> exists pre1, pre = x :: pre1).
  { intros pre mid c H. destruct pre as [|x' pre1]; [destruct (Hno mid c H)|].
    destruct H as (h & col & ws & post & E & _). cbn in E. injection E as <- _.
    eauto. }
  destruct (search_answer_is r) as [c|].
  - destruct IH as (pre & mid & (h & col & ws & post & E & H) & Hmin).
    exists (x :: pre), mid. split.
    + exists h, col, ws, post. split; [cbn; congruence|exact H].
    + intros pre' mid' c' H'. destruct (Hcons pre' mid' c' H') as [pre1 ->].
      destruct (Hmin pre1 mid' c' (Htail pre1 mid' c' H')) as [H1 H2].
      cbn [length]. split; [lia|]. intros El. apply H2. lia.
  - intros pre mid c H. destruct (Hcons pre mid c H) as [pre1 ->].
    exact (IH pre1 mid c (Htail pre1 mid c H)).
Qed.

(** The second pattern: the function gives the group of its leftmost
    match, the one with the longest [.*]. *)
Lemma search_answer_is_first (s : Py.str) :
  match search_answer_is s with
  | Some c => first_answer_is s c
  | None => no_answer_is s
  end.
Proof.
  induction s as [|x r IH].
  - cbn. intros pre mid c (h & col & ws & post & E & _). destruct pre; discriminate.
  - cbn [search_answer_is].
    destruct ((x =? 31572) || (x =? 27491) || (x =? 35299)) eqn:Hh.
    + pose proof (match_dotstar_spec r) as Hd.
      destruct (match_dotstar r) as [c|].
      * destruct Hd as (mid & col & ws & post & E & Hmid & Hcol & Hws & Hl & Hmax).
        exists [], mid. split.
        { exists x, col, ws, post. split; [cbn; congruence|].
          split; [apply head_class, Hh|auto]. }
        intros pre' mid' c' (h' & col' & ws' & post' & E' & _ & Hmid' & Hcol' & Hws' & Hl').
        cbn [length]. split; [lia|]. intros El.
        destruct pre'; [|discriminate]. cbn in E'. injection E' as _ E'.
        eapply Hmax; eauto.
      * apply first_answer_is_later; [|exact IH].
        intros mid c (h & col & ws & post & E & _ & Hmid & Hcol & Hws & Hl).
        cbn in E. injection E as _ E. exact (Hd mid col ws c post E Hmid Hcol Hws Hl).
    + apply first_answer_is_later; [|exact IH].
      intros mid c (h & col & ws & post & E & Hhead & _).
      cbn in E. injection E as <- _. apply head_class in Hhead. congruence.
Qed.

(** What [option_of] finds, in the words of the two patterns. *)
Lemma option_of_spec (s : Py.str) :
  (option_of db s = [] /\ no_bare_letter db s /\ no_answer_is s)
  \/ (exists c, option_of db s = [Py.ascii_upper c] /\ first_bare_letter db s c)
  \/ (exists c, option_of db s = [Py.ascii_upper c]
                /\ no_bare_letter db s /\ first_answer_is s c).
Proof.
  unfold option_of.
  pose proof (search_bare_letter_first s) as H1.
  destruct (search_bare_letter db None s) as [c|]; [right; left; eauto|].
  pose proof (search_answer_is_first s) as H2.
  destruct (search_answer_is s) as [c|]; [right; right; eauto|].
  left. auto.
Qed.

End RegexFacts.

(** C5, as the code has it: each labelled line overwrites the key, so the
    value extracted for a label is the one of the LAST line that carries
    it (for the two reasoning prefixes, the last line carrying either);
    for the answer and the correct option this is said of a value that is
    not empty. *)
Theorem parse_answer_last_label_wins (db : Py.UnicodeDB) (text : Py.str)
    (l : Api.label) (line : Py.str) :
  last (Api.labelled l (Api.lines_of text)) = Some line ->
  (l = Api.LAnswer \/ l = Api.LCorrectOption -> Api.line_value (Py.strip line) <> []) ->
  Api.field l (Api._parse_answer db text) = Api.line_value (Py.strip line).
Proof. apply parse_answer_labelled. Qed.

Lemma parse_answer_last_label_wins_witness :
  last (Api.labelled Api.LAnswer (Api.lines_of (Py.lit "答え: 1
答え: 2"))) = Some (Py.lit "答え: 2") /\
  Api.answer (Api._parse_answer Py.sample_db (Py.lit "答え: 1
答え: 2")) = Py.lit "2".
Proof.
  split; [reflexivity|].
  apply (parse_answer_last_label_wins Py.sample_db _ Api.LAnswer (Py.lit "答え: 2")).
  - reflexivity.
  - intros _. vm_compute. discriminate.
Defined.

(** C5, as stated, fails: with two answer lines the first one is not the
    one extracted. *)
Lemma parse_answer_first_label_loses :
  Api.labelled Api.LAnswer (Api.lines_of (Py.lit "答え: 1
答え: 2")) = [Py.lit "答え: 1"; Py.lit "答え: 2"] /\
  Api.line_value (Py.lit "答え: 1") = Py.lit "1" /\
  Api.answer (Api._parse_answer Py.sample_db (Py.lit "答え: 1
答え: 2")) = Py.lit "2" /\
  Api.answer (Api._parse_answer Py.sample_db (Py.lit "答え: 1
答え: 2")) <> Api.line_value (Py.lit "答え: 1").
Proof. repeat split; try reflexivity. vm_compute. discriminate. Qed.

(** C6, as the code has it: without a labelled answer or correct-option
    line the answer is the last line that is not blank (the stripped reply
    when all are blank); the option is then the letter A-D, put in upper
    case, of the leftmost match of the pattern for a letter that stands
    alone, or else of the leftmost and longest match of the pattern for an
    answer phrase, or else empty.  A reply whose answer line carries the
    label of the code, as in [答え: 42], gives the answer 42; a reply
    without such labels whose last line that is not blank is a bare C gives
    answer C and option C. *)
Theorem parse_answer_fallback (db : Py.UnicodeDB) :
  (forall text,
     Api.labelled Api.LAnswer (Api.lines_of text) = [] ->
     Api.labelled Api.LCorrectOption (Api.lines_of text) = [] ->
     let ans := default (Py.strip text)
                        (last (Api.non_empty_lines (Api.lines_of text))) in
     Api.answer (Api._parse_answer db text) = ans /\
     Api.correct_option (Api._parse_answer db text) = Api.option_of db ans /\
     ((Api.correct_option (Api._parse_answer db text) = []
       /\ Api.no_bare_letter db ans /\ Api.no_answer_is ans)
      \/ (exists c,
            Api.correct_option (Api._parse_answer db text) = [Py.ascii_upper c]
            /\ Api.first_bare_letter db ans c)
      \/ (exists c,
            Api.correct_option (Api._parse_answer db text) = [Py.ascii_upper c]
            /\ Api.no_bare_letter db ans /\ Api.first_answer_is ans c))) /\
  (forall text line,
     last (Api.labelled Api.LAnswer (Api.lines_of text)) = Some line ->
     Py.strip line = Py.lit "答え: 42" \/ Py.strip line = Py.lit "答案: 42" ->
     Api.answer (Api._parse_answer db text) = Py.lit "42") /\
  (forall text,
     Api.labelled Api.LAnswer (Api.lines_of text) = [] ->
     Api.labelled Api.LCorrectOption (Api.lines_of text) = [] ->
     last (Api.non_empty_lines (Api.lines_of text)) = Some (Py.lit "C") ->
     Api.answer (Api._parse_answer db text) = Py.lit "C" /\
     Api.correct_option (Api._parse_answer db text) = Py.lit "C").
Proof.
  split; [|split].
  - intros text Ha Hc ans.
    destruct (parse_answer_unlabelled db text Ha Hc) as [E1 E2]. fold ans in E1, E2.
    split; [exact E1|]. split; [exact E2|]. rewrite E2. apply option_of_spec.
  - intros text line Hlast Hline.
    change (Api.field Api.LAnswer (Api._parse_answer db text) = Py.lit "42").
    rewrite (parse_answer_labelled db text Api.LAnswer line Hlast).
    + destruct Hline as [-> | ->]; reflexivity.
    + intros _. destruct Hline as [-> | ->]; vm_compute; discriminate.
  - intros text Ha Hc Hlast.
    destruct (parse_answer_unlabelled db text Ha Hc) as [E1 E2].
    rewrite Hlast in E1, E2. split; [exact E1|]. rewrite E2. reflexivity.
Qed.

(** C6, as stated, fails: the labels are the Japanese and Chinese prefixes
    of the code; a line with the English word, [answer: 42], is no labelled
    line, it is only reached by the fall-back and then taken whole. *)
Lemma parse_answer_english_label_not_read :
  Api.answer (Api._parse_answer Py.sample_db (Py.lit "answer: 42")) = Py.lit "answer: 42"
  /\ Api.answer (Api._parse_answer Py.sample_db (Py.lit "answer: 42")) <> Py.lit "42".
Proof. split; [reflexivity|vm_compute; discriminate]. Qed.

Lemma parse_answer_fallback_witness :
  Api.answer (Api._parse_answer Py.sample_db (Py.lit "思考過程: 40 + 2
答え: 42")) = Py.lit "42" /\
  (Api.answer (Api._parse_answer Py.sample_db (Py.lit "2 と 3 を比べる

C
")) = Py.lit "C" /\
   Api.correct_option (Api._parse_answer Py.sample_db (Py.lit "2 と 3 を比べる

C
")) = Py.lit "C") /\
  (Api.search_bare_letter Py.sample_db None (Py.lit "答案是:Cです") = None /\
   Api.correct_option (Api._parse_answer Py.sample_db (Py.lit "考えた結果
答案是:Cです")) = Py.lit "C").
Proof.
  split; [|split].
  - apply (proj1 (proj2 (parse_answer_fallback Py.sample_db)) _ (Py.lit "答え: 42")).
    + reflexivity.
    + left. reflexivity.
  - apply (proj2 (proj2 (parse_answer_fallback Py.sample_db))); reflexivity.
  - split; [vm_compute; reflexivity|].
    refine (eq_trans (proj1 (proj2 (proj1 (parse_answer_fallback Py.sample_db)
                                      (Py.lit "考えた結果
答案是:Cです") _ _))) _); vm_compute; reflexivity.
Defined.

(** ** The solver's error boundary *)

Section SolverFacts.
Import Api.
Variable db : Py.UnicodeDB.
Variable str_format : Py.str -> Py.str -> outcome Py.str.
Variable config : ApiConfig.
Variable srv : server.

Lemma call_api_failed (prompt : Py.str) :
  transport_failed srv -> _call_api config srv prompt = JNull.
Proof.
  unfold transport_failed, _call_api, session_post.
  destruct (api_endpoint config); [|reflexivity]. cbn [obind].
  destruct (fst (Urllib3.send _create_session Urllib3.POST srv)) as [resp|e];
    [|reflexivity].
  cbn [obind]. intros [Hs | [e He]].
  - apply Z.eqb_neq in Hs. rewrite Hs. reflexivity.
  - rewrite He. destruct (status_code resp =? 200)%Z; reflexivity.
Qed.

Lemma failure_well_formed (reason : Py.str) : well_formed db (failure reason).
Proof. left. unfold failure. simpl. eauto. Qed.

Lemma solve_question_returns (question_text : Py.str)
    (context : option (gmap Py.str Py.str)) :
  exists r, solve_question db str_format config srv question_text context = Return r
            /\ well_formed db r
            /\ (transport_failed srv -> success r = false).
Proof.
  unfold solve_question.
  destruct (_build_prompt str_format question_text context) as [prompt|e];
    cbn [obind try_except];
    [|eexists; split; [reflexivity|split; [apply failure_well_formed|reflexivity]]].
  pose proof (call_api_failed prompt) as Hfail.
  destruct (_call_api config srv prompt) as [ |b|q|s|l|d] eqn:Hresp.
  all: cbn [json_truthy json_contains].
  all: repeat
    match goal with
    | |- context [if ?c then _ else _] => destruct c eqn:?; cbn [obind try_except]
    | |- context [obind ?c _] => destruct c eqn:?; cbn [obind try_except]
    end.
  all: try (eexists; split; [reflexivity|];
            split; [apply failure_well_formed|reflexivity]).
  all: try (exfalso; simplify_eq/=; fail).
  all: eexists; (split; [reflexivity|]); split.
  all: try (intros Ht; specialize (Hfail Ht); discriminate).
  all: right; cbn; repeat split.
  all: match goal with
       | H : parse_content _ ?c = Return ?p |- _ =>
         destruct c; try discriminate; injection H as <-; cbn; eauto
       end.
Qed.

Lemma call_api_cases (prompt : Py.str) :
  (exists endpoint resp j,
     api_endpoint config = Some endpoint
     /\ fst (Urllib3.send _create_session Urllib3.POST srv) = Return resp
     /\ status_code resp = 200%Z /\ body resp = Return j
     /\ _call_api config srv prompt = j)
  \/ (_call_api config srv prompt = JNull /\ forall text, ~ replied_with config srv text).
Proof.
  unfold _call_api, session_post, replied_with.
  destruct (api_endpoint config) as [endpoint|]; cbn [obind try_except].
  2: { right. split; [reflexivity|]. intros text (? & ? & ? & ? & ? & ? & H & _).
       discriminate. }
  destruct (fst (Urllib3.send _create_session Urllib3.POST srv)) as [resp|e];
    cbn [obind try_except].
  2: { right. split; [reflexivity|].
       intros text (? & ? & ? & ? & ? & ? & _ & H & _). discriminate. }
  destruct (status_code resp =? 200)%Z eqn:Hs.
  - apply Z.eqb_eq in Hs. destruct (body resp) as [j|e] eqn:Hb; cbn [try_except].
    + left. exists endpoint, resp, j. auto.
    + right. split; [reflexivity|].
      intros text (? & ? & ? & ? & ? & ? & _ & H & _ & Hb' & _).
      injection H as <-. congruence.
  - apply Z.eqb_neq in Hs. right. split; [reflexivity|].
    intros text (? & ? & ? & ? & ? & ? & _ & H & H200 & _).
    injection H as <-. contradiction.
Qed.

(** What [solve_question] makes of the value [_call_api] hands over. *)
Lemma solve_question_on (question_text : Py.str)
    (context : option (gmap Py.str Py.str)) (prompt : Py.str) :
  _build_prompt str_format question_text context = Return prompt ->
  match _call_api config srv prompt with
  | JDict d =>
    match d !! Py.lit "choices" with
    | Some (JList (JDict c :: _)) =>
      match c !! Py.lit "message" with
      | Some (JDict m) =>
        match m !! Py.lit "content" with
        | Some (JStr text) =>
          solve_question db str_format config srv question_text context
          = Return {| success := true;
                      solved_answer := Some (_parse_answer db text);
                      raw_response := Some text;
                      usage := Some (default (JDict ∅) (d !! Py.lit "usage"));
                      model := Some (default (JStr []) (d !! Py.lit "model"));
                      error := None;
                      source := Py.lit "api" |}
        | _ => exists reason,
                 solve_question db str_format config srv question_text context
                 = Return (failure reason)
        end
      | _ => exists reason,
               solve_question db str_format config srv question_text context
               = Return (failure reason)
      end
    | _ => exists reason,
             solve_question db str_format config srv question_text context
             = Return (failure reason)
    end
  | _ => exists reason,
           solve_question db str_format config srv question_text context
           = Return (failure reason)
  end.
Proof.
  intros Hp. unfold solve_question. rewrite Hp. cbn [obind].
  destruct (_call_api config srv prompt) as [ |b|q|s|l|d]; cbn [json_truthy].
  - eauto.
  - destruct b; cbn [json_contains obind try_except]; eauto.
  - destruct (negb (Qeq_bool q 0)); cbn [json_contains obind try_except]; eauto.
  - destruct (Py.truthy s); cbn [json_contains obind try_except]; [|eauto].
    destruct (Py.contains _ s); cbn [json_getitem obind try_except]; eauto.
  - destruct l; cbn [json_contains obind try_except]; [eauto|].
    destruct (existsb _ _); cbn [json_getitem obind try_except]; eauto.
  - destruct (d !! Py.lit "choices") as [choices|] eqn:Hd.
    2: { destruct (negb (bool_decide (d = ∅))); cbn [json_contains obind try_except];
         [rewrite Hd, bool_decide_eq_false_2 by (intros [? ?]; discriminate)|];
         cbn [obind try_except]; eauto. }
    assert (Ht : negb (bool_decide (d = ∅)) = true).
    { rewrite bool_decide_eq_false_2; [reflexivity|].
      intros ->. rewrite lookup_empty in Hd. discriminate. }
    rewrite Ht. cbn [json_contains obind]. rewrite Hd.
    rewrite bool_decide_eq_true_2 by eauto. cbn [obind json_getitem]. rewrite Hd.
    cbn [obind].
    destruct choices as [ | | |s|l|d']; cbn [json_getitem0 obind try_except]; eauto.
    { destruct s; cbn [obind try_except json_getitem]; eauto. }
    destruct l as [|choice rest]; cbn [obind try_except]; [eauto|].
    destruct choice as [ | | | | |c]; cbn [json_getitem obind try_except]; eauto.
    destruct (c !! Py.lit "message") as [message|]; cbn [obind try_except]; [|eauto].
    destruct message as [ | | | | |m]; cbn [json_getitem obind try_except]; eauto.
    destruct (m !! Py.lit "content") as [content|]; cbn [obind try_except]; [|eauto].
    destruct content; cbn [parse_content obind try_except json_get fst snd]; eauto.
Qed.

(** C7: whatever the question, the context, the configuration and the
    behaviour of the endpoint, [solve_question] returns a dictionary and
    raises nothing.  [success] is true exactly when the prompt could be
    built and the request ended with status 200 and a JSON object whose
    first choice has a message with text content: then there is no error,
    the raw response is that text and the answer is what [_parse_answer]
    makes of it.  In every other case (a prompt that cannot be built, no
    endpoint, a transport exception, a time-out, a status other than 200, a
    body that is not JSON, a JSON value of another shape, content that is
    not text) [success] is false, there is no answer and there is an error
    reason. *)
Theorem solve_question_never_raises (question_text : Py.str)
    (context : option (gmap Py.str Py.str)) :
  exists r, solve_question db str_format config srv question_text context = Return r
            /\ well_formed db r
            /\ (transport_failed srv -> success r = false)
            /\ ((success r = true /\ error r = None
                 /\ prompt_built str_format question_text context
                 /\ exists text, replied_with config srv text
                                 /\ raw_response r = Some text
                                 /\ solved_answer r = Some (_parse_answer db text))
                \/ (success r = false /\ solved_answer r = None
                    /\ (exists reason, error r = Some reason)
                    /\ ~ (prompt_built str_format question_text context
                          /\ exists text, replied_with config srv text))).
Proof.
  destruct (solve_question_returns question_text context) as (r & Hr & Hw & Hf).
  exists r. split; [exact Hr|]. split; [exact Hw|]. split; [exact Hf|].
  assert (Hfail : forall reason, r = failure reason ->
            success r = false /\ solved_answer r = None
            /\ exists reason', error r = Some reason').
  { intros reason ->. cbn. eauto. }
  destruct (_build_prompt str_format question_text context) as [prompt|e] eqn:Hp.
  2: { right. unfold solve_question in Hr. rewrite Hp in Hr. cbn in Hr.
       injection Hr as <-. cbn. repeat split; eauto.
       intros [[prompt Hp'] _]. unfold prompt_built in *. congruence. }
  pose proof (solve_question_on question_text context prompt Hp) as Hon.
  destruct (call_api_cases prompt) as [(endpoint & resp & j & He & Hs & H200 & Hb & Hj)
                                      | [Hj Hno]].
  2: { right. rewrite Hj in Hon. destruct Hon as [reason Hon].
       rewrite Hr in Hon. injection Hon as ->. cbn. repeat split; eauto.
       intros [_ [text Ht]]. exact (Hno text Ht). }
  rewrite Hj in Hon.
  assert (Hshape : forall text, replied_with config srv text ->
            exists d c rest m,
              j = JDict d /\ d !! Py.lit "choices" = Some (JList (JDict c :: rest))
              /\ c !! Py.lit "message" = Some (JDict m)
              /\ m !! Py.lit "content" = Some (JStr text)).
  { intros text (endpoint' & resp' & d & c & rest & m & _ & Hs' & _ & Hb' & Hd & Hc & Hm).
    rewrite Hs in Hs'. injection Hs' as <-. rewrite Hb in Hb'. injection Hb' as ->.
    exists d, c, rest, m. auto. }
  assert (Hbad : (exists reason,
                    solve_question db str_format config srv question_text context
                    = Return (failure reason)) ->
                 (forall text, ~ replied_with config srv text) ->
                 success r = false /\ solved_answer r = None
                 /\ (exists reason, error r = Some reason)
                 /\ ~ (prompt_built str_format question_text context
                       /\ exists text, replied_with config srv text)).
  { intros [reason Hq] Hno. rewrite Hr in Hq. injection Hq as ->. cbn.
    repeat split; eauto. intros [_ [text Ht]]. exact (Hno text Ht). }
  destruct j as [ | | | | |d];
    try (right; apply Hbad; [exact Hon|];
         intros text Ht; destruct (Hshape text Ht) as (? & ? & ? & ? & ? & _);
         discriminate).
  destruct (d !! Py.lit "choices") as [choices|] eqn:Hd.
  2: { right. apply Hbad; [exact Hon|]. intros text Ht.
       destruct (Hshape text Ht) as (? & ? & ? & ? & [= <-] & Hd' & _). congruence. }
  destruct choices as [ | | | |l| ];
    try (right; apply Hbad; [exact Hon|]; intros text Ht;
         destruct (Hshape text Ht) as (? & ? & ? & ? & [= <-] & Hd' & _); congruence).
  destruct l as [|choice rest];
    try (right; apply Hbad; [exact Hon|]; intros text Ht;
         destruct (Hshape text Ht) as (? & ? & ? & ? & [= <-] & Hd' & _); congruence).
  destruct choice as [ | | | | |c];
    try (right; apply Hbad; [exact Hon|]; intros text Ht;
         destruct (Hshape text Ht) as (? & ? & ? & ? & [= <-] & Hd' & _); congruence).
  destruct (c !! Py.lit "message") as [message|] eqn:Hc.
  2: { right. apply Hbad; [exact Hon|]. intros text Ht.
       destruct (Hshape text Ht) as (? & ? & ? & ? & [= <-] & Hd' & Hc' & _).
       rewrite Hd in Hd'. injection Hd' as <- <-. congruence. }
  destruct message as [ | | | | |m];
    try (right; apply Hbad; [exact Hon|]; intros text Ht;
         destruct (Hshape text Ht) as (? & ? & ? & ? & [= <-] & Hd' & Hc' & _);
         rewrite Hd in Hd'; injection Hd' as <- <-; congruence).
  destruct (m !! Py.lit "content") as [content|] eqn:Hm.
  2: { right. apply Hbad; [exact Hon|]. intros text Ht.
       destruct (Hshape text Ht) as (? & ? & ? & ? & [= <-] & Hd' & Hc' & Hm').
       rewrite Hd in Hd'. injection Hd' as <- <-.
       rewrite Hc in Hc'. injection Hc' as <-. congruence. }
  destruct content as [ | | |text| | ];
    try (right; apply Hbad; [exact Hon|]; intros text Ht;
         destruct (Hshape text Ht) as (? & ? & ? & ? & [= <-] & Hd' & Hc' & Hm');
         rewrite Hd in Hd'; injection Hd' as <- <-;
         rewrite Hc in Hc'; injection Hc' as <-; congruence).
  left. rewrite Hr in Hon. injection Hon as ->. cbn.
  split; [reflexivity|]. split; [reflexivity|].
  split; [exists prompt; exact Hp|].
  exists text. split; [|auto].
  exists endpoint, resp, d, c, rest, m. repeat split; assumption.
Qed.

End SolverFacts.

(** ** The retry strategy of the session *)

Section RetryFacts.
Import Api.

Lemma urlopen_attempts (r : Urllib3.Retry) (m : Urllib3.http_method) (srv : server)
    (left n : nat) :
  (n < snd (Urllib3.urlopen r m srv left n) <= n + left + 1)%nat.
Proof.
  revert n. induction left as [|left IH]; intros n; simpl.
  - destruct (srv n); repeat match goal with |- context [if ?c then _ else _] =>
      destruct c end; simpl; lia.
  - destruct (srv n); repeat match goal with |- context [if ?c then _ else _] =>
      destruct c end; simpl; try lia.
    all: specialize (IH (S n)); lia.
Qed.

(** A status the strategy leaves alone ends the request at once. *)
Lemma urlopen_final_status (m : Urllib3.http_method) (srv : server)
    (left n : nat) (resp : Response) :
  srv n = Answer resp -> final_status (status_code resp) ->
  Urllib3.urlopen _create_session m srv left n = (Return resp, S n).
Proof.
  intros Hsrv [Hf Ha].
  assert (E : Urllib3.is_retry (Urllib3.set_total left _create_session) m
                (status_code resp) (retry_after resp) = false).
  { unfold Urllib3.is_retry.
    destruct (negb (Urllib3._is_method_retryable _ m)); [reflexivity|].
    change (Urllib3.status_forcelist (Urllib3.set_total left _create_session))
      with (Urllib3.status_forcelist _create_session).
    rewrite Hf, Ha. apply andb_false_r. }
  destruct left; simpl; rewrite Hsrv, E; reflexivity.
Qed.

(** A connection that fails is tried again while retries remain. *)
Lemma urlopen_connect_retried (r : Urllib3.Retry) (m : Urllib3.http_method)
    (srv : server) (left n : nat) :
  srv n = ConnectFailed \/ srv n = ConnectTimeout ->
  Urllib3.urlopen r m srv (S left) n = Urllib3.urlopen r m srv left (S n).
Proof. intros [H | H]; simpl; rewrite H; reflexivity. Qed.

Variable db : Py.UnicodeDB.
Variable str_format : Py.str -> Py.str -> outcome Py.str.
Variable config : ApiConfig.
Variable srv : server.

Lemma solve_question_fails_on_status (question_text : Py.str)
    (context : option (gmap Py.str Py.str)) (resp : Response) :
  srv 0%nat = Answer resp -> final_status (status_code resp) ->
  status_code resp <> 200%Z ->
  succeeded (solve_question db str_format config srv question_text context) = Some false.
Proof.
  intros Hsrv Hfinal Hne.
  destruct (solve_question_returns db str_format config srv question_text context)
    as (r & -> & _ & Hfail).
  simpl. f_equal. apply Hfail. unfold transport_failed, Urllib3.send.
  rewrite (urlopen_final_status _ _ _ _ resp Hsrv Hfinal). simpl. auto.
Qed.

(** C8, as the code has it: the session carries a retry strategy of three
    retries (four attempts at most), back-off factor 1 and the status list
    429, 500, 502, 503, 504, and posts with a time-out of 30 seconds; a
    reply whose status the strategy leaves alone, such as 401, ends the
    request after its one attempt, and the solver fails when that status is
    not 200; a connection that fails is tried again within the three
    retries. *)
Theorem retry_policy_as_configured (question_text : Py.str)
    (context : option (gmap Py.str Py.str)) :
  (Urllib3.total _create_session = 3%nat
   /\ Urllib3.backoff_factor _create_session = 1%Q
   /\ Urllib3.status_forcelist _create_session = [429; 500; 502; 503; 504]%Z
   /\ forall e, post_timeout (post_args config e) = 30%Z)
  /\ (attempts srv <= 4)%nat
  /\ final_status 401
  /\ (forall resp,
        srv 0%nat = Answer resp -> final_status (status_code resp) ->
        attempts srv = 1%nat
        /\ (status_code resp <> 200%Z ->
            succeeded (solve_question db str_format config srv question_text context)
            = Some false))
  /\ (forall resp,
        srv 0%nat = ConnectFailed \/ srv 0%nat = ConnectTimeout ->
        srv 1%nat = Answer resp -> final_status (status_code resp) ->
        attempts srv = 2%nat).
Proof.
  split; [repeat split|]. split; [|split; [split; reflexivity|split]].
  - unfold attempts, Urllib3.send.
    pose proof (urlopen_attempts _create_session Urllib3.POST srv
                  (Urllib3.total _create_session) 0) as H.
    simpl in *. lia.
  - intros resp Hsrv Hfinal. split.
    + unfold attempts, Urllib3.send.
      rewrite (urlopen_final_status _ _ _ _ resp Hsrv Hfinal). reflexivity.
    + intros Hne. eapply solve_question_fails_on_status; eassumption.
  - intros resp H0 H1 Hfinal. unfold attempts, Urllib3.send.
    change (Urllib3.total _create_session) with 3%nat.
    rewrite (urlopen_connect_retried _ _ _ _ _ H0).
    rewrite (urlopen_final_status _ _ _ _ resp H1 Hfinal). reflexivity.
Qed.

End RetryFacts.

Lemma retry_policy_as_configured_witness :
  Examples.srv_401 0%nat = Examples.answer_with 401 /\
  Api.attempts Examples.srv_401 = 1%nat /\
  Api.succeeded (Api.solve_question Py.sample_db Examples.sample_format
                   Examples.sample_config Examples.srv_401 (Py.lit "1 + 1 = ?") None)
  = Some false.
Proof.
  split; [reflexivity|].
  pose proof (retry_policy_as_configured Py.sample_db Examples.sample_format
                Examples.sample_config Examples.srv_401 (Py.lit "1 + 1 = ?") None)
    as (_ & _ & H401 & H & _).
  destruct (H _ eq_refl H401) as [Ha Hs]. split; [exact Ha|].
  apply Hs. vm_compute. discriminate.
Defined.

(** C8, as stated, fails: all requests are POST, which the strategy does
    not retry on a status, so after status 500 the solver fails with its
    one attempt although the third attempt would have been answered with
    200; and a failed connection is tried again, here with success on the
    second attempt. *)
Lemma retry_500_500_200_not_retried :
  (Examples.srv_500_500_200 0%nat = Examples.answer_with 500
   /\ Examples.srv_500_500_200 1%nat = Examples.answer_with 500
   /\ Examples.srv_500_500_200 2%nat = Examples.answer_with 200)
  /\ Api.attempts Examples.srv_500_500_200 = 1%nat
  /\ Api.succeeded (Api.solve_question Py.sample_db Examples.sample_format
                      Examples.sample_config Examples.srv_500_500_200
                      (Py.lit "1 + 1 = ?") None) = Some false
  /\ Api.attempts Examples.srv_refused_200 = 2%nat
  /\ Api.succeeded (Api.solve_question Py.sample_db Examples.sample_format
                      Examples.sample_config Examples.srv_refused_200
                      (Py.lit "1 + 1 = ?") None) = Some true.
Proof. repeat split; vm_compute; reflexivity. Qed.

(** ** The trigger handler *)

Section TriggerFacts.
Import Main.
Variable capture_and_extract : outcome (option Py.str).
Variable search_question : Py.str -> outcome (list Bank.MatchResult).
Variable solve_question : Py.str -> outcome Api.SolveResult.
Variable tk_status : Py.str -> outcome unit.
Variable tk_render : Result -> outcome unit.

Abbreviation process :=
  (_process_question capture_and_extract search_question solve_question
                     tk_status tk_render).
Abbreviation handler :=
  (_on_hotkey_triggered capture_and_extract search_question solve_question
                        tk_status tk_render).

Lemma keeps_flag_bind {A B} (c : M A) (k : A -> M B) :
  keeps_flag c -> (forall a, keeps_flag (k a)) -> keeps_flag (bind c k).
Proof.
  intros Hc Hk s. unfold bind. specialize (Hc s).
  destruct (c s) as [s' [a|e]]; simpl in *; [|exact Hc].
  rewrite Hk. exact Hc.
Qed.

Lemma keeps_flag_ret {A} (a : A) : keeps_flag (ret a).
Proof. intros s. reflexivity. Qed.

Lemma keeps_flag_emit (e : event) : keeps_flag (emit e).
Proof. intros s. reflexivity. Qed.

Lemma keeps_flag_lift {A} (c : outcome A) : keeps_flag (lift c).
Proof. intros s. reflexivity. Qed.

Lemma keeps_flag_stats (f : Stats -> Stats) : keeps_flag (update (map_stats f)).
Proof. intros s. reflexivity. Qed.

Lemma keeps_flag_try {A} (c : M A) (h : exn -> M A) :
  keeps_flag c -> (forall e, keeps_flag (h e)) -> keeps_flag (try_ c h).
Proof.
  intros Hc Hh s. unfold try_. specialize (Hc s).
  destruct (c s) as [s' [a|e]]; simpl in *; [exact Hc|].
  rewrite Hh. exact Hc.
Qed.

Lemma quiet_try {A} (c : M A) (h : exn -> M A) :
  keeps_flag c -> (forall e, quiet (h e)) -> quiet (try_ c h).
Proof.
  intros Hc Hh s. unfold try_. specialize (Hc s).
  destruct (c s) as [s' [a|e]]; simpl in *; [eauto|].
  destruct (Hh e s') as (s'' & a & -> & E). exists s'', a. split; [reflexivity|].
  congruence.
Qed.

Lemma quiet_bind {A B} (c : M A) (k : A -> M B) :
  quiet c -> (forall a, quiet (k a)) -> quiet (bind c k).
Proof.
  intros Hc Hk s. unfold bind. destruct (Hc s) as (s' & a & -> & E).
  destruct (Hk a s') as (s'' & b & -> & E'). exists s'', b.
  split; [reflexivity|congruence].
Qed.

Lemma quiet_ret {A} (a : A) : quiet (ret a).
Proof. intros s. exists s, a. auto. Qed.

Lemma quiet_stats (f : Stats -> Stats) : quiet (update (map_stats f)).
Proof. intros s. eexists _, tt. split; reflexivity. Qed.

Create HintDb flag.
#[local] Hint Resolve keeps_flag_ret keeps_flag_emit keeps_flag_lift keeps_flag_stats
  quiet_ret quiet_stats : flag.

Lemma keeps_flag_show_status (message : Py.str) :
  keeps_flag (show_status tk_status message).
Proof. unfold show_status. apply keeps_flag_bind; auto with flag. Qed.

Lemma quiet_show_answer (result : Result) : quiet (show_answer tk_render result).
Proof.
  intros s. unfold show_answer, bind, emit, try_, lift. simpl.
  destruct (tk_render result) as [[]|e]; eexists _, tt; split; reflexivity.
Qed.

Lemma quiet_show_error (message : Py.str) : quiet (show_error tk_render message).
Proof.
  intros s. unfold show_error, bind, emit, try_, lift. simpl.
  destruct (tk_render (failed message)) as [[]|e]; eexists _, tt; split; reflexivity.
Qed.

Lemma quiet_keeps_flag {A} (c : M A) : quiet c -> keeps_flag c.
Proof. intros H s. destruct (H s) as (s' & a & -> & E). exact E. Qed.

(** [_process_question] catches what its steps raise. *)
Lemma quiet_process_question : quiet process.
Proof.
  unfold _process_question. apply quiet_try; [|auto with flag].
  repeat first
    [ apply keeps_flag_show_status
    | apply quiet_keeps_flag, quiet_show_answer
    | apply keeps_flag_bind; [|intros ?]
    | match goal with
      | |- keeps_flag (match ?x with _ => _ end) => destruct x
      | |- keeps_flag (if ?x then _ else _) => destruct x
      end
    | solve [auto with flag] ].
Qed.

(** An accepted trigger: the handler returns and the flag is down. *)
Lemma handler_idle (s : state) :
  is_processing (fst s) = false ->
  exists s', handler s = (s', Return tt) /\ is_processing (fst s') = false.
Proof.
  intros Hidle. unfold _on_hotkey_triggered.
  unfold bind at 1. unfold read at 1. rewrite Hidle.
  unfold bind at 1. unfold update at 1.
  unfold bind at 1. unfold update at 1. cbn [fst snd].
  unfold finally.
  match goal with
  | |- context [try_ ?b ?h ?st] =>
    assert (Hq : quiet (try_ b h)); [|destruct (Hq st) as (s2 & [] & E & _); rewrite E]
  end.
  - apply quiet_try.
    + apply keeps_flag_bind; [apply quiet_keeps_flag, quiet_process_question|].
      intros [r|].
      * destruct (success r); [auto with flag|].
        apply keeps_flag_bind; [auto with flag|].
        intros _. apply quiet_keeps_flag, quiet_show_error.
      * apply keeps_flag_bind; [auto with flag|].
        intros _. apply quiet_keeps_flag, quiet_show_error.
    + intros e. apply quiet_bind; [auto with flag|].
      intros _. apply quiet_show_error.
  - simpl. eexists. split; reflexivity.
Qed.

(** A trigger while the flag is up: only the status notification goes out,
    and the application object is as before. *)
Lemma handler_busy (s : state) :
  is_processing (fst s) = true ->
  handler s = ((fst s, snd s ++ [ShowStatus (Py.lit "处理中，请稍候...")]),
               tk_status (Py.lit "处理中，请稍候...")).
Proof.
  intros Hbusy. unfold _on_hotkey_triggered.
  unfold bind at 1. unfold read at 1. rewrite Hbusy.
  unfold show_status, bind, emit, lift. simpl.
  destruct (tk_status _); reflexivity.
Qed.

(** C9, as the code has it: a trigger that finds the busy flag set runs no
    step of the pipeline, sends the status notification, and leaves the
    application object (flag and counters) untouched, so nothing is queued
    and the flag stays set for the callback in flight; a trigger that is
    accepted returns without an exception and with the flag reset, whatever
    its collaborators return or raise. *)
Theorem trigger_handler_busy_flag (app : App) (trace : list event) :
  (is_processing app = true ->
   fst (fst (handler (app, trace))) = app
   /\ snd (fst (handler (app, trace)))
      = trace ++ [ShowStatus (Py.lit "处理中，请稍候...")]
   /\ forallb (fun e => negb (is_pipeline_step e))
              (drop (length trace) (snd (fst (handler (app, trace))))) = true)
  /\ (is_processing app = false ->
      snd (handler (app, trace)) = Return tt
      /\ is_processing (fst (fst (handler (app, trace)))) = false).
Proof.
  split.
  - intros Hbusy. rewrite (handler_busy (app, trace) Hbusy). cbn [fst snd].
    repeat split. rewrite drop_app_length. reflexivity.
  - intros Hidle. destruct (handler_idle (app, trace) Hidle) as (s' & -> & E).
    auto.
Qed.

End TriggerFacts.

Lemma trigger_handler_busy_flag_witness :
  Main.is_processing Examples.busy_app = true /\
  Main.is_processing Examples.idle_app = false /\
  fst (fst (Main._on_hotkey_triggered
              (Raise (OtherError, Py.lit "screen grab failed"))
              (fun _ => Return []) (fun _ => Raise (Timeout, Py.lit "timed out"))
              Examples.tk_dead Examples.tk_dead (Examples.busy_app, [])))
  = Examples.busy_app /\
  snd (Main._on_hotkey_triggered
         (Raise (OtherError, Py.lit "screen grab failed"))
         (fun _ => Return []) (fun _ => Raise (Timeout, Py.lit "timed out"))
         Examples.tk_dead Examples.tk_dead (Examples.idle_app, []))
  = Return tt.
Proof.
  split; [reflexivity|]. split; [reflexivity|]. split.
  - apply (proj1 (trigger_handler_busy_flag _ _ _ _ _ Examples.busy_app [])).
    reflexivity.
  - apply (proj2 (trigger_handler_busy_flag _ _ _ _ _ Examples.idle_app [])).
    reflexivity.
Defined.

(** C9, as stated, fails on the path of a dropped trigger: the guard
    returns before the [try], so the flag is not reset there (it is still
    set when the handler returns), and when the status notification raises,
    the exception leaves the handler. *)
Lemma busy_trigger_returns_with_flag_set :
  Main.is_processing Examples.busy_app = true /\
  Main._on_hotkey_triggered
    (Return (Some (Py.lit "1+1等于多少？"))) (fun _ => Return [])
    (fun _ => Raise (Timeout, Py.lit "timed out"))
    MoreExamples.tk_ok MoreExamples.tk_ok (Examples.busy_app, [])
  = ((Examples.busy_app, [Main.ShowStatus (Py.lit "处理中，请稍候...")]), Return tt) /\
  snd (Main._on_hotkey_triggered
         (Return (Some (Py.lit "1+1等于多少？"))) (fun _ => Return [])
         (fun _ => Raise (Timeout, Py.lit "timed out"))
         Examples.tk_dead Examples.tk_dead (Examples.busy_app, []))
  = Raise (OtherError, Py.lit "main thread is not in main loop").
Proof. repeat split. Qed.

(** ** Rounding to the nearest double *)

Section FloatFacts.
Import Float.
Local Open Scope Q_scope.

Lemma pow2_pos (k : Z) : 0 < pow2 k.
Proof. apply Qpower_0_lt. reflexivity. Qed.

Lemma pow2_add (a b : Z) : pow2 (a + b) == pow2 a * pow2 b.
Proof. apply Qpower_plus. discriminate. Qed.

Lemma pow2_le (a b : Z) : (a <= b)%Z -> pow2 a <= pow2 b.
Proof. intros H. apply Qpower_le_compat_l; [exact H|discriminate]. Qed.

Lemma pow2_Z (k : Z) : (0 <= k)%Z -> pow2 k == inject_Z (2 ^ k).
Proof. intros H. symmetry. apply (Zpower_Qpower 2 k H). Qed.

Lemma pow2_sub (a b : Z) :
  (0 <= a)%Z -> (0 <= b)%Z -> pow2 (a - b) == inject_Z (2 ^ a) / inject_Z (2 ^ b).
Proof.
  intros Ha Hb. unfold pow2. rewrite Qpower_minus by discriminate.
  fold (pow2 a) (pow2 b). rewrite (pow2_Z a Ha), (pow2_Z b Hb). reflexivity.
Qed.

Lemma Zdiv_Qle (p q r s : Z) :
  (0 < q)%Z -> (0 < s)%Z -> (p * s <= r * q)%Z ->
  inject_Z p / inject_Z q <= inject_Z r / inject_Z s.
Proof.
  intros Hq Hs H.
  assert (Hq' : 0 < inject_Z q) by (unfold Qlt; cbn [Qnum Qden inject_Z]; lia).
  assert (Hs' : 0 < inject_Z s) by (unfold Qlt; cbn [Qnum Qden inject_Z]; lia).
  apply Qle_shift_div_r; [exact Hq'|].
  setoid_replace (inject_Z r / inject_Z s * inject_Z q)
    with (inject_Z r * inject_Z q / inject_Z s) using relation Qeq
    by (field; intros E; rewrite E in Hs'; discriminate).
  apply Qle_shift_div_l; [exact Hs'|].
  rewrite <- !inject_Z_mult, <- Zle_Qle. exact H.
Qed.

Lemma Zdiv_Qlt (p q r s : Z) :
  (0 < q)%Z -> (0 < s)%Z -> (p * s < r * q)%Z ->
  inject_Z p / inject_Z q < inject_Z r / inject_Z s.
Proof.
  intros Hq Hs H.
  assert (Hq' : 0 < inject_Z q) by (unfold Qlt; cbn [Qnum Qden inject_Z]; lia).
  assert (Hs' : 0 < inject_Z s) by (unfold Qlt; cbn [Qnum Qden inject_Z]; lia).
  apply Qlt_shift_div_r; [exact Hq'|].
  setoid_replace (inject_Z r / inject_Z s * inject_Z q)
    with (inject_Z r * inject_Z q / inject_Z s) using relation Qeq
    by (field; intros E; rewrite E in Hs'; discriminate).
  apply Qlt_shift_div_l; [exact Hs'|].
  rewrite <- !inject_Z_mult, <- Zlt_Qlt. exact H.
Qed.

(** [ilog2] gives the binade. *)
Lemma ilog2_spec (x : Q) : 0 < x -> pow2 (ilog2 x) <= x /\ x < pow2 (ilog2 x + 1).
Proof.
  intros Hx. destruct x as [n d].
  assert (Hn : (0 < n)%Z).
  { unfold Qlt in Hx. cbn in Hx. lia. }
  pose proof (Z.log2_spec n Hn) as [Ha1 Ha2].
  pose proof (Z.log2_spec (Zpos d) (Pos2Z.is_pos d)) as [Hb1 Hb2].
  pose proof (Z.log2_nonneg n) as Ha0.
  pose proof (Z.log2_nonneg (Zpos d)) as Hb0.
  set (a := Z.log2 n) in *. set (b := Z.log2 (Zpos d)) in *.
  assert (HA : (0 < 2 ^ a)%Z) by (apply Z.pow_pos_nonneg; lia).
  assert (HB : (0 < 2 ^ b)%Z) by (apply Z.pow_pos_nonneg; lia).
  rewrite !Z.pow_succ_r in * by assumption.
  assert (Hlow : pow2 (a - b - 1) <= n # d).
  { replace (a - b - 1)%Z with (a - (b + 1))%Z by lia.
    rewrite pow2_sub by lia. rewrite Z.pow_add_r by lia. rewrite (Qmake_Qdiv n d).
    apply Zdiv_Qle; [lia|lia|]. change (2 ^ 1)%Z with 2%Z. nia. }
  assert (Hhigh : n # d < pow2 (a - b + 1)).
  { replace (a - b + 1)%Z with ((a + 1) - b)%Z by lia.
    rewrite pow2_sub by lia. rewrite Z.pow_add_r by lia. rewrite (Qmake_Qdiv n d).
    apply Zdiv_Qlt; [lia|lia|]. change (2 ^ 1)%Z with 2%Z. nia. }
  unfold ilog2. cbn [Qnum Qden]. fold a b.
  destruct (Qle_bool (pow2 (a - b)) (n # d)) eqn:E.
  - apply Qle_bool_iff in E. split; assumption.
  - split; [exact Hlow|].
    replace (a - b - 1 + 1)%Z with (a - b)%Z by lia.
    apply Qnot_le_lt. intros H. apply Qle_bool_iff in H. congruence.
Qed.

Lemma rne_floor (y : Q) : (Qfloor y <= rne y <= Qfloor y + 1)%Z.
Proof.
  unfold rne. destruct (y - inject_Z (Qfloor y) ?= 1 # 2); [|lia|lia].
  destruct (Z.even (Qfloor y)); lia.
Qed.

Lemma rne_ge_Z (n : Z) (y : Q) : inject_Z n <= y -> (n <= rne y)%Z.
Proof.
  intros H. apply Qfloor_resp_le in H. rewrite Qfloor_Z in H.
  pose proof (rne_floor y). lia.
Qed.

Lemma rne_le_Z (n : Z) (y : Q) : y <= inject_Z n -> (rne y <= n)%Z.
Proof.
  intros H. pose proof (Qfloor_resp_le _ _ H) as Hf. rewrite Qfloor_Z in Hf.
  destruct (Z.eq_dec (Qfloor y) n) as [E|E].
  - unfold rne. rewrite E.
    assert (Hy : y - inject_Z n <= 0) by lra.
    destruct (Qcompare_spec (y - inject_Z n) (1 # 2)) as [H1|H1|H1]; [lra|lia|lra].
  - pose proof (rne_floor y). lia.
Qed.

Lemma rne_mono (x y : Q) : x <= y -> (rne x <= rne y)%Z.
Proof.
  intros H. pose proof (Qfloor_resp_le _ _ H) as Hf.
  pose proof (rne_floor x) as Hx. pose proof (rne_floor y) as Hy.
  destruct (Z.eq_dec (Qfloor x) (Qfloor y)) as [E|E]; [|lia].
  unfold rne in *. rewrite E in *.
  destruct (Qcompare_spec (x - inject_Z (Qfloor y)) (1 # 2)) as [H1|H1|H1];
    destruct (Qcompare_spec (y - inject_Z (Qfloor y)) (1 # 2)) as [H2|H2|H2];
    try lia; try lra; destruct (Z.even (Qfloor y)); lia.
Qed.

Lemma round_pos_eq (x : Q) :
  round_pos x ==
  inject_Z (rne (x * pow2 (52 - Z.max (ilog2 x) (-1022))))
  * pow2 (Z.max (ilog2 x) (-1022) - 52).
Proof. unfold round_pos. apply Qred_correct. Qed.

Lemma round_pos_nonneg (x : Q) : 0 < x -> 0 <= round_pos x.
Proof.
  intros Hx. rewrite round_pos_eq.
  apply Qmult_le_0_compat; [|apply Qlt_le_weak, pow2_pos].
  rewrite <- (Zle_Qle 0). apply rne_ge_Z.
  apply Qmult_le_0_compat; [apply Qlt_le_weak, Hx|apply Qlt_le_weak, pow2_pos].
Qed.

Lemma round_pos_upper (x : Q) :
  0 < x -> round_pos x <= pow2 (Z.max (ilog2 x) (-1022) + 1).
Proof.
  intros Hx. rewrite round_pos_eq. set (e := Z.max (ilog2 x) (-1022)).
  destruct (ilog2_spec x Hx) as [_ Hhi].
  assert (Hs : x * pow2 (52 - e) <= inject_Z (2 ^ 53)).
  { rewrite <- pow2_Z by lia. replace 53%Z with ((e + 1) + (52 - e))%Z by lia.
    rewrite pow2_add. apply Qmult_le_compat_r; [|apply Qlt_le_weak, pow2_pos].
    apply Qlt_le_weak. eapply Qlt_le_trans; [exact Hhi|]. apply pow2_le. lia. }
  apply rne_le_Z in Hs. rewrite Zle_Qle in Hs.
  replace (e + 1)%Z with (53 + (e - 52))%Z by lia. rewrite pow2_add, (pow2_Z 53) by lia.
  apply Qmult_le_compat_r; [exact Hs|apply Qlt_le_weak, pow2_pos].
Qed.

Lemma round_pos_lower (x : Q) :
  0 < x -> (-1022 <= ilog2 x)%Z -> pow2 (ilog2 x) <= round_pos x.
Proof.
  intros Hx He. rewrite round_pos_eq. rewrite Z.max_l by exact He.
  set (e := ilog2 x). destruct (ilog2_spec x Hx) as [Hlo _]. fold e in Hlo.
  assert (Hs : inject_Z (2 ^ 52) <= x * pow2 (52 - e)).
  { rewrite <- pow2_Z by lia. replace 52%Z with (e + (52 - e))%Z at 1 by lia.
    rewrite pow2_add. apply Qmult_le_compat_r; [exact Hlo|apply Qlt_le_weak, pow2_pos]. }
  apply rne_ge_Z in Hs. rewrite Zle_Qle in Hs.
  replace e with (52 + (e - 52))%Z at 1 by lia. rewrite pow2_add, (pow2_Z 52) by lia.
  apply Qmult_le_compat_r; [exact Hs|apply Qlt_le_weak, pow2_pos].
Qed.

Lemma ilog2_mono (x y : Q) : 0 < x -> x <= y -> (ilog2 x <= ilog2 y)%Z.
Proof.
  intros Hx Hxy.
  destruct (ilog2_spec x Hx) as [Hlo _].
  destruct (ilog2_spec y (Qlt_le_trans _ _ _ Hx Hxy)) as [_ Hhi].
  destruct (Z_le_gt_dec (ilog2 x) (ilog2 y)) as [H|H]; [exact H|].
  exfalso. assert (Hp : pow2 (ilog2 y + 1) <= pow2 (ilog2 x)) by (apply pow2_le; lia).
  lra.
Qed.

Lemma round_pos_mono (x y : Q) : 0 < x -> x <= y -> round_pos x <= round_pos y.
Proof.
  intros Hx Hxy. assert (Hy : 0 < y) by (eapply Qlt_le_trans; eassumption).
  pose proof (ilog2_mono x y Hx Hxy) as He.
  destruct (Z.eq_dec (Z.max (ilog2 x) (-1022)) (Z.max (ilog2 y) (-1022))) as [E|E].
  - rewrite !round_pos_eq, E.
    apply Qmult_le_compat_r; [|apply Qlt_le_weak, pow2_pos].
    rewrite <- Zle_Qle. apply rne_mono.
    apply Qmult_le_compat_r; [exact Hxy|apply Qlt_le_weak, pow2_pos].
  - eapply Qle_trans; [apply round_pos_upper, Hx|].
    eapply Qle_trans; [|apply round_pos_lower; [exact Hy|lia]].
    apply pow2_le. lia.
Qed.

Lemma round_zero (x : Q) : x == 0 -> round x = 0.
Proof. intros H. unfold round. apply Qeq_alt in H. rewrite H. reflexivity. Qed.

Lemma round_of_pos (x : Q) : 0 < x -> round x = round_pos x.
Proof. intros H. unfold round. apply Qgt_alt in H. rewrite H. reflexivity. Qed.

Lemma round_nonneg (x : Q) : 0 <= x -> 0 <= round x.
Proof.
  intros H. destruct (Qle_lt_or_eq _ _ H) as [Hlt|Heq].
  - rewrite round_of_pos by exact Hlt. apply round_pos_nonneg, Hlt.
  - rewrite round_zero by (symmetry; exact Heq). apply Qle_refl.
Qed.

(** Rounding keeps the order of numbers that are not negative. *)
Lemma round_mono (x y : Q) : 0 <= x -> x <= y -> round x <= round y.
Proof.
  intros Hx Hxy. destruct (Qle_lt_or_eq _ _ Hx) as [Hlt|Heq].
  - rewrite (round_of_pos x Hlt), (round_of_pos y (Qlt_le_trans _ _ _ Hlt Hxy)).
    apply round_pos_mono; assumption.
  - rewrite (round_zero x) by (symmetry; exact Heq).
    apply round_nonneg. lra.
Qed.

(** A sum, a product or a quotient of doubles stays below a double [c]
    that bounds the exact result from above. *)
Lemma round_between (x c : Q) : 0 <= x -> x <= c -> round c = c -> 0 <= round x <= c.
Proof.
  intros H0 Hc E. split; [apply round_nonneg, H0|].
  rewrite <- E. apply round_mono; assumption.
Qed.

End FloatFacts.

(** ** The question bank *)

Section ListFacts.
Context {A B : Type}.

Lemma filter_flat_map (P : B -> bool) (f : A -> list B) (l : list A) :
  List.filter P (flat_map f l) = flat_map (fun x => List.filter P (f x)) l.
Proof.
  induction l as [|x l IH]; [reflexivity|].
  simpl. rewrite List.filter_app, IH. reflexivity.
Qed.

Lemma filter_all (P : B -> bool) (l : list B) :
  Forall (fun x => P x = true) l -> List.filter P l = l.
Proof.
  induction 1 as [|x l Hx _ IH]; [reflexivity|].
  simpl. rewrite Hx, IH. reflexivity.
Qed.

Lemma flat_map_ext_in (f g : A -> list B) (l : list A) :
  (forall x, In x l -> f x = g x) -> flat_map f l = flat_map g l.
Proof.
  induction l as [|x l IH]; intros H; [reflexivity|].
  simpl. rewrite (H x), IH; auto using in_eq, in_cons.
Qed.
End ListFacts.

Section SortFacts.
Import Bank.

Lemma Qltb_true (a b : Q) : Qltb a b = true -> (a <= b)%Q.
Proof.
  unfold Qltb. intros H. apply negb_true_iff in H.
  destruct (Qlt_le_dec a b) as [Hlt|Hle]; [apply Qlt_le_weak, Hlt|].
  apply Qle_bool_iff in Hle. congruence.
Qed.

Lemma Qltb_false (a b : Q) : Qltb a b = false -> (b <= a)%Q.
Proof.
  unfold Qltb. intros H. apply negb_false_iff in H. apply Qle_bool_iff, H.
Qed.

Lemma insert_desc_Forall (P : MatchResult -> Prop) (x : MatchResult)
    (l : list MatchResult) :
  P x -> Forall P l -> Forall P (insert_desc x l).
Proof.
  intros Hx Hl. induction Hl as [|y l Hy Hl IH]; simpl; [auto|].
  destruct (Qltb (match_score x) (match_score y)); auto.
Qed.

Lemma insert_desc_sorted (x : MatchResult) (l : list MatchResult) :
  StronglySorted score_ge l -> StronglySorted score_ge (insert_desc x l).
Proof.
  induction 1 as [|y l Hl IH Hy]; simpl.
  - repeat constructor.
  - destruct (Qltb (match_score x) (match_score y)) eqn:E.
    + constructor; [exact IH|].
      apply insert_desc_Forall; [apply Qltb_true, E|exact Hy].
    + apply Qltb_false in E. constructor; [constructor; assumption|].
      constructor; [exact E|].
      eapply Forall_impl; [exact Hy|]. intros z Hz. unfold score_ge in *.
      eapply Qle_trans; eassumption.
Qed.

Lemma sort_desc_sorted (l : list MatchResult) : StronglySorted score_ge (sort_desc l).
Proof.
  induction l as [|x l IH]; simpl; [constructor|].
  apply insert_desc_sorted, IH.
Qed.

Lemma sort_desc_Forall (P : MatchResult -> Prop) (l : list MatchResult) :
  Forall P l -> Forall P (sort_desc l).
Proof.
  induction 1 as [|x l Hx Hl IH]; simpl; [constructor|].
  apply insert_desc_Forall; assumption.
Qed.

Lemma insert_desc_perm (x : MatchResult) (l : list MatchResult) :
  Permutation (insert_desc x l) (x :: l).
Proof.
  induction l as [|y l IH]; cbn [insert_desc]; [reflexivity|].
  destruct (Qltb (match_score x) (match_score y)); [|reflexivity].
  rewrite IH. apply perm_swap.
Qed.

Lemma sort_desc_perm (l : list MatchResult) : Permutation (sort_desc l) l.
Proof.
  induction l as [|x l IH]; [reflexivity|].
  cbn [sort_desc foldr]. fold (sort_desc l). rewrite insert_desc_perm, IH. reflexivity.
Qed.

(** An insertion passes only matches of a greater score. *)
Lemma insert_desc_stable (v : Q) (x : MatchResult) (l : list MatchResult) :
  List.filter (fun r => Qeq_bool (match_score r) v) (insert_desc x l)
  = List.filter (fun r => Qeq_bool (match_score r) v) (x :: l).
Proof.
  induction l as [|y l IH]; cbn [insert_desc]; [reflexivity|].
  destruct (Qltb (match_score x) (match_score y)) eqn:E; [|reflexivity].
  cbn [List.filter] in *. rewrite IH.
  destruct (Qeq_bool (match_score x) v) eqn:Ex; [|reflexivity].
  destruct (Qeq_bool (match_score y) v) eqn:Ey; [|reflexivity].
  exfalso. apply Qeq_bool_iff in Ex, Ey.
  unfold Qltb in E. apply negb_true_iff in E.
  assert (H : Qle_bool (match_score y) (match_score x) = true).
  { apply Qle_bool_iff. rewrite Ex, Ey. apply Qle_refl. }
  congruence.
Qed.

Lemma sort_desc_stable (v : Q) (l : list MatchResult) :
  List.filter (fun r => Qeq_bool (match_score r) v) (sort_desc l)
  = List.filter (fun r => Qeq_bool (match_score r) v) l.
Proof.
  induction l as [|x l IH]; [reflexivity|].
  cbn [sort_desc foldr]. fold (sort_desc l). rewrite insert_desc_stable.
  cbn [List.filter]. rewrite IH. reflexivity.
Qed.

Lemma take_sorted (n : nat) (l : list MatchResult) :
  StronglySorted score_ge l -> StronglySorted score_ge (take n l).
Proof.
  intros H. revert n. induction H as [|x l Hl IH Hx]; intros [|n]; simpl;
    try constructor; auto.
  apply Forall_take, Hx.
Qed.
End SortFacts.

Section ScoreFacts.
Import Bank.
Local Open Scope Q_scope.

Lemma sample_ratio_range (a b : Py.str) : (0 <= sample_ratio a b <= 100)%Z.
Proof.
  unfold sample_ratio.
  destruct (Py.eqb a b); [lia|].
  destruct (negb (Py.truthy a) || negb (Py.truthy b)); [lia|].
  split; [|apply Z.le_min_l].
  apply Z.min_glb; [lia|].
  destruct (Z.eq_dec (Z.of_nat (length a + length b)) 0%Z) as [->|Hne].
  - rewrite Z.div_0_r. lia.
  - apply Z.div_pos; lia.
Qed.

Lemma sample_fuzz_spec : FuzzSpec sample_fuzz.
Proof.
  split; simpl; intros; try apply sample_ratio_range.
  - unfold sample_partial_ratio.
    destruct (Py.contains a b || Py.contains b a); [lia|apply sample_ratio_range].
  - unfold sample_ratio, Py.eqb. rewrite bool_decide_eq_true_2; reflexivity.
Qed.

Lemma of_Z_percent (z : Z) : (0 <= z <= 100)%Z -> 0 <= Float.of_Z z <= 100.
Proof.
  intros [H0 H1]. rewrite Zle_Qle in H0, H1.
  apply round_between; [exact H0|exact H1|vm_compute; reflexivity].
Qed.

(** A percentage divided by [100.0] is between 0 and 1. *)
Lemma sub_measure_range (z : Z) : (0 <= z <= 100)%Z -> 0 <= sub_measure z <= 1.
Proof.
  intros H. destruct (of_Z_percent z H) as [H0 H1].
  unfold sub_measure, Float.div.
  replace (Float.lit 100) with 100 by (vm_compute; reflexivity).
  apply round_between; [| |vm_compute; reflexivity].
  - apply Qle_shift_div_l; [reflexivity|]. lra.
  - apply Qle_shift_div_r; [reflexivity|]. lra.
Qed.

Lemma Qmult_le_one (w s : Q) : 0 <= w -> s <= 1 -> w * s <= w.
Proof.
  intros Hw Hs. rewrite (Qmult_comm w s).
  apply Qle_trans with (1 * w); [apply Qmult_le_compat_r; assumption|].
  rewrite Qmult_1_l. apply Qle_refl.
Qed.

Lemma mul_range (w s : Q) :
  0 <= w -> Float.round w = w -> 0 <= s <= 1 -> 0 <= Float.mul w s <= w.
Proof.
  intros Hw E [H0 H1]. unfold Float.mul. apply round_between; [| |exact E].
  - apply Qmult_le_0_compat; assumption.
  - apply Qmult_le_one; assumption.
Qed.

Lemma add_range (a b A B C : Q) :
  0 <= a <= A -> 0 <= b <= B -> Float.round (A + B) = C -> 0 <= Float.add a b <= C.
Proof.
  intros [Ha0 Ha1] [Hb0 Hb1] E. unfold Float.add. split.
  - apply round_nonneg. lra.
  - rewrite <- E. apply round_mono; lra.
Qed.

Section Measures.
Variable fz : Fuzz.
Hypothesis fz_spec : FuzzSpec fz.

(** The blended score of percentages is between 0 and 1, in doubles. *)
Lemma calculate_match_score_range (query target : Py.str) :
  0 <= _calculate_match_score fz query target <= 1.
Proof.
  destruct query as [|c q].
  { unfold _calculate_match_score. cbn [Py.truthy negb orb]. lra. }
  destruct target as [|d t].
  { unfold _calculate_match_score. cbn [Py.truthy negb orb]. lra. }
  unfold _calculate_match_score.
  cbn [Py.truthy negb orb weights combine map fold_left fst snd].
  pose proof (sub_measure_range _ (ratio_range fz fz_spec (c :: q) (d :: t))) as H1.
  pose proof (sub_measure_range _ (partial_ratio_range fz fz_spec (c :: q) (d :: t))) as H2.
  pose proof (sub_measure_range _ (token_sort_ratio_range fz fz_spec (c :: q) (d :: t)))
    as H3.
  pose proof (sub_measure_range _ (token_set_ratio_range fz fz_spec (c :: q) (d :: t)))
    as H4.
  apply (mul_range (Float.lit (2 # 10))) in H1;
    [|apply Qle_bool_iff; vm_compute; reflexivity|vm_compute; reflexivity].
  apply (mul_range (Float.lit (3 # 10))) in H2;
    [|apply Qle_bool_iff; vm_compute; reflexivity|vm_compute; reflexivity].
  apply (mul_range (Float.lit (25 # 100))) in H3;
    [|apply Qle_bool_iff; vm_compute; reflexivity|vm_compute; reflexivity].
  apply (mul_range (Float.lit (25 # 100))) in H4;
    [|apply Qle_bool_iff; vm_compute; reflexivity|vm_compute; reflexivity].
  assert (H0 : 0 <= 0 <= 0) by lra.
  pose proof (add_range _ _ _ _ (Float.lit (2 # 10)) H0 H1 ltac:(vm_compute; reflexivity))
    as S1.
  pose proof (add_range _ _ _ _ (1 # 2) S1 H2 ltac:(vm_compute; reflexivity)) as S2.
  pose proof (add_range _ _ _ _ (3 # 4) S2 H3 ltac:(vm_compute; reflexivity)) as S3.
  exact (add_range _ _ _ _ 1 S3 H4 ltac:(vm_compute; reflexivity)).
Qed.
End Measures.

Section Library.
Import Fuzzywuzzy.
Variable core : Core.
Hypothesis core_spec : CoreSpec core.

Lemma checked_range (body : Py.str -> Py.str -> Z) (s1 s2 : Py.str) :
  (forall a b, (0 <= body a b <= 100)%Z) -> (0 <= checked body s1 s2 <= 100)%Z.
Proof.
  intros H. unfold checked. destruct (Py.eqb s1 s2); [lia|].
  destruct (negb (Py.truthy s1) || negb (Py.truthy s2)); [lia|apply H].
Qed.

(** The wrappers and the rounding give what the library documents. *)
Lemma fuzz_spec : FuzzSpec (fuzz core).
Proof.
  split; cbn [fuzz Bank.ratio Bank.partial_ratio Bank.token_sort_ratio
              Bank.token_set_ratio]; intros.
  - apply checked_range. intros s1 s2.
    destruct (matcher_ratio_range core core_spec s1 s2) as [H0 H1].
    assert (H : 0 <= Float.mul (Float.of_Z 100) (matcher_ratio core s1 s2) <= 100).
    { unfold Float.mul. replace (Float.of_Z 100) with 100 by (vm_compute; reflexivity).
      apply round_between; [| |vm_compute; reflexivity].
      - apply Qmult_le_0_compat; [discriminate|exact H0].
      - apply Qmult_le_one; [discriminate|exact H1]. }
    unfold intr. split; [apply rne_ge_Z, H|apply rne_le_Z, H].
  - apply checked_range, core_spec.
  - apply core_spec.
  - apply core_spec.
  - unfold ratio, checked, Py.eqb. rewrite bool_decide_eq_true_2; reflexivity.
Qed.

(** C2: the blended score lies between 0 and 1: it is 0 when either text
    is empty, and otherwise the sum, in doubles and from left to right, of
    the four measures, each a percentage of the library divided by 100.0
    and so between 0 and 1, with the weights 0.2, 0.3, 0.25 and 0.25; and
    for a text that is not empty, compared with itself, the character
    ratio is 1.0. *)
Theorem blended_score_in_unit_interval (query target : Py.str) :
  0 <= _calculate_match_score (fuzz core) query target <= 1
  /\ (0 <= sub_measure (ratio core query target) <= 1
      /\ 0 <= sub_measure (partial_ratio core query target) <= 1
      /\ 0 <= sub_measure (token_sort_core core query target) <= 1
      /\ 0 <= sub_measure (token_set_core core query target) <= 1)
  /\ (query <> [] -> target <> [] ->
      _calculate_match_score (fuzz core) query target
      = Float.add
          (Float.add
             (Float.add
                (Float.add 0 (Float.mul (Float.lit (2 # 10))
                                        (sub_measure (ratio core query target))))
                (Float.mul (Float.lit (3 # 10))
                           (sub_measure (partial_ratio core query target))))
             (Float.mul (Float.lit (25 # 100))
                        (sub_measure (token_sort_core core query target))))
          (Float.mul (Float.lit (25 # 100))
                     (sub_measure (token_set_core core query target))))
  /\ (query <> [] -> sub_measure (ratio core query query) = 1).
Proof.
  split; [apply calculate_match_score_range, fuzz_spec|].
  split.
  { repeat split; apply sub_measure_range;
      first [apply (ratio_range _ fuzz_spec) | apply (partial_ratio_range _ fuzz_spec)
            | apply core_spec]. }
  split.
  - intros Hq Ht. destruct query; [congruence|]. destruct target; [congruence|].
    reflexivity.
  - intros _. unfold ratio, checked, Py.eqb.
    rewrite bool_decide_eq_true_2 by reflexivity. vm_compute. reflexivity.
Qed.

End Library.

Lemma sample_core_spec : Fuzzywuzzy.CoreSpec Fuzzywuzzy.sample_core.
Proof.
  split; cbn [Fuzzywuzzy.sample_core Fuzzywuzzy.matcher_ratio Fuzzywuzzy.partial_core
              Fuzzywuzzy.token_sort_core Fuzzywuzzy.token_set_core]; intros.
  - apply sub_measure_range, sample_ratio_range.
  - apply (partial_ratio_range _ sample_fuzz_spec).
  - apply sample_ratio_range.
  - apply sample_ratio_range.
Qed.

End ScoreFacts.

Lemma blended_score_in_unit_interval_witness :
  (0 <= Bank._calculate_match_score (Fuzzywuzzy.fuzz Fuzzywuzzy.sample_core)
          (Py.lit "1 1") (Py.lit "1 2") <= 1)%Q /\
  Bank.sub_measure (Fuzzywuzzy.ratio Fuzzywuzzy.sample_core (Py.lit "1 1") (Py.lit "1 1"))
  = 1%Q.
Proof.
  split.
  - apply (blended_score_in_unit_interval Fuzzywuzzy.sample_core sample_core_spec
             (Py.lit "1 1") (Py.lit "1 2")).
  - apply (blended_score_in_unit_interval Fuzzywuzzy.sample_core sample_core_spec
             (Py.lit "1 1") (Py.lit "1 1")). discriminate.
Defined.

(** The doubles at work: the measures 80, 75, 80 and 86 blend to a score
    just below the double of the default threshold, where the exact sum
    would be 4/5. *)
Example score_below_default_threshold :
  let fz := {| Bank.ratio := fun _ _ => 80%Z; Bank.partial_ratio := fun _ _ => 75%Z;
               Bank.token_sort_ratio := fun _ _ => 80%Z;
               Bank.token_set_ratio := fun _ _ => 86%Z |} in
  Bank._calculate_match_score fz (Py.lit "a") (Py.lit "b")
  = (7205759403792793 # 9007199254740992)%Q
  /\ Bank.default_threshold = (3602879701896397 # 4503599627370496)%Q
  /\ Qle_bool Bank.default_threshold
              (Bank._calculate_match_score fz (Py.lit "a") (Py.lit "b")) = false.
Proof. vm_compute. repeat split. Qed.

(** *** The lookup *)

Section LookupFacts.
Import Bank.
Variable db : Py.UnicodeDB.
Variable fz : Fuzz.
Variable eh : ExcelHandler.

Abbreviation the_threshold := (default default_threshold (threshold (fuzzy_config eh))).
Abbreviation the_max_results := (default 3%Z (max_results (fuzzy_config eh))).

(** Every result of the exact pass has score 1 and method "exact". *)
Lemma exact_search_all_exact (q name : Py.str) (df : DataFrame) (sc : SheetConfig) :
  Forall (fun r => match_score r = 1%Q /\ matched_method r = Exact)
         (_exact_search_in_sheet db q name df sc).
Proof.
  unfold _exact_search_in_sheet.
  destruct (getitem_column df (question_column sc)) as [col|e]; cbn [obind try_except];
    [|constructor].
  destruct (str_accessor df col) as [cells|e]; cbn [obind try_except]; [|constructor].
  apply List.Forall_map, Forall_forall. intros ir _. split; reflexivity.
Qed.

Lemma fuzzy_row_filter (q name : Py.str) (df : DataFrame) (sc : SheetConfig)
    (col : Py.str) (ir : nat * list cell) :
  fuzzy_row db fz eh q name df sc col ir
  = List.filter (kept eh) (fuzzy_candidate db fz q name df sc col ir).
Proof.
  unfold fuzzy_row, fuzzy_candidate, kept.
  destruct (negb (Py.truthy _) || Py.eqb _ _); [reflexivity|].
  cbn [List.filter match_score fuzzy_result is_exact matched_method].
  rewrite orb_false_r. destruct (Qle_bool _ _); reflexivity.
Qed.

(** The loop with its threshold test and the exact pass give the matches
    of the sheet that the lookup keeps. *)
Lemma search_in_sheet_filter (q : Py.str) (nc : Py.str * SheetConfig) :
  match _cache eh !! fst nc with
  | None => []
  | Some df => _search_in_sheet db fz eh q (fst nc) df (snd nc)
  end = List.filter (kept eh) (sheet_matches db fz eh q nc).
Proof.
  unfold sheet_matches, _search_in_sheet.
  destruct (_cache eh !! fst nc) as [df|]; [|reflexivity].
  destruct (question_column (snd nc)) as [col|]; [|reflexivity].
  destruct (Py.truthy col), (has_column df col); cbn [negb orb andb]; try reflexivity.
  rewrite List.filter_app, filter_flat_map. f_equal.
  - apply flat_map_ext_in. intros ir _. apply fuzzy_row_filter.
  - symmetry. apply filter_all.
    eapply Forall_impl; [apply exact_search_all_exact|].
    intros r [_ Hm]. unfold kept, is_exact. rewrite Hm. apply orb_true_r.
Qed.

Lemma all_results_matches (q : Py.str) :
  all_results db fz eh q = all_matches db fz eh q.
Proof.
  unfold all_results, all_matches. rewrite filter_flat_map.
  apply flat_map_ext_in. intros nc _. apply search_in_sheet_filter.
Qed.

Lemma all_matches_kept (q : Py.str) :
  Forall (fun r => kept eh r = true) (all_matches db fz eh q).
Proof.
  apply Forall_forall. intros r Hr.
  apply list_elem_of_In, List.filter_In in Hr as [_ Hr]. exact Hr.
Qed.

Lemma sort_desc_sorted_matches (l : list MatchResult) : sorted_matches (sort_desc l) l.
Proof.
  split; [apply sort_desc_perm|]. split; [apply sort_desc_sorted|].
  intros v. apply sort_desc_stable.
Qed.

Lemma slice_to_sorted (n : Z) (l : list MatchResult) :
  StronglySorted score_ge l -> StronglySorted score_ge (slice_to n l).
Proof. intros H. unfold slice_to. destruct (0 <=? n)%Z; apply take_sorted, H. Qed.

Lemma slice_to_Forall (P : MatchResult -> Prop) (n : Z) (l : list MatchResult) :
  Forall P l -> Forall P (slice_to n l).
Proof. intros H. unfold slice_to. destruct (0 <=? n)%Z; apply Forall_take, H. Qed.

(** C1, as the code has it: the lookup takes, over all configured and
    loaded sheets, the scored rows at or above the threshold together with
    every hit of the exact pass (score 1.0, kept whatever the threshold),
    puts them in the order of descending score, matches of equal score in
    the order found, and cuts the list as the slice [[:max_results]] does:
    at the maximum count when that is not negative.  So every match that
    is kept is among the results unless the cut removes it; and when the
    threshold is not above 1.0, every result is at or above it. *)
Theorem search_question_contract (q : Py.str) :
  exists sorted,
    sorted_matches sorted (all_matches db fz eh q)
    /\ search_question db fz eh q = slice_to the_max_results sorted
    /\ ((0 <= the_max_results)%Z ->
        search_question db fz eh q = take (Z.to_nat the_max_results) sorted
        /\ length (search_question db fz eh q)
           = Nat.min (Z.to_nat the_max_results) (length (all_matches db fz eh q)))
    /\ StronglySorted score_ge (search_question db fz eh q)
    /\ Forall (fun r => (the_threshold <= match_score r)%Q
                        \/ (matched_method r = Exact /\ match_score r = 1%Q))
              (search_question db fz eh q)
    /\ ((the_threshold <= 1)%Q ->
        Forall (fun r => (the_threshold <= match_score r)%Q)
               (search_question db fz eh q)).
Proof.
  exists (sort_desc (all_matches db fz eh q)).
  pose proof (sort_desc_sorted_matches (all_matches db fz eh q)) as Hs.
  assert (E : search_question db fz eh q
              = slice_to the_max_results (sort_desc (all_matches db fz eh q))).
  { unfold search_question. rewrite all_results_matches. reflexivity. }
  assert (Hkept : Forall (fun r => (the_threshold <= match_score r)%Q
                                   \/ (matched_method r = Exact /\ match_score r = 1%Q))
                         (all_matches db fz eh q)).
  { unfold all_matches. apply Forall_forall. intros r Hr.
    apply list_elem_of_In, List.filter_In in Hr as [Hin Hr].
    unfold kept in Hr. apply orb_true_iff in Hr as [Hr|Hr].
    - left. apply Qle_bool_iff, Hr.
    - right. apply in_flat_map in Hin as (nc & _ & Hin). unfold sheet_matches in Hin.
      destruct (_cache eh !! fst nc) as [df|]; [|destruct Hin].
      destruct (question_column (snd nc)) as [col|]; [|destruct Hin].
      destruct (Py.truthy col && has_column df col); [|destruct Hin].
      apply in_app_or in Hin as [Hin|Hin].
      + apply in_flat_map in Hin as (ir & _ & Hin). unfold fuzzy_candidate in Hin.
        destruct (negb (Py.truthy _) || Py.eqb _ _); [destruct Hin|].
        destruct Hin as [<-|[]]. discriminate.
      + pose proof (exact_search_all_exact
                      (_clean_question_text db q) (fst nc) df (snd nc)) as Hex.
        rewrite Forall_forall in Hex.
        destruct (Hex r (proj2 (list_elem_of_In _ _) Hin)) as [H1 H2]. auto. }
  split; [exact Hs|]. split; [exact E|]. split; [|split; [|split]].
  - intros Hmax. rewrite E. unfold slice_to. apply Z.leb_le in Hmax. rewrite Hmax.
    split; [reflexivity|]. rewrite length_take.
    rewrite (Permutation_length (sort_desc_perm _)). reflexivity.
  - rewrite E. apply slice_to_sorted, sort_desc_sorted.
  - rewrite E. apply slice_to_Forall, sort_desc_Forall, Hkept.
  - intros Hthr. rewrite E. apply slice_to_Forall, sort_desc_Forall.
    eapply Forall_impl; [exact Hkept|].
    intros r [H|[_ H]]; [exact H|]. rewrite H. exact Hthr.
Qed.

End LookupFacts.

Lemma search_question_contract_witness :
  (length (Bank.search_question Py.sample_db Bank.sample_fuzz
             (Examples.bank Examples.math_sheet Examples.by_columns None)
             (Py.lit "等于多少"))
   = Nat.min 3 (length (Bank.all_matches Py.sample_db Bank.sample_fuzz
                          (Examples.bank Examples.math_sheet Examples.by_columns None)
                          (Py.lit "等于多少"))))
  /\ Forall (fun r => (Bank.default_threshold <= Bank.match_score r)%Q)
            (Bank.search_question Py.sample_db Bank.sample_fuzz
               (Examples.bank Examples.math_sheet Examples.by_columns None)
               (Py.lit "等于多少")).
Proof.
  destruct (search_question_contract Py.sample_db Bank.sample_fuzz
              (Examples.bank Examples.math_sheet Examples.by_columns None)
              (Py.lit "等于多少")) as (sorted & _ & _ & Hcut & _ & _ & Hthr).
  split.
  - apply Hcut. vm_compute. discriminate.
  - apply Hthr. vm_compute. discriminate.
Defined.

(** C1, as stated, fails: the exact pass appends its hits without a look
    at the threshold, so with a threshold of 1.5 the lookup returns a row
    whose score 1.0 is below it. *)
Lemma search_question_returns_below_threshold :
  map Bank.summary
      (Bank.search_question Py.sample_db Bank.sample_fuzz
         (Examples.bank Examples.math_sheet Examples.by_columns (Some (3 # 2)%Q))
         (Py.lit "等于多少"))
  = [(0%nat, Bank.Exact, 1%Q, Py.lit "2"); (1%nat, Bank.Exact, 1%Q, Py.lit "6")]
  /\ (1 < 3 # 2)%Q.
Proof. vm_compute. split; reflexivity. Qed.

Example search_two_times_three :
  map (fun r => (Bank.row_index r, Bank.matched_method r,
                 Qred (Bank.match_score r), Bank.answer_text (Bank.answer_info r)))
      (Bank.search_question Py.sample_db Bank.sample_fuzz
         (Examples.bank Examples.math_sheet Examples.by_columns None)
         (Py.lit "2*3等于多少"))
  = [(1%nat, Bank.Fuzzy, 1%Q, Py.lit "6")].
Proof. vm_compute. reflexivity. Qed.

(** *** The exact pass *)

Section ExactFacts.
Import Bank.
Variable db : Py.UnicodeDB.

Lemma filter_none {A} (P : A -> bool) (l : list A) :
  Forall (fun x => P x = false) l -> List.filter P l = [].
Proof.
  induction 1 as [|x l Hx _ IH]; [reflexivity|]. simpl. rewrite Hx. exact IH.
Qed.

(** The results a pass over the rows gives for row [i], when each row
    only gives results that carry its own index. *)
Lemma filter_row_index (g : nat * list cell -> list MatchResult)
    (rows : list (list cell)) (k i : nat) :
  (forall ir r, In r (g ir) -> row_index r = fst ir) ->
  List.filter (fun r => Nat.eqb (row_index r) i)
              (flat_map g (imap (fun j row => ((k + j)%nat, row)) rows))
  = match rows !! (i - k)%nat with
    | Some row => if (k <=? i)%nat then g (i, row) else []
    | None => []
    end.
Proof.
  intros Hg. revert k. induction rows as [|row rows IH]; intros k.
  - simpl. reflexivity.
  - rewrite imap_cons. cbn [flat_map]. rewrite List.filter_app.
    rewrite (imap_ext _ (fun j row => ((S k + j)%nat, row)))
      by (intros; simpl; f_equal; lia).
    rewrite IH. rewrite Nat.add_0_r.
    destruct (Nat.eqb_spec k i) as [->|Hne].
    + rewrite filter_all.
      2:{ apply Forall_forall. intros r Hr.
          apply list_elem_of_In, Hg in Hr. simpl in Hr. rewrite Hr. apply Nat.eqb_refl. }
      rewrite Nat.sub_diag, Nat.leb_refl. cbn [lookup list_lookup].
      replace (S i <=? i)%nat with false by (symmetry; apply Nat.leb_gt; lia).
      destruct (rows !! (i - S i)%nat); apply app_nil_r.
    + rewrite filter_none.
      2:{ apply Forall_forall. intros r Hr.
          apply list_elem_of_In, Hg in Hr. simpl in Hr. rewrite Hr.
          apply Nat.eqb_neq, Hne. }
      cbn [app]. destruct (Nat.leb_spec k i) as [Hle|Hgt].
      * replace (i - k)%nat with (S (i - S k)) by lia. cbn [lookup list_lookup].
        replace (S k <=? i)%nat with true by (symmetry; apply Nat.leb_le; lia).
        reflexivity.
      * replace (S k <=? i)%nat with false by (symmetry; apply Nat.leb_gt; lia).
        destruct (rows !! (i - S k)%nat), ((row :: rows) !! (i - k)%nat); reflexivity.
Qed.

Lemma str_accessor_text (df : DataFrame) (col : Py.str) (i : nat)
    (row : list cell) (t : Py.str) :
  df_rows df !! i = Some row -> row_get df row col = CStr t ->
  exists cells, str_accessor df col = Return cells.
Proof.
  intros Hrow Hcell. unfold str_accessor.
  destruct (map _ (df_rows df)) as [|c cs] eqn:E; [eauto|].
  rewrite <- E.
  replace (existsb _ _) with true; [eauto|].
  symmetry. apply existsb_exists. exists (CStr t). split; [|reflexivity].
  rewrite <- Hcell. apply (in_map (fun row => row_get df row col)).
  apply list_elem_of_In. eapply list_elem_of_lookup_2, Hrow.
Qed.

(** One turn of the exact pass: the result appended for a row, if any. *)
Lemma exact_search_rows (q name : Py.str) (df : DataFrame) (sc : SheetConfig)
    (col : Py.str) (cells : list cell) :
  question_column sc = Some col -> has_column df col = true ->
  str_accessor df col = Return cells ->
  _exact_search_in_sheet db q name df sc
  = flat_map (fun ir => if cell_contains db q (row_get df (snd ir) col)
                        then [exact_result db df name sc col ir] else [])
             (iterrows df).
Proof.
  intros Hcol Hhas Hacc. unfold _exact_search_in_sheet, getitem_column.
  rewrite Hcol, Hhas. cbn [obind]. rewrite Hacc. cbn [obind try_except].
  induction (iterrows df) as [|ir l IH]; [reflexivity|].
  simpl. destruct (cell_contains db q (row_get df (snd ir) col)); simpl; rewrite IH;
    reflexivity.
Qed.

Variable fz : Fuzz.
Variable eh : ExcelHandler.

(** C3: a row whose stored question contains the cleaned query, case
    ignored, is reported by the exact pass with score 1 and method "exact",
    whatever the measures and the threshold of the fuzzy pass; the results
    of a sheet are the fuzzy results followed by the exact ones, so the
    results for that row are its fuzzy result, if it has one, and its exact
    result: two entries when it passes both tests. *)
Theorem exact_match_reported (q name : Py.str) (df : DataFrame) (sc : SheetConfig)
    (col : Py.str) (i : nat) (row : list cell) (t : Py.str) :
  question_column sc = Some col -> col <> [] -> has_column df col = true ->
  df_rows df !! i = Some row -> row_get df row col = CStr t ->
  Py.ci_contains db (_clean_question_text db q) t = true ->
  let cq := _clean_question_text db q in
  let results := _search_in_sheet db fz eh q name df sc in
  let exact_r := exact_result db df name sc col (i, row) in
  (row_index exact_r = i /\ question exact_r = t
   /\ match_score exact_r = 1%Q /\ matched_method exact_r = Exact)
  /\ In exact_r results
  /\ results = flat_map (fuzzy_row db fz eh cq name df sc col) (iterrows df)
               ++ _exact_search_in_sheet db cq name df sc
  /\ List.filter (fun r => Nat.eqb (row_index r) i) results
     = fuzzy_row db fz eh cq name df sc col (i, row) ++ [exact_r]
  /\ (t <> [] -> t <> Py.lit "nan" ->
      (default default_threshold (threshold (fuzzy_config eh))
       <= _calculate_match_score fz cq (_clean_question_text db t))%Q ->
      length (List.filter (fun r => Nat.eqb (row_index r) i) results) = 2%nat).
Proof.
  intros Hcol Hne Hhas Hrow Hcell Hcontains cq results exact_r.
  assert (Hresults : results
            = flat_map (fuzzy_row db fz eh cq name df sc col) (iterrows df)
              ++ _exact_search_in_sheet db cq name df sc).
  { unfold results, _search_in_sheet. rewrite Hcol, Hhas.
    destruct col; [congruence|]. reflexivity. }
  destruct (str_accessor_text df col i row t Hrow Hcell) as [cells Hacc].
  assert (Hfilter : List.filter (fun r => Nat.eqb (row_index r) i) results
                    = fuzzy_row db fz eh cq name df sc col (i, row) ++ [exact_r]).
  { rewrite Hresults, List.filter_app.
    rewrite (exact_search_rows cq name df sc col cells Hcol Hhas Hacc).
    unfold iterrows.
    rewrite (filter_row_index _ (df_rows df) 0 i), (filter_row_index _ (df_rows df) 0 i).
    - rewrite Nat.sub_0_r, Hrow. cbn [Nat.leb snd]. rewrite Hcell.
      cbn [cell_contains]. unfold cq. rewrite Hcontains. reflexivity.
    - intros ir r. destruct (cell_contains _ _ _); simpl; intros H;
        try contradiction. destruct H as [<-|[]]. reflexivity.
    - intros ir r. unfold fuzzy_row.
      repeat match goal with |- context [if ?c then _ else _] => destruct c end;
        simpl; intros H; try contradiction; destruct H as [<-|[]]; reflexivity. }
  split; [unfold exact_r, exact_result; cbn; rewrite Hcell; auto|].
  split; [|split; [exact Hresults|split; [exact Hfilter|]]].
  - assert (Hin : In exact_r (List.filter (fun r => Nat.eqb (row_index r) i) results)).
    { rewrite Hfilter. apply in_or_app. right. left. reflexivity. }
    apply List.filter_In in Hin. tauto.
  - intros Ht Hnan Hthr. rewrite Hfilter, length_app. simpl.
    unfold fuzzy_row. cbn [snd]. rewrite Hcell. cbn [str_of_cell].
    destruct t; [congruence|]. cbn [Py.truthy negb orb].
    unfold Py.eqb. rewrite bool_decide_eq_false_2 by exact Hnan.
    apply Qle_bool_iff in Hthr. fold cq. rewrite Hthr. reflexivity.
Qed.

End ExactFacts.

Lemma exact_match_reported_witness :
  Py.ci_contains Py.sample_db
    (Bank._clean_question_text Py.sample_db (Py.lit "等于多少？")) (Py.lit "1+1等于多少？")
  = true /\
  In (Bank.exact_result Py.sample_db Examples.math_sheet (Py.lit "数学问题")
        Examples.by_columns (Py.lit "A")
        (0%nat, map (fun s => Bank.CStr (Py.lit s))
                    ["1+1等于多少？"; "1"; "2"; "3"; "4"; "4"; "B"]%string))
     (Bank._search_in_sheet Py.sample_db Bank.sample_fuzz
        (Examples.bank Examples.math_sheet Examples.by_columns None)
        (Py.lit "等于多少？") (Py.lit "数学问题") Examples.math_sheet Examples.by_columns).
Proof.
  split; [vm_compute; reflexivity|].
  refine (proj1 (proj2
            (exact_match_reported Py.sample_db Bank.sample_fuzz
               (Examples.bank Examples.math_sheet Examples.by_columns None)
               (Py.lit "等于多少？") (Py.lit "数学问题") Examples.math_sheet
               Examples.by_columns (Py.lit "A") 0%nat
               (map (fun s => Bank.CStr (Py.lit s))
                    ["1+1等于多少？"; "1"; "2"; "3"; "4"; "4"; "B"]%string)
               (Py.lit "1+1等于多少？") _ _ _ _ _ _))).
  - reflexivity.
  - vm_compute. discriminate.
  - vm_compute. reflexivity.
  - reflexivity.
  - vm_compute. reflexivity.
  - vm_compute. reflexivity.
Defined.

(** *** The empty query *)

Section EmptyQueryFacts.
Import Bank.
Variable db : Py.UnicodeDB.
Variable fz : Fuzz.
Variable eh : ExcelHandler.

Lemma insert_desc_top (x : MatchResult) (l : list MatchResult) :
  match_score x = 1%Q ->
  Forall (fun r => match_score r = 1%Q \/ match_score r = 0%Q) l ->
  insert_desc x l = x :: l.
Proof.
  intros Hx Hl. destruct Hl as [|y l Hy _]; [reflexivity|].
  cbn [insert_desc]. rewrite Hx. destruct Hy as [-> | ->]; reflexivity.
Qed.

Lemma insert_desc_bottom (x : MatchResult) (e f : list MatchResult) :
  match_score x = 0%Q ->
  Forall (fun r => match_score r = 1%Q) e ->
  Forall (fun r => match_score r = 0%Q) f ->
  insert_desc x (e ++ f) = e ++ x :: f.
Proof.
  intros Hx He Hf. induction He as [|y e Hy _ IH]; cbn [app insert_desc].
  - destruct Hf as [|y f Hy _]; [reflexivity|].
    cbn [insert_desc]. rewrite Hx, Hy. reflexivity.
  - rewrite Hx, Hy. cbn. rewrite IH. reflexivity.
Qed.

(** With scores 1 for the exact and 0 for the fuzzy results, sorting puts
    the exact results first and keeps the order within each kind. *)
Lemma sort_desc_two_scores (l : list MatchResult) :
  Forall (fun r => match_score r = (if is_exact r then 1 else 0)%Q) l ->
  sort_desc l = List.filter is_exact l ++ List.filter (fun r => negb (is_exact r)) l.
Proof.
  induction 1 as [|x l Hx Hl IH]; [reflexivity|].
  cbn [sort_desc foldr]. fold (sort_desc l). rewrite IH. cbn [List.filter].
  assert (He : Forall (fun r => match_score r = 1%Q) (List.filter is_exact l)).
  { apply Forall_forall. intros r Hr.
    apply list_elem_of_In, List.filter_In in Hr as [Hr Hex].
    rewrite Forall_forall in Hl. apply list_elem_of_In, Hl in Hr.
    rewrite Hex in Hr. exact Hr. }
  assert (Hf : Forall (fun r => match_score r = 0%Q)
                      (List.filter (fun r => negb (is_exact r)) l)).
  { apply Forall_forall. intros r Hr.
    apply list_elem_of_In, List.filter_In in Hr as [Hr Hex].
    rewrite Forall_forall in Hl. apply list_elem_of_In, Hl in Hr.
    apply negb_true_iff in Hex. rewrite Hex in Hr. exact Hr. }
  destruct (is_exact x); cbn [negb].
  - apply insert_desc_top; [exact Hx|].
    apply Forall_app. split; (eapply Forall_impl; [eassumption|]); simpl; auto.
  - apply insert_desc_bottom; assumption.
Qed.

Lemma search_in_sheet_two_scores (q name : Py.str) (df : DataFrame) (sc : SheetConfig) :
  _clean_question_text db q = [] ->
  Forall (fun r => match_score r = (if is_exact r then 1 else 0)%Q)
         (_search_in_sheet db fz eh q name df sc).
Proof.
  intros Hq. unfold _search_in_sheet.
  destruct (question_column sc) as [col|]; [|constructor].
  destruct (negb (Py.truthy col) || negb (has_column df col)); [constructor|].
  rewrite Hq. apply Forall_app. split.
  - apply Forall_forall. intros r Hr.
    apply list_elem_of_In, in_flat_map in Hr as (ir & _ & Hr).
    unfold fuzzy_row in Hr.
    repeat match type of Hr with context [if ?c then _ else _] => destruct c end;
      simpl in Hr; try contradiction.
    destruct Hr as [<-|[]]. reflexivity.
  - eapply Forall_impl; [apply exact_search_all_exact|].
    intros r [-> Hm]. unfold is_exact. rewrite Hm. reflexivity.
Qed.

Lemma all_results_two_scores (q : Py.str) :
  _clean_question_text db q = [] ->
  Forall (fun r => match_score r = (if is_exact r then 1 else 0)%Q)
         (all_results db fz eh q).
Proof.
  intros Hq. apply Forall_forall. intros r Hr.
  apply list_elem_of_In, in_flat_map in Hr as (nc & _ & Hr).
  destruct (_cache eh !! fst nc) as [df|]; [|contradiction].
  pose proof (search_in_sheet_two_scores q (fst nc) df (snd nc) Hq) as H.
  rewrite Forall_forall in H. apply H, list_elem_of_In, Hr.
Qed.

Lemma no_fuzzy_above_zero (q : Py.str) :
  _clean_question_text db q = [] ->
  (0 < default default_threshold (threshold (fuzzy_config eh)))%Q ->
  List.filter (fun r => negb (is_exact r)) (all_results db fz eh q) = [].
Proof.
  intros Hq Hthr. apply filter_none, Forall_forall. intros r Hr.
  apply list_elem_of_In, in_flat_map in Hr as (nc & _ & Hr).
  destruct (_cache eh !! fst nc) as [df|]; [|contradiction].
  unfold _search_in_sheet in Hr.
  destruct (question_column (snd nc)) as [col|]; [|contradiction].
  destruct (negb (Py.truthy col) || negb (has_column df col)); [contradiction|].
  rewrite Hq in Hr. apply in_app_or in Hr as [Hr|Hr].
  - exfalso. apply in_flat_map in Hr as (ir & _ & Hr).
    unfold fuzzy_row in Hr.
    destruct (negb (Py.truthy _) || Py.eqb _ _); [contradiction|].
    cbn [_calculate_match_score Py.truthy negb orb] in Hr.
    destruct (Qle_bool _ 0) eqn:E; [|contradiction].
    apply Qle_bool_iff in E. lra.
  - pose proof (exact_search_all_exact db [] (fst nc) df (snd nc)) as H.
    rewrite Forall_forall in H. apply list_elem_of_In, H in Hr as [_ Hm].
    unfold is_exact. rewrite Hm. reflexivity.
Qed.

(** C10: for a query whose cleaned form is empty, the blended score of
    every row is 0 (the four measures are not consulted), the exact pass
    reports every row whose question cell holds text with score 1 and
    method "exact", and the lookup returns these exact results first, in
    the order found, cut at the maximum count; when the threshold is above
    0 it returns nothing else. *)
Theorem empty_query_matches_every_row (q : Py.str) :
  _clean_question_text db q = [] ->
  (forall target, _calculate_match_score fz (_clean_question_text db q) target = 0%Q)
  /\ (forall name df sc col i row t,
        question_column sc = Some col -> col <> [] -> has_column df col = true ->
        df_rows df !! i = Some row -> row_get df row col = CStr t ->
        In (exact_result db df name sc col (i, row))
           (_search_in_sheet db fz eh q name df sc))
  /\ search_question db fz eh q
     = slice_to (default 3%Z (max_results (fuzzy_config eh)))
         (List.filter is_exact (all_results db fz eh q)
          ++ List.filter (fun r => negb (is_exact r)) (all_results db fz eh q))
  /\ Forall (fun r => match_score r = 1%Q /\ matched_method r = Exact)
            (List.filter is_exact (all_results db fz eh q))
  /\ ((0 < default default_threshold (threshold (fuzzy_config eh)))%Q ->
      search_question db fz eh q
      = slice_to (default 3%Z (max_results (fuzzy_config eh)))
                 (List.filter is_exact (all_results db fz eh q))).
Proof.
  intros Hq.
  assert (Hsearch : search_question db fz eh q
     = slice_to (default 3%Z (max_results (fuzzy_config eh)))
         (List.filter is_exact (all_results db fz eh q)
          ++ List.filter (fun r => negb (is_exact r)) (all_results db fz eh q))).
  { unfold search_question.
    rewrite (sort_desc_two_scores _ (all_results_two_scores q Hq)). reflexivity. }
  split; [rewrite Hq; reflexivity|]. split; [|split; [exact Hsearch|split]].
  - intros name df sc col i row t Hcol Hne Hhas Hrow Hcell.
    destruct (str_accessor_text df col i row t Hrow Hcell) as [cells Hacc].
    unfold _search_in_sheet. rewrite Hcol, Hhas, Hq.
    destruct col; [congruence|]. cbn [Py.truthy negb orb].
    apply in_or_app. right.
    rewrite (exact_search_rows db [] name df sc _ cells Hcol Hhas Hacc).
    apply in_flat_map. exists (i, row). split.
    + unfold iterrows. apply list_elem_of_In, list_elem_of_lookup.
      exists i. rewrite list_lookup_imap, Hrow. reflexivity.
    + cbn [snd]. rewrite Hcell. cbn [cell_contains].
      replace (Py.ci_contains db [] t) with true by (destruct t; reflexivity).
      left. reflexivity.
  - apply Forall_forall. intros r Hr.
    apply list_elem_of_In, List.filter_In in Hr as [Hr Hex].
    pose proof (all_results_two_scores q Hq) as H. rewrite Forall_forall in H.
    apply list_elem_of_In, H in Hr. rewrite Hex in Hr. split; [exact Hr|].
    unfold is_exact in Hex. destruct (matched_method r); [discriminate|reflexivity].
  - intros Hthr. rewrite Hsearch, (no_fuzzy_above_zero q Hq Hthr), app_nil_r.
    reflexivity.
Qed.

End EmptyQueryFacts.

Lemma empty_query_matches_every_row_witness :
  Bank._clean_question_text Py.sample_db (Py.lit "？？？") = [] /\
  map (fun r => (Bank.row_index r, Bank.matched_method r, Bank.match_score r))
      (Bank.search_question Py.sample_db Bank.sample_fuzz
         (Examples.bank Examples.math_sheet Examples.by_columns None) (Py.lit "？？？"))
  = [(0%nat, Bank.Exact, 1%Q); (1%nat, Bank.Exact, 1%Q)].
Proof.
  split; [reflexivity|].
  destruct (empty_query_matches_every_row Py.sample_db Bank.sample_fuzz
              (Examples.bank Examples.math_sheet Examples.by_columns None)
              (Py.lit "？？？") eq_refl) as (_ & _ & _ & _ & H).
  rewrite H; [reflexivity|]. vm_compute. reflexivity.
Defined.

(** *** Answers and the scenario *)

Section AnswerFacts.
Import Bank.
Variable db : Py.UnicodeDB.

Lemma option_label_inj (i j : nat) : option_label i = option_label j -> i = j.
Proof. unfold option_label. intros H. injection H as H. lia. Qed.

(** The letter of position [j] holds the text of the [j]-th answer column,
    when the row has a value there. *)
Lemma extract_options_lookup (df : DataFrame) (row : list cell) (cols : list Py.str)
    (k j : nat) (opts : gmap Py.str Py.str) :
  extract_options df row k cols opts !! option_label j
  = match (if (k <=? j)%nat then cols !! (j - k)%nat else None) with
    | Some col =>
      if has_column df col && notna (row_get df row col)
      then Some (str_of_cell (row_get df row col))
      else opts !! option_label j
    | None => opts !! option_label j
    end.
Proof.
  revert k opts. induction cols as [|col cols IH]; intros k opts.
  - simpl. destruct (k <=? j)%nat; reflexivity.
  - cbn [extract_options]. rewrite IH.
    destruct (Nat.leb_spec k j) as [Hle|Hgt].
    + destruct (Nat.eq_dec k j) as [->|Hne].
      * replace (S j <=? j)%nat with false by (symmetry; apply Nat.leb_gt; lia).
        rewrite Nat.sub_diag. cbn [lookup list_lookup].
        destruct (has_column df col && notna (row_get df row col));
          [apply lookup_insert_eq|reflexivity].
      * replace (S k <=? j)%nat with true by (symmetry; apply Nat.leb_le; lia).
        replace (j - k)%nat with (S (j - S k)) by lia. cbn [lookup list_lookup].
        assert (E : (if has_column df col && notna (row_get df row col)
                     then <[option_label k:=str_of_cell (row_get df row col)]> opts
                     else opts) !! option_label j = opts !! option_label j).
        { destruct (has_column df col && notna (row_get df row col)); [|reflexivity].
          apply lookup_insert_ne. intros H. apply option_label_inj in H. lia. }
        rewrite E. reflexivity.
    + replace (S k <=? j)%nat with false by (symmetry; apply Nat.leb_gt; lia).
      destruct (has_column df col && notna (row_get df row col)); [|reflexivity].
      apply lookup_insert_ne. intros H. apply option_label_inj in H. lia.
Qed.

Lemma extract_answer_info_options (df : DataFrame) (row : list cell) (sc : SheetConfig) :
  options (_extract_answer_info db df row sc)
  = extract_options df row 0 (answer_columns sc) ∅.
Proof.
  unfold _extract_answer_info.
  repeat match goal with
         | |- context [match ?c with _ => _ end] => destruct c
         end; reflexivity.
Qed.

Lemma In_iterrows (df : DataFrame) (ir : nat * list cell) :
  In ir (iterrows df) -> In (snd ir) (df_rows df).
Proof.
  unfold iterrows. intros H.
  apply list_elem_of_In, list_elem_of_lookup in H as [i H].
  rewrite list_lookup_imap in H.
  destruct (df_rows df !! i) as [row|] eqn:E; [|discriminate].
  injection H as <-. apply list_elem_of_In. eapply list_elem_of_lookup_2, E.
Qed.

(** The lookup depends on the measures only through the blended scores of
    the rows it meets. *)
Lemma search_question_fuzz_ext (fz fz' : Fuzz) (eh : ExcelHandler) (q : Py.str) :
  (forall name sc df row col,
     In (name, sc) (sheets_config eh) -> _cache eh !! name = Some df ->
     question_column sc = Some col -> In row (df_rows df) ->
     _calculate_match_score fz (_clean_question_text db q)
       (_clean_question_text db (str_of_cell (row_get df row col)))
     = _calculate_match_score fz' (_clean_question_text db q)
         (_clean_question_text db (str_of_cell (row_get df row col)))) ->
  search_question db fz eh q = search_question db fz' eh q.
Proof.
  intros H. unfold search_question, all_results. do 2 f_equal.
  apply flat_map_ext_in. intros [name sc] Hin. cbn [fst snd].
  destruct (_cache eh !! name) as [df|] eqn:Hdf; [|reflexivity].
  unfold _search_in_sheet.
  destruct (question_column sc) as [col|] eqn:Hcol; [|reflexivity].
  destruct (negb (Py.truthy col) || negb (has_column df col)); [reflexivity|].
  f_equal. apply flat_map_ext_in. intros ir Hir. unfold fuzzy_row.
  rewrite (H name sc df (snd ir) col Hin Hdf Hcol (In_iterrows df ir Hir)).
  reflexivity.
Qed.

End AnswerFacts.

Section ScenarioFacts.
Import Bank.

(** The scenario with any measures that give 100 for the cleaned question
    compared with itself: the lookup is the one with the sample measures. *)
Lemma scenario_fuzz_ext (fz : Fuzz) (sc : SheetConfig) :
  question_column sc = Some (Py.lit "A") ->
  ratio fz (Py.lit "11等于多少") (Py.lit "11等于多少") = 100%Z ->
  partial_ratio fz (Py.lit "11等于多少") (Py.lit "11等于多少") = 100%Z ->
  token_sort_ratio fz (Py.lit "11等于多少") (Py.lit "11等于多少") = 100%Z ->
  token_set_ratio fz (Py.lit "11等于多少") (Py.lit "11等于多少") = 100%Z ->
  search_question Py.sample_db fz (Examples.bank Examples.one_row_sheet sc None)
    (Py.lit "1+1等于多少？")
  = search_question Py.sample_db sample_fuzz
      (Examples.bank Examples.one_row_sheet sc None) (Py.lit "1+1等于多少？").
Proof.
  intros Hq H1 H2 H3 H4. apply (search_question_fuzz_ext Py.sample_db).
  intros name sc' df row col Hin Hdf Hcol Hrow.
  destruct Hin as [Hin|[]]. injection Hin as <- <-.
  change (_cache (Examples.bank Examples.one_row_sheet sc None) !! Py.lit "数学问题")
    with (Some Examples.one_row_sheet) in Hdf.
  injection Hdf as <-. rewrite Hq in Hcol. injection Hcol as <-.
  destruct Hrow as [<-|[]].
  change (_clean_question_text Py.sample_db (Py.lit "1+1等于多少？"))
    with (Py.lit "11等于多少").
  match goal with |- context [_clean_question_text ?d ?t] =>
    change (_clean_question_text d t) with (Py.lit "11等于多少") end.
  unfold _calculate_match_score.
  change (negb (Py.truthy (Py.lit "11等于多少")) || negb (Py.truthy (Py.lit "11等于多少")))
    with false.
  cbv iota. rewrite H1, H2, H3, H4. reflexivity.
Qed.

Variable db : Py.UnicodeDB.
Variable fz : Fuzz.

(** C4, as the code has it: the answer column at position i (from 0) is
    option letter chr(65 + i), that is A, B, C and so on, when the row has
    a value there; a correct-answer value whose upper-case form is one of
    the option letters is resolved to that option's text, any other value
    is kept as it is; and for the query and the bank row of the scenario
    the cleaned query is not a substring of the stored question, so the one
    match is a FUZZY match, with score 1 when the four measures give 100 for
    the cleaned question compared with itself: its resolved answer is "2"
    when the five values sit in the answer columns in order (letters A to
    E), and "1" when the option letters themselves are B to F. *)
Theorem answer_extraction_and_scenario :
  (forall df row sc i col,
     answer_columns sc !! i = Some col ->
     has_column df col = true -> notna (row_get df row col) = true ->
     options (_extract_answer_info db df row sc) !! [65 + N.of_nat i]
     = Some (str_of_cell (row_get df row col)))
  /\ (forall df row sc cc,
        correct_answer_column sc = Some cc -> cc <> [] ->
        has_column df cc = true -> notna (row_get df row cc) = true ->
        let info := _extract_answer_info db df row sc in
        let raw := str_of_cell (row_get df row cc) in
        correct_answer info = raw
        /\ answer_text info = default raw (options info !! Py.upper db raw))
  /\ (ratio fz (Py.lit "11等于多少") (Py.lit "11等于多少") = 100%Z ->
      partial_ratio fz (Py.lit "11等于多少") (Py.lit "11等于多少") = 100%Z ->
      token_sort_ratio fz (Py.lit "11等于多少") (Py.lit "11等于多少") = 100%Z ->
      token_set_ratio fz (Py.lit "11等于多少") (Py.lit "11等于多少") = 100%Z ->
      map summary
          (search_question Py.sample_db fz
             (Examples.bank Examples.one_row_sheet Examples.by_columns None)
             (Py.lit "1+1等于多少？"))
      = [(0%nat, Fuzzy, 1%Q, Py.lit "2")]
      /\ map summary
             (search_question Py.sample_db fz
                (Examples.bank Examples.one_row_sheet Examples.by_letters None)
                (Py.lit "1+1等于多少？"))
         = [(0%nat, Fuzzy, 1%Q, Py.lit "1")]).
Proof.
  split; [|split].
  - intros df row sc i col Hcol Hhas Hna.
    rewrite (extract_answer_info_options db).
    change [65 + N.of_nat i] with (option_label i).
    rewrite extract_options_lookup. cbn [Nat.leb]. rewrite Nat.sub_0_r, Hcol, Hhas, Hna.
    reflexivity.
  - intros df row sc cc Hcc Hne Hhas Hna info raw.
    unfold info, raw, _extract_answer_info. rewrite Hcc, Hhas, Hna.
    destruct cc; [congruence|]. cbn [Py.truthy andb].
    destruct (extract_options df row 0 (answer_columns sc) ∅ !! _) eqn:E;
      cbn [options correct_answer answer_text]; rewrite E; auto.
  - intros H1 H2 H3 H4.
    rewrite (scenario_fuzz_ext fz Examples.by_columns eq_refl H1 H2 H3 H4).
    rewrite (scenario_fuzz_ext fz Examples.by_letters eq_refl H1 H2 H3 H4).
    split; vm_compute; reflexivity.
Qed.

End ScenarioFacts.

Lemma answer_extraction_and_scenario_witness :
  Bank.ratio Bank.sample_fuzz (Py.lit "11等于多少") (Py.lit "11等于多少") = 100%Z /\
  map Bank.summary
      (Bank.search_question Py.sample_db Bank.sample_fuzz
         (Examples.bank Examples.one_row_sheet Examples.by_columns None)
         (Py.lit "1+1等于多少？"))
  = [(0%nat, Bank.Fuzzy, 1%Q, Py.lit "2")].
Proof.
  split; [reflexivity|].
  apply (answer_extraction_and_scenario Py.sample_db Bank.sample_fuzz);
    vm_compute; reflexivity.
Defined.

(** C4, as stated, fails: for the query and the row of the scenario the
    best match is not an exact match.  The query is cleaned before the
    exact pass ("11等于多少") and the stored text is not, so the exact pass
    finds nothing and the match is the fuzzy one; with the five values in
    the answer columns B to F the resolved answer is "2", and it is "1"
    when the option letters themselves are B to F. *)
Lemma scenario_best_match_is_not_exact :
  Bank._clean_question_text Py.sample_db (Py.lit "1+1等于多少？") = Py.lit "11等于多少"
  /\ Bank._exact_search_in_sheet Py.sample_db (Py.lit "11等于多少") (Py.lit "数学问题")
       Examples.math_sheet Examples.by_columns = []
  /\ map Bank.summary
         (Bank.search_question Py.sample_db Bank.sample_fuzz
            (Examples.bank Examples.math_sheet Examples.by_columns None)
            (Py.lit "1+1等于多少？"))
     = [(0%nat, Bank.Fuzzy, 1%Q, Py.lit "2")]
  /\ map Bank.summary
         (Bank.search_question Py.sample_db Bank.sample_fuzz
            (Examples.bank Examples.math_sheet Examples.by_letters None)
            (Py.lit "1+1等于多少？"))
     = [(0%nat, Bank.Fuzzy, 1%Q, Py.lit "1")]
  /\ Bank.options (Bank._extract_answer_info Py.sample_db Examples.math_sheet
        (map (fun s => Bank.CStr (Py.lit s))
             ["1+1等于多少？"; "1"; "2"; "3"; "4"; "4"; "B"]%string) Examples.by_letters)
     = list_to_map
         [(Py.lit "B", Py.lit "1"); (Py.lit "C", Py.lit "2"); (Py.lit "D", Py.lit "3");
          (Py.lit "E", Py.lit "4"); (Py.lit "F", Py.lit "4")].
Proof.
  split; [vm_compute; reflexivity|]. split; [vm_compute; reflexivity|].
  split; [vm_compute; reflexivity|]. split; [vm_compute; reflexivity|].
  vm_compute. reflexivity.
Qed.

(** ** The configuration store *)

Section ConfigFacts.
Import Config.

Lemma get_keys_update_keys (keys : list Py.str) (config config' value dflt : json) :
  update_keys config keys value = Return config' ->
  get_keys config' keys dflt = value.
Proof.
  revert config config'. induction keys as [|key rest IH]; intros config config' H.
  - discriminate.
  - destruct rest as [|key2 rest].
    + destruct config; try discriminate. injection H as <-.
      cbn. rewrite lookup_insert_eq. reflexivity.
    + change (update_keys config (key :: key2 :: rest) value)
        with (obind (descend config key)
                (fun child => obind (update_keys child (key2 :: rest) value)
                                (fun child' => json_setitem config key child'))) in H.
      destruct config; try discriminate. cbn [descend obind] in H.
      destruct (update_keys _ (key2 :: rest) value) as [child'|e] eqn:E;
        [|discriminate].
      cbn in H. injection H as <-.
      cbn [get_keys]. rewrite lookup_insert_eq. eapply IH, E.
Qed.

Lemma get_keys_empty (keys : list Py.str) (dflt : json) :
  keys <> [] -> get_keys (JDict ∅) keys dflt = dflt.
Proof. destruct keys; [congruence|]. intros _. cbn. rewrite lookup_empty. reflexivity. Qed.

Lemma get_keys_update_keys_other (common : list Py.str) (k k' : Py.str)
    (r r' : list Py.str) (config config' value dflt : json) :
  k <> k' ->
  update_keys config (common ++ k :: r) value = Return config' ->
  get_keys config' (common ++ k' :: r') dflt = get_keys config (common ++ k' :: r') dflt.
Proof.
  intros Hne. revert config config'.
  induction common as [|a common IH]; intros config config' H.
  - cbn [app] in *. destruct r as [|k2 r].
    + destruct config; try discriminate. injection H as <-.
      cbn [get_keys]. rewrite lookup_insert_ne by exact Hne. reflexivity.
    + change (update_keys config (k :: k2 :: r) value)
        with (obind (descend config k)
                (fun child => obind (update_keys child (k2 :: r) value)
                                (fun child' => json_setitem config k child'))) in H.
      destruct config; try discriminate. cbn [descend obind] in H.
      destruct (update_keys _ (k2 :: r) value) as [child'|e]; [|discriminate].
      cbn in H. injection H as <-.
      cbn [get_keys]. rewrite lookup_insert_ne by exact Hne. reflexivity.
  - cbn [app] in *. destruct (common ++ k :: r) as [|b l] eqn:El.
    { destruct common; discriminate. }
    change (update_keys config (a :: b :: l) value)
      with (obind (descend config a)
              (fun child => obind (update_keys child (b :: l) value)
                              (fun child' => json_setitem config a child'))) in H.
    destruct config; try discriminate. cbn [descend obind] in H.
    destruct (update_keys _ (b :: l) value) as [child'|e] eqn:E; [|discriminate].
    cbn in H. injection H as <-.
    cbn [get_keys]. rewrite lookup_insert_eq. rewrite (IH _ _ E).
    destruct (d !! a); [reflexivity|]. cbn [default].
    apply get_keys_empty. destruct common; discriminate.
Qed.

(** X1: what [update] stores under a path, [get] reads back under the same
    path, whatever the default. *)
Theorem get_after_update (config config' : json) (key_path : Py.str)
    (value dflt : json) :
  update config key_path value = Return config' ->
  get config' key_path dflt = value.
Proof. apply get_keys_update_keys. Qed.

Lemma get_after_update_witness :
  exists config',
    update sample_tree (Py.lit "api.max_tokens") (JNum 50) = Return config' /\
    get config' (Py.lit "api.max_tokens") JNull = JNum 50.
Proof.
  eexists. split; [reflexivity|].
  apply (get_after_update sample_tree _ (Py.lit "api.max_tokens") (JNum 50) JNull).
  reflexivity.
Defined.

(** X2: [update] under one path leaves what [get] reads under a path that
    branches off from it (the two paths part at keys that differ). *)
Theorem get_after_update_elsewhere (config config' : json) (key_path other : Py.str)
    (common : list Py.str) (k k' : Py.str) (r r' : list Py.str) (value dflt : json) :
  Py.split 46 key_path = common ++ k :: r ->
  Py.split 46 other = common ++ k' :: r' ->
  k <> k' ->
  update config key_path value = Return config' ->
  get config' other dflt = get config other dflt.
Proof.
  unfold update, get. intros -> -> Hne H.
  eapply get_keys_update_keys_other; eassumption.
Qed.

Lemma get_after_update_elsewhere_witness :
  exists config',
    update sample_tree (Py.lit "api.max_tokens") (JNum 50) = Return config' /\
    get config' (Py.lit "api.api_key") JNull = get sample_tree (Py.lit "api.api_key") JNull.
Proof.
  eexists. split; [reflexivity|].
  apply (get_after_update_elsewhere sample_tree _ (Py.lit "api.max_tokens")
           (Py.lit "api.api_key") [Py.lit "api"] (Py.lit "max_tokens")
           (Py.lit "api_key") [] [] (JNum 50) JNull).
  - reflexivity.
  - reflexivity.
  - discriminate.
  - reflexivity.
Defined.

Lemma update_keys_blocked (keys : list Py.str) (config value : json) :
  keys <> [] ->
  if walk_blocked config keys
  then exists msg, update_keys config keys value = Raise (TypeError, msg)
  else exists config', update_keys config keys value = Return config'.
Proof.
  revert config. induction keys as [|key rest IH]; intros config Hne; [congruence|].
  destruct rest as [|key2 rest].
  - destruct config; cbn [walk_blocked update_keys json_setitem]; eauto.
    destruct (d !! key); eauto.
  - change (update_keys config (key :: key2 :: rest) value)
      with (obind (descend config key)
              (fun child => obind (update_keys child (key2 :: rest) value)
                              (fun child' => json_setitem config key child'))).
    destruct config as [| | | | |d];
      try (cbn [walk_blocked descend obind]; eauto; fail).
    change (walk_blocked (JDict d) (key :: key2 :: rest))
      with (match d !! key with
            | Some v => walk_blocked v (key2 :: rest)
            | None => false
            end).
    cbn [descend obind].
    destruct (d !! key) as [v|] eqn:E; cbn [default id].
    + specialize (IH v ltac:(discriminate)).
      destruct (walk_blocked v (key2 :: rest)).
      * destruct IH as [msg ->]. cbn [obind]. eauto.
      * destruct IH as [c' ->]. cbn [obind json_setitem]. eauto.
    + specialize (IH (JDict ∅) ltac:(discriminate)).
      cbn [walk_blocked] in IH. rewrite lookup_empty in IH.
      destruct IH as [c' ->]. cbn [obind json_setitem]. eauto.
Qed.

(** X3: [update] raises, with a [TypeError], exactly when its walk down the
    path meets a value that is there and is not a dictionary; keys that
    are missing never make it fail, their dictionaries are created. *)
Theorem update_fails_only_on_non_dict (config : json) (key_path : Py.str) (value : json) :
  if walk_blocked config (Py.split 46 key_path)
  then exists msg, update config key_path value = Raise (TypeError, msg)
  else exists config', update config key_path value = Return config'.
Proof.
  apply update_keys_blocked. destruct key_path as [|c r]; [discriminate|].
  cbn. destruct (c =? 46); [discriminate|]. destruct (Py.split 46 r); discriminate.
Qed.

(** X4: a configuration that passes the start-up check [validate_config]
    passes the check of the API handler's constructor, which then does not
    raise. *)
Theorem validate_config_covers_api (config : json) :
  validate_config config = true -> _validate_config config = Return tt.
Proof.
  unfold validate_config, _validate_config, required_keys.
  cbn [map List.filter].
  destruct (json_truthy (get config (Py.lit "api.api_key") JNull));
    cbn [negb]; [|discriminate].
  destruct (json_truthy (get config (Py.lit "api.api_endpoint") JNull));
    cbn [negb]; [|discriminate].
  reflexivity.
Qed.

Lemma validate_config_covers_api_witness :
  validate_config sample_tree = true /\ _validate_config sample_tree = Return tt.
Proof.
  split; [vm_compute; reflexivity|].
  apply (validate_config_covers_api sample_tree). vm_compute. reflexivity.
Defined.

Lemma split_max_tokens :
  Py.split 46 (Py.lit "api.max_tokens") = [Py.lit "api"; Py.lit "max_tokens"].
Proof. reflexivity. Qed.

Lemma update_keys_two (d a : gmap Py.str json) (k1 k2 : Py.str) (v : json) :
  d !! k1 = Some (JDict a) ->
  update_keys (JDict d) [k1; k2] v = Return (JDict (<[k1 := JDict (<[k2 := v]> a)]> d)).
Proof.
  intros E.
  change (update_keys (JDict d) [k1; k2] v)
    with (obind (descend (JDict d) k1)
            (fun child => obind (json_setitem child k2 v)
                            (fun child' => json_setitem (JDict d) k1 child'))).
  unfold descend. rewrite E. reflexivity.
Qed.

Lemma update_keys_two_fresh (d : gmap Py.str json) (k1 k2 : Py.str) (v : json) :
  d !! k1 = None ->
  update_keys (JDict d) [k1; k2] v = Return (JDict (<[k1 := JDict (<[k2 := v]> ∅)]> d)).
Proof.
  intros E.
  change (update_keys (JDict d) [k1; k2] v)
    with (obind (descend (JDict d) k1)
            (fun child => obind (json_setitem child k2 v)
                            (fun child' => json_setitem (JDict d) k1 child'))).
  unfold descend. rewrite E. reflexivity.
Qed.

Lemma set_in_section_dict (d a : gmap Py.str json) (section key : Py.str) (v : json) :
  d !! section = Some (JDict a) ->
  set_in_section (JDict d) section key v
  = Return (JDict (<[section := JDict (<[key := v]> a)]> d)).
Proof. intros E. unfold set_in_section, json_getitem. rewrite E. reflexivity. Qed.

Lemma test_connection_unfold (solve : json -> Api.SolveResult) (config : json) :
  walk_blocked config [Py.lit "api"; Py.lit "max_tokens"] = false ->
  exists config1 config2,
    update_keys config [Py.lit "api"; Py.lit "max_tokens"] (JNum 50) = Return config1 /\
    update_keys config1 [Py.lit "api"; Py.lit "max_tokens"]
      (get config (Py.lit "api.max_tokens") (JNum 500)) = Return config2 /\
    test_connection solve config = (config2, Api.success (solve config1)).
Proof.
  intros Hb. unfold test_connection.
  set (orig := get config (Py.lit "api.max_tokens") (JNum 500)). clearbody orig.
  destruct config as [| | | | |d]; try discriminate.
  cbn [walk_blocked] in Hb. unfold json_setdefault.
  destruct (d !! Py.lit "api") as [v|] eqn:E.
  - destruct v as [| | | | |a]; try discriminate.
    cbn [obind fst].
    rewrite (set_in_section_dict d a) by exact E. cbn [obind].
    rewrite (set_in_section_dict _ (<[Py.lit "max_tokens" := JNum 50]> a))
      by apply lookup_insert_eq.
    cbn [obind].
    eexists _, _. split; [apply update_keys_two, E|].
    split; [apply update_keys_two, lookup_insert_eq|reflexivity].
  - cbn [obind fst].
    rewrite (set_in_section_dict _ ∅) by apply lookup_insert_eq. cbn [obind].
    rewrite (set_in_section_dict _ (<[Py.lit "max_tokens" := JNum 50]> ∅))
      by apply lookup_insert_eq.
    cbn [obind]. rewrite !insert_insert_eq.
    eexists _, _. split; [apply update_keys_two_fresh, E|].
    split; [|reflexivity].
    rewrite (update_keys_two _ (<[Py.lit "max_tokens" := JNum 50]> ∅))
      by apply lookup_insert_eq.
    rewrite !insert_insert_eq. reflexivity.
Qed.

Lemma test_connection_blocked (solve : json -> Api.SolveResult) (config : json) :
  walk_blocked config [Py.lit "api"; Py.lit "max_tokens"] = true ->
  test_connection solve config = (config, false).
Proof.
  intros Hb. unfold test_connection.
  destruct config as [| | | | |d]; try reflexivity.
  cbn [walk_blocked] in Hb. unfold json_setdefault.
  destruct (d !! Py.lit "api") as [v|] eqn:E; [|discriminate].
  cbn [obind fst]. unfold set_in_section, json_getitem. rewrite E.
  destruct v; try reflexivity. destruct (_ !! _) in Hb; discriminate.
Qed.

(** X5: [test_connection] on a configuration whose [api] section is some
    value other than a dictionary answers [False] and changes nothing.
    Otherwise the request is made with [api.max_tokens] at 50, the answer
    is the [success] of that request, and afterwards [api.max_tokens] reads
    what it read before with the default 500: a limit that was not
    configured is written into the configuration as 500. *)
Theorem test_connection_max_tokens (solve : json -> Api.SolveResult)
    (config dflt : json) :
  if walk_blocked config (Py.split 46 (Py.lit "api.max_tokens"))
  then test_connection solve config = (config, false)
  else exists config1,
         get config1 (Py.lit "api.max_tokens") dflt = JNum 50 /\
         snd (test_connection solve config) = Api.success (solve config1) /\
         get (fst (test_connection solve config)) (Py.lit "api.max_tokens") dflt
         = get config (Py.lit "api.max_tokens") (JNum 500).
Proof.
  rewrite split_max_tokens.
  destruct (walk_blocked config _) eqn:Hb.
  - apply test_connection_blocked, Hb.
  - destruct (test_connection_unfold solve config Hb) as (c1 & c2 & H1 & H2 & ->).
    exists c1. cbn [fst snd]. split; [|split].
    + apply (get_keys_update_keys _ _ _ _ dflt H1).
    + reflexivity.
    + apply (get_keys_update_keys _ _ _ _ dflt H2).
Qed.

(** X6: whatever the outcome, [test_connection] leaves what [get] reads
    under every path that branches off from [api.max_tokens]. *)
Theorem test_connection_elsewhere (solve : json -> Api.SolveResult)
    (config dflt : json) (other : Py.str) (common : list Py.str) (k k' : Py.str)
    (r r' : list Py.str) :
  Py.split 46 (Py.lit "api.max_tokens") = common ++ k :: r ->
  Py.split 46 other = common ++ k' :: r' ->
  k <> k' ->
  get (fst (test_connection solve config)) other dflt = get config other dflt.
Proof.
  rewrite split_max_tokens. intros Hs Ho Hne.
  destruct (walk_blocked config [Py.lit "api"; Py.lit "max_tokens"]) eqn:Hb.
  - rewrite test_connection_blocked by exact Hb. reflexivity.
  - destruct (test_connection_unfold solve config Hb) as (c1 & c2 & H1 & H2 & ->).
    cbn [fst]. unfold get. rewrite Ho. rewrite Hs in H1, H2.
    rewrite (get_keys_update_keys_other _ _ _ _ _ _ _ _ dflt Hne H2).
    apply (get_keys_update_keys_other _ _ _ _ _ _ _ _ dflt Hne H1).
Qed.

Lemma test_connection_elsewhere_witness :
  get (fst (test_connection (fun _ => Api.failure (Py.lit "timeout")) sample_tree))
      (Py.lit "api.api_key") JNull
  = get sample_tree (Py.lit "api.api_key") JNull.
Proof.
  apply (test_connection_elsewhere (fun _ => Api.failure (Py.lit "timeout"))
           sample_tree JNull (Py.lit "api.api_key")
           [Py.lit "api"] (Py.lit "max_tokens") (Py.lit "api_key") [] []).
  - reflexivity.
  - reflexivity.
  - discriminate.
Defined.

End ConfigFacts.

(** ** More on the parser of the reply *)

Section ParseMoreFacts.
Import Api.
Variable db : Py.UnicodeDB.

Lemma apply_line_confidence (r : ParsedAnswer) (line : Py.str) :
  confidence (apply_line r line) = confidence r.
Proof. unfold apply_line. destruct (classify _) as [[]|]; reflexivity. Qed.

Lemma scan_confidence (lines : list Py.str) (r : ParsedAnswer) :
  confidence (fold_left apply_line lines r) = confidence r.
Proof.
  revert r. induction lines as [|x lines IH]; intros r; [reflexivity|].
  simpl. rewrite IH. apply apply_line_confidence.
Qed.

Lemma search_bare_letter_option (prev : option N) (s : Py.str) (c : N) :
  search_bare_letter db prev s = Some c -> is_option_letter c = true.
Proof.
  revert prev. induction s as [|x s IH]; intros prev; [discriminate|].
  simpl. destruct (is_option_letter x) eqn:E; cbn [andb].
  - destruct (negb (word_opt db prev) && negb (word_opt db (head s))).
    + intros [= <-]. exact E.
    + apply IH.
  - apply IH.
Qed.

Lemma match_colon_letter_option (t : Py.str) (c : N) :
  match_colon_letter t = Some c -> is_option_letter c = true.
Proof.
  destruct t as [|x t]; [discriminate|]. simpl.
  destruct ((x =? 65306) || (x =? colon)); [|discriminate].
  destruct (Py.lstrip t) as [|y ?]; [discriminate|].
  destruct (is_option_letter y) eqn:E; [|discriminate].
  intros [= <-]. exact E.
Qed.

Lemma match_dotstar_option (t : Py.str) (c : N) :
  match_dotstar t = Some c -> is_option_letter c = true.
Proof.
  induction t as [|x t IH]; [discriminate|].
  cbn [match_dotstar].
  destruct (if x =? newline then None else match_dotstar t) as [y|] eqn:E.
  - intros [= <-]. destruct (x =? newline); [discriminate|]. apply IH, E.
  - apply match_colon_letter_option.
Qed.

Lemma search_answer_is_option (s : Py.str) (c : N) :
  search_answer_is s = Some c -> is_option_letter c = true.
Proof.
  induction s as [|x s IH]; [discriminate|].
  cbn [search_answer_is].
  destruct ((x =? 31572) || (x =? 27491) || (x =? 35299)); [|exact IH].
  destruct (match_dotstar s) as [y|] eqn:E; [|exact IH].
  intros [= <-]. eapply match_dotstar_option, E.
Qed.

Lemma upper_option_letter (c : N) :
  is_option_letter c = true -> 65 <= Py.ascii_upper c <= 68.
Proof.
  unfold is_option_letter, Py.ascii_upper. intros H.
  apply orb_true_iff in H. rewrite !andb_true_iff, !N.leb_le in H.
  destruct (97 <=? c) eqn:E1, (c <=? 122) eqn:E2; cbn [andb];
    rewrite ?N.leb_le, ?N.leb_gt in *; lia.
Qed.

Lemma option_of_letter (t : Py.str) :
  option_of db t = [] \/ exists c, option_of db t = [c] /\ 65 <= c <= 68.
Proof.
  unfold option_of.
  destruct (search_bare_letter db None t) as [c|] eqn:E1.
  - right. eexists. split; [reflexivity|].
    eapply upper_option_letter, search_bare_letter_option, E1.
  - destruct (search_answer_is t) as [c|] eqn:E2; [|auto].
    right. eexists. split; [reflexivity|].
    eapply upper_option_letter, search_answer_is_option, E2.
Qed.

Lemma non_empty_lines_last (lines : list Py.str) (x : Py.str) :
  last (non_empty_lines lines) = Some x -> x <> [].
Proof.
  intros H. apply last_Some_elem_of in H. unfold non_empty_lines in H.
  apply list_elem_of_In, in_map_iff in H as (y & <- & Hy).
  apply filter_In in Hy as [_ Hy]. destruct (Py.strip y); [discriminate|discriminate].
Qed.

(** X7: the [try] block of [_parse_answer] raises on no reply, so that the
    [except] branch, which would put the whole reply into the answer, is
    never taken. *)
Theorem parse_body_never_raises (text : Py.str) (r : ParsedAnswer) :
  snd (parse_body db text r) = Return tt.
Proof.
  unfold parse_body, bind, get. rewrite for_each_parse_line.
  set (scanned := fold_left apply_line _ r).
  destruct (negb (Py.truthy (answer scanned)) && negb (Py.truthy (correct_option scanned))).
  - destruct (last _); unfold modify;
      match goal with |- context [negb (Py.truthy (correct_option ?f))] =>
        destruct (negb (Py.truthy (correct_option f))) end;
      try reflexivity;
      match goal with |- context [search_bare_letter db None ?a] =>
        destruct (search_bare_letter db None a); [reflexivity|];
        destruct (search_answer_is a); reflexivity end.
  - unfold ret.
    destruct (negb (Py.truthy (correct_option scanned))); [|reflexivity].
    destruct (search_bare_letter db None (answer scanned)); [reflexivity|].
    destruct (search_answer_is (answer scanned)); reflexivity.
Qed.

(** X8: the correct option of a parsed reply is empty, or one of the
    capital letters A to D, or the value of the last line that carries the
    label of the correct option. *)
Theorem parse_answer_correct_option (text : Py.str) :
  correct_option (_parse_answer db text) = []
  \/ (exists c, correct_option (_parse_answer db text) = [c] /\ 65 <= c <= 68)
  \/ (exists line, last (labelled LCorrectOption (lines_of text)) = Some line
                   /\ correct_option (_parse_answer db text) = line_value (Py.strip line)).
Proof.
  rewrite parse_answer_unfold.
  set (scanned := fold_left apply_line (lines_of text) initial_result).
  assert (Hs : correct_option scanned =
               match last (labelled LCorrectOption (lines_of text)) with
               | Some line => line_value (Py.strip line)
               | None => []
               end).
  { change (correct_option scanned) with (field LCorrectOption scanned).
    unfold scanned.
    rewrite scan_last_wins. reflexivity. }
  set (filled :=
         if negb (Py.truthy (answer scanned)) && negb (Py.truthy (correct_option scanned))
         then set_answer (default (Py.strip text) (last (non_empty_lines (lines_of text))))
                         scanned
         else scanned).
  assert (Hf : correct_option filled = correct_option scanned).
  { unfold filled. destruct (_ && _); reflexivity. }
  rewrite Hf.
  destruct (correct_option scanned) as [|c0 r0] eqn:Ec; cbn [Py.truthy negb].
  - destruct (option_of_letter (answer filled)) as [E | (c & E & Hc)]; rewrite E.
    + left. exact Hf.
    + right. left. exists c. split; [reflexivity|exact Hc].
  - right. right.
    destruct (last (labelled LCorrectOption (lines_of text))) as [line|];
      [|discriminate].
    exists line. split; [reflexivity|]. rewrite Hf. exact Hs.
Qed.

(** X9: the fall-backs of the parser touch the answer and the correct
    option only: the reasoning and the question type are the value of the
    last line that carries their label, and empty when there is none, and
    the confidence is 0.9 whatever the reply. *)
Theorem parse_answer_other_fields (text : Py.str) (l : label) :
  (l = LReasoning \/ l = LQuestionType ->
   field l (_parse_answer db text) =
   match last (labelled l (lines_of text)) with
   | Some line => line_value (Py.strip line)
   | None => []
   end)
  /\ confidence (_parse_answer db text) = (9 # 10)%Q.
Proof.
  rewrite parse_answer_unfold.
  set (scanned := fold_left apply_line (lines_of text) initial_result).
  set (filled :=
         if negb (Py.truthy (answer scanned)) && negb (Py.truthy (correct_option scanned))
         then set_answer (default (Py.strip text) (last (non_empty_lines (lines_of text))))
                         scanned
         else scanned).
  assert (Hf : forall l', l' = LReasoning \/ l' = LQuestionType ->
                 field l' filled = field l' scanned).
  { intros l' [-> | ->]; unfold filled; destruct (_ && _); reflexivity. }
  assert (Hc : confidence filled = confidence scanned).
  { unfold filled; destruct (_ && _); reflexivity. }
  split.
  - intros Hl.
    transitivity (field l filled).
    + destruct (negb (Py.truthy (correct_option filled))); [|reflexivity].
      destruct (option_of db (answer filled)); [reflexivity|].
      destruct Hl as [-> | ->]; reflexivity.
    + rewrite (Hf l Hl). unfold scanned. rewrite scan_last_wins.
      destruct Hl as [-> | ->]; reflexivity.
  - transitivity (confidence filled).
    + destruct (negb (Py.truthy (correct_option filled))); [|reflexivity].
      destruct (option_of db (answer filled)); reflexivity.
    + rewrite Hc. unfold scanned. rewrite scan_confidence. reflexivity.
Qed.

(** X10: a reply that is not blank never parses to nothing: the answer or
    the correct option is not empty. *)
Theorem parse_answer_not_empty (text : Py.str) :
  Py.strip text <> [] ->
  answer (_parse_answer db text) <> [] \/ correct_option (_parse_answer db text) <> [].
Proof.
  intros Hne. rewrite parse_answer_unfold.
  set (scanned := fold_left apply_line (lines_of text) initial_result).
  destruct (answer scanned) as [|a0 ar] eqn:Ea; cbn [Py.truthy negb andb].
  - destruct (correct_option scanned) as [|c0 cr] eqn:Ec; cbn [Py.truthy negb andb].
    + left.
      assert (Hans : default (Py.strip text) (last (non_empty_lines (lines_of text))) <> []).
      { destruct (last (non_empty_lines (lines_of text))) as [x|] eqn:El; cbn [default].
        - eapply non_empty_lines_last, El.
        - exact Hne. }
      cbn [correct_option set_answer answer]. rewrite Ec. cbn [Py.truthy negb].
      destruct (option_of db _); cbn; exact Hans.
    + right. rewrite Ec. cbn [Py.truthy negb]. rewrite Ec. discriminate.
  - left. destruct (negb (Py.truthy (correct_option scanned)));
      [destruct (option_of db (answer scanned))|]; cbn; rewrite Ea; discriminate.
Qed.

End ParseMoreFacts.

Lemma parse_answer_not_empty_witness :
  Py.strip (Py.lit " たぶん B です ") <> [] /\
  (Api.answer (Api._parse_answer Py.sample_db (Py.lit " たぶん B です ")) <> []
   \/ Api.correct_option (Api._parse_answer Py.sample_db (Py.lit " たぶん B です ")) <> []).
Proof.
  split; [vm_compute; discriminate|].
  apply (parse_answer_not_empty Py.sample_db). vm_compute. discriminate.
Defined.

(** ** The solver on a reply of the documented shape *)

Section SolverMoreFacts.
Import Api.
Variable db : Py.UnicodeDB.
Variable str_format : Py.str -> Py.str -> outcome Py.str.
Variable config : ApiConfig.
Variable srv : server.

Lemma call_api_ok (prompt endpoint : Py.str) (resp : Response) (j : json) :
  api_endpoint config = Some endpoint ->
  fst (Urllib3.send _create_session Urllib3.POST srv) = Return resp ->
  status_code resp = 200%Z ->
  body resp = Return j ->
  _call_api config srv prompt = j.
Proof.
  intros He Hs H200 Hb. unfold _call_api, session_post.
  rewrite He. cbn [obind]. rewrite Hs. cbn [obind]. rewrite H200, Hb. reflexivity.
Qed.

(** X11: when the prompt can be built, the endpoint is configured and the
    request ends with status 200 and a JSON object whose first choice has a
    message with text content, [solve_question] succeeds: the raw response
    is that text, the answer is what [_parse_answer] makes of it, and
    [usage] and [model] are those of the reply, or an empty dictionary and
    an empty string. *)
Theorem solve_question_succeeds (question_text : Py.str)
    (context : option (gmap Py.str Py.str)) (prompt endpoint : Py.str)
    (resp : Response) (d c m : gmap Py.str json) (rest : list json) (text : Py.str) :
  _build_prompt str_format question_text context = Return prompt ->
  api_endpoint config = Some endpoint ->
  fst (Urllib3.send _create_session Urllib3.POST srv) = Return resp ->
  status_code resp = 200%Z ->
  body resp = Return (JDict d) ->
  d !! Py.lit "choices" = Some (JList (JDict c :: rest)) ->
  c !! Py.lit "message" = Some (JDict m) ->
  m !! Py.lit "content" = Some (JStr text) ->
  solve_question db str_format config srv question_text context
  = Return {| success := true;
              solved_answer := Some (_parse_answer db text);
              raw_response := Some text;
              usage := Some (default (JDict ∅) (d !! Py.lit "usage"));
              model := Some (default (JStr []) (d !! Py.lit "model"));
              error := None;
              source := Py.lit "api" |}.
Proof.
  intros Hp He Hs H200 Hb Hd Hc Hm. unfold solve_question.
  rewrite Hp. cbn [obind].
  rewrite (call_api_ok prompt endpoint resp (JDict d) He Hs H200 Hb).
  assert (Ht : json_truthy (JDict d) = true).
  { unfold json_truthy. rewrite bool_decide_eq_false_2; [reflexivity|].
    intros ->. rewrite lookup_empty in Hd. discriminate. }
  rewrite Ht. unfold json_contains. rewrite Hd.
  rewrite bool_decide_eq_true_2 by eauto. cbn [obind].
  unfold json_getitem at 1. rewrite Hd. cbn [obind json_getitem0].
  unfold json_getitem at 1. rewrite Hc. cbn [obind].
  unfold json_getitem at 1. rewrite Hm. cbn [obind parse_content json_get fst snd].
  reflexivity.
Qed.

(** X12: trailing slashes of the configured endpoint do not change the URL
    of the request. *)
Theorem post_url_trailing_slashes (endpoint : Py.str) (n : nat) :
  post_args config (endpoint ++ repeat 47 n) = post_args config endpoint.
Proof.
  unfold post_args. f_equal. f_equal. unfold rstrip_slash. f_equal.
  rewrite rev_app_distr.
  assert (E : rev (repeat 47 n) = repeat 47 n).
  { induction n as [|k IH]; [reflexivity|].
    cbn [repeat rev]. rewrite IH. symmetry. apply repeat_cons. }
  rewrite E. clear E. induction n as [|k IH]; [reflexivity|].
  cbn [repeat app lstrip_slash]. rewrite N.eqb_refl. exact IH.
Qed.

End SolverMoreFacts.

Lemma solve_question_succeeds_witness :
  Api.succeeded
    (Api.solve_question Py.sample_db Examples.sample_format Examples.sample_config
       Examples.srv_200 (Py.lit "1 + 1 = ?") None) = Some true.
Proof.
  rewrite (solve_question_succeeds Py.sample_db Examples.sample_format
             Examples.sample_config Examples.srv_200 (Py.lit "1 + 1 = ?") None
             (Examples.replace_field Api.base_prompt (Py.lit "1 + 1 = ?")
              ++ Py.lit "

【数学】計算ミスに注意。")
             (Py.lit "https://example.openai.azure.com/")
             {| status_code := 200; retry_after := false;
                body := Return (Examples.good_body (Py.lit "思考過程: 1 と 1 を足す
答え: 2")) |}
             {[ Py.lit "choices" :=
                  JList [JDict {[ Py.lit "message" :=
                                    JDict {[ Py.lit "content" :=
                                               JStr (Py.lit "思考過程: 1 と 1 を足す
答え: 2") ]} ]}] ]}
             {[ Py.lit "message" :=
                  JDict {[ Py.lit "content" := JStr (Py.lit "思考過程: 1 と 1 を足す
答え: 2") ]} ]}
             {[ Py.lit "content" := JStr (Py.lit "思考過程: 1 と 1 を足す
答え: 2") ]}
             [] (Py.lit "思考過程: 1 と 1 を足す
答え: 2")).
  - reflexivity.
  - vm_compute. reflexivity.
  - reflexivity.
  - vm_compute. reflexivity.
  - reflexivity.
  - reflexivity.
  - vm_compute. reflexivity.
  - vm_compute. reflexivity.
  - vm_compute. reflexivity.
Defined.

(** ** The counters and the calls of an accepted trigger *)

Section PipelineFacts.
Import Main.
Variable capture_and_extract : outcome (option Py.str).
Variable search_question : Py.str -> outcome (list Bank.MatchResult).
Variable solve_question : Py.str -> outcome Api.SolveResult.
Variable tk_status : Py.str -> outcome unit.
Variable tk_render : Result -> outcome unit.

Abbreviation process' :=
  (_process_question capture_and_extract search_question solve_question
                     tk_status tk_render).
Abbreviation handler' :=
  (_on_hotkey_triggered capture_and_extract search_question solve_question
                        tk_status tk_render).

Ltac run_step :=
  match goal with
  | |- context [tk_status ?m] =>
    let E := fresh "Hstatus" in destruct (tk_status m) as [[]|?] eqn:E
  | |- context [tk_render ?r] =>
    let E := fresh "Hrender" in destruct (tk_render r) as [[]|?] eqn:E
  | |- context [solve_question ?q] =>
    let E := fresh "Hsolve" in destruct (solve_question q) as [?|?] eqn:E
  | |- context [search_question ?q] =>
    let E := fresh "Hsearch" in destruct (search_question q) as [[|? ?]|?] eqn:E
  | |- context [if Api.success ?r then _ else _] =>
    let E := fresh "Hsuccess" in destruct (Api.success r) eqn:E
  | |- context [if ?c then _ else _] =>
    let E := fresh "Hshort" in destruct c eqn:E
  end.

Ltac run_all :=
  unfold _on_hotkey_triggered, _process_question, show_status, show_answer, show_error,
    finally, try_, bind, read, update, emit, lift, ret;
  cbn [fst snd is_processing set_is_processing map_stats stats].

Ltac run_steps :=
  repeat (run_step;
          cbn [fst snd is_processing set_is_processing map_stats stats success failed
               error content]).


Ltac trace_events :=
  eexists; split; [rewrite <- ?app_assoc; cbn [app]; reflexivity|];
  intros ?; cbn [In]; split; intros Hin;
  repeat (destruct Hin as [Hin|Hin]); try discriminate; try contradiction;
  injection Hin as <-.

(** X14: the calls of a trigger: the bank is searched only for the text
    the capture returned, and only when its stripped length is 3 or more;
    the API is asked only for a text the bank was searched for and had no
    match for. *)
Theorem api_only_after_empty_search (app : App) (trace : list event) :
  exists evs,
    snd (fst (handler' (app, trace))) = trace ++ evs
    /\ forall q,
         (In (Search q) evs ->
          capture_and_extract = Return (Some q) /\ (3 <= length (Py.strip q))%nat)
         /\ (In (Solve q) evs ->
             In (Search q) evs /\ search_question q = Return []).
Proof.
  run_all. destruct (is_processing app) eqn:Hflag.
  - cbn [fst snd]. trace_events.
  - destruct capture_and_extract as [[q|]|?] eqn:Hcap.
    all: run_steps.
    all: trace_events.
    all: try (split; [reflexivity|]; apply orb_false_iff in Hshort as [_ Hshort];
              apply Nat.ltb_ge in Hshort; exact Hshort).
    all: split; [cbn [In]; auto 10|assumption].
Qed.

(** X15: an accepted trigger whose capture gives a text of stripped length
    3 or more for which the bank has a match, with a window that takes the
    status notifications: the best match is shown, the API is not asked,
    and the trigger counts as a bank match and as a success. *)
Theorem bank_hit_shown_without_api (app : App) (trace : list event) (q : Py.str)
    (best_match : Bank.MatchResult) (others : list Bank.MatchResult) :
  is_processing app = false ->
  (forall message, tk_status message = Return tt) ->
  capture_and_extract = Return (Some q) ->
  (3 <= length (Py.strip q))%nat ->
  search_question q = Return (best_match :: others) ->
  fst (handler' (app, trace))
  = ({| is_processing := false;
        stats := incr_successful_answers
                   (incr_excel_matches (incr_total_requests (stats app))) |},
     trace ++ [ShowStatus (Py.lit "正在识别题目..."); Capture;
               ShowStatus (Py.lit "正在查询题库..."); Search q;
               ShowAnswer {| success := true; error := None;
                             content := FromExcel best_match |}]).
Proof.
  intros Hflag Hstatus Hcap Hlen Hsearch. run_all.
  rewrite Hflag, !Hstatus, Hcap. cbn [fst snd].
  assert (Hshort : negb (Py.truthy q) || (length (Py.strip q) <? 3)%nat = false).
  { apply orb_false_iff. split.
    - destruct q; [cbn in Hlen; lia|reflexivity].
    - apply Nat.ltb_ge, Hlen. }
  rewrite Hshort, Hsearch. cbn [fst snd].
  run_step; cbn [fst snd success]; rewrite <- !app_assoc; reflexivity.
Qed.

(** X16: an accepted trigger whose text the bank has no match for, with a
    window that takes the status notifications and a solver that returns:
    the API is asked once; on success the answer is shown and the trigger
    counts as a success, otherwise the error of the solver is shown and the
    trigger counts as a failure. *)
Theorem bank_miss_goes_to_api (app : App) (trace : list event) (q : Py.str)
    (api_result : Api.SolveResult) :
  is_processing app = false ->
  (forall message, tk_status message = Return tt) ->
  capture_and_extract = Return (Some q) ->
  (3 <= length (Py.strip q))%nat ->
  search_question q = Return [] ->
  solve_question q = Return api_result ->
  let asked := incr_api_calls (incr_total_requests (stats app)) in
  let steps := [ShowStatus (Py.lit "正在识别题目..."); Capture;
                ShowStatus (Py.lit "正在查询题库..."); Search q;
                ShowStatus (Py.lit "正在调用AI解答..."); Solve q] in
  fst (handler' (app, trace))
  = if Api.success api_result
    then ({| is_processing := false; stats := incr_successful_answers asked |},
          trace ++ steps
          ++ [ShowAnswer {| success := true; error := None;
                            content := FromApi api_result |}])
    else ({| is_processing := false; stats := incr_failed_answers asked |},
          trace ++ steps
          ++ [ShowError (Py.lit "处理失败: "
                         ++ Py.lit "API调用失败: "
                         ++ default (Py.lit "None") (Api.error api_result))]).
Proof.
  intros Hflag Hstatus Hcap Hlen Hsearch Hsolve. cbv zeta. run_all.
  rewrite Hflag, !Hstatus, Hcap. cbn [fst snd].
  assert (Hshort : negb (Py.truthy q) || (length (Py.strip q) <? 3)%nat = false).
  { apply orb_false_iff. split.
    - destruct q; [cbn in Hlen; lia|reflexivity].
    - apply Nat.ltb_ge, Hlen. }
  rewrite Hshort, Hsearch. cbn [fst snd]. rewrite Hsolve. cbn [fst snd].
  destruct (Api.success api_result); cbn [fst snd success error failed default].
  - run_step; cbn [fst snd success];
      rewrite <- !app_assoc; reflexivity.
  - run_step; cbn [fst snd success];
      rewrite <- !app_assoc; reflexivity.
Qed.

End PipelineFacts.

Lemma bank_hit_shown_without_api_witness :
  fst (Main._on_hotkey_triggered
         (Return (Some (Py.lit "1+1等于多少？")))
         (fun _ => Return [MoreExamples.sample_hit])
         (fun _ => Raise (Timeout, Py.lit "timed out"))
         MoreExamples.tk_ok MoreExamples.tk_ok (Examples.idle_app, []))
  = ({| Main.is_processing := false;
        Main.stats := {| Main.total_requests := 1; Main.excel_matches := 1;
                         Main.api_calls := 0; Main.successful_answers := 1;
                         Main.failed_answers := 0 |} |},
     [Main.ShowStatus (Py.lit "正在识别题目..."); Main.Capture;
      Main.ShowStatus (Py.lit "正在查询题库..."); Main.Search (Py.lit "1+1等于多少？");
      Main.ShowAnswer {| Main.success := true; Main.error := None;
                         Main.content := Main.FromExcel MoreExamples.sample_hit |}]).
Proof.
  apply (bank_hit_shown_without_api
           (Return (Some (Py.lit "1+1等于多少？")))
           (fun _ => Return [MoreExamples.sample_hit])
           (fun _ => Raise (Timeout, Py.lit "timed out"))
           MoreExamples.tk_ok MoreExamples.tk_ok Examples.idle_app []
           (Py.lit "1+1等于多少？") MoreExamples.sample_hit []).
  - reflexivity.
  - reflexivity.
  - reflexivity.
  - vm_compute. lia.
  - reflexivity.
Defined.

Lemma bank_miss_goes_to_api_witness :
  fst (Main._on_hotkey_triggered
         (Return (Some (Py.lit "1+1等于多少？")))
         (fun _ => Return [])
         (fun _ => Return (Api.failure (Py.lit "API响应格式错误")))
         MoreExamples.tk_ok MoreExamples.tk_ok (Examples.idle_app, []))
  = ({| Main.is_processing := false;
        Main.stats := {| Main.total_requests := 1; Main.excel_matches := 0;
                         Main.api_calls := 1; Main.successful_answers := 0;
                         Main.failed_answers := 1 |} |},
     [Main.ShowStatus (Py.lit "正在识别题目..."); Main.Capture;
      Main.ShowStatus (Py.lit "正在查询题库..."); Main.Search (Py.lit "1+1等于多少？");
      Main.ShowStatus (Py.lit "正在调用AI解答..."); Main.Solve (Py.lit "1+1等于多少？");
      Main.ShowError (Py.lit "处理失败: API调用失败: API响应格式错误")]).
Proof.
  apply (bank_miss_goes_to_api
           (Return (Some (Py.lit "1+1等于多少？")))
           (fun _ => Return [])
           (fun _ => Return (Api.failure (Py.lit "API响应格式错误")))
           MoreExamples.tk_ok MoreExamples.tk_ok Examples.idle_app []
           (Py.lit "1+1等于多少？") (Api.failure (Py.lit "API响应格式错误"))).
  - reflexivity.
  - reflexivity.
  - reflexivity.
  - vm_compute. lia.
  - reflexivity.
  - reflexivity.
Defined.

(** ** Matches point into the bank *)

Section GroundedFacts.
Import Bank BankFacts.
Variable db : Py.UnicodeDB.
Variable fz : Fuzz.
Variable eh : ExcelHandler.

Lemma iterrows_lookup (df : DataFrame) (ir : nat * list cell) :
  In ir (iterrows df) -> df_rows df !! fst ir = Some (snd ir).
Proof.
  unfold iterrows. intros H. apply list_elem_of_In in H.
  apply elem_of_lookup_imap in H as (i & row & -> & H). exact H.
Qed.

Lemma exact_search_sound (q name : Py.str) (df : DataFrame) (sc : SheetConfig)
    (r : MatchResult) :
  In r (_exact_search_in_sheet db q name df sc) ->
  exists col ir,
    question_column sc = Some col /\ has_column df col = true
    /\ In ir (iterrows df) /\ r = exact_result db df name sc col ir.
Proof.
  unfold _exact_search_in_sheet, getitem_column.
  destruct (question_column sc) as [col|]; [|intros []].
  destruct (has_column df col) eqn:Hc; [|intros []].
  cbn [obind]. destruct (str_accessor df col) as [cells|e]; [|intros []].
  cbn [obind try_except]. intros H.
  apply in_map_iff in H as (ir & <- & H). apply filter_In in H as [H _].
  exists col, ir. auto.
Qed.

Lemma search_in_sheet_sound (q name : Py.str) (df : DataFrame) (sc : SheetConfig)
    (r : MatchResult) :
  In r (_search_in_sheet db fz eh q name df sc) ->
  exists col ir,
    question_column sc = Some col /\ has_column df col = true
    /\ In ir (iterrows df)
    /\ sheet_name r = name /\ row_index r = fst ir
    /\ question r = str_of_cell (row_get df (snd ir) col)
    /\ answer_info r = _extract_answer_info db df (snd ir) sc.
Proof.
  unfold _search_in_sheet.
  destruct (question_column sc) as [col|] eqn:Hq; [|intros []].
  destruct (Py.truthy col); cbn [negb orb]; [|intros []].
  destruct (has_column df col) eqn:Hc; cbn [negb]; [|intros []].
  intros H. apply in_app_or in H as [H|H].
  - apply in_flat_map in H as (ir & Hir & H). exists col, ir.
    unfold fuzzy_row in H.
    destruct (_ || _) in H; [destruct H|].
    destruct (Qle_bool _ _) in H; [|destruct H].
    destruct H as [<-|[]]. repeat split; auto.
  - apply exact_search_sound in H as (col' & ir & Hq' & Hc' & Hir & ->).
    rewrite Hq in Hq'. injection Hq' as <-.
    exists col, ir. repeat split; auto.
Qed.

(** X17: every result of [search_question] points into the bank: its
    sheet is configured and loaded, its row index is a row of that sheet,
    and its question and its answer are what that row holds. *)
Theorem search_results_grounded (q : Py.str) :
  Forall (grounded db eh) (search_question db fz eh q).
Proof.
  unfold search_question.
  assert (H : Forall (grounded db eh) (sort_desc (all_results db fz eh q))).
  { apply sort_desc_Forall. apply Forall_forall. intros r Hr.
    apply list_elem_of_In in Hr. unfold all_results in Hr.
    apply in_flat_map in Hr as ([name sc] & Hnc & Hr). cbn [fst snd] in Hr.
    destruct (_cache eh !! name) as [df|] eqn:Hdf; [|destruct Hr].
    apply search_in_sheet_sound in Hr
      as (col & ir & Hq & Hc & Hir & Hname & Hrow & Hquestion & Hanswer).
    exists sc, df, col, (snd ir). rewrite Hname, Hrow.
    repeat split; auto. apply iterrows_lookup, Hir. }
  unfold slice_to. destruct (0 <=? _)%Z; apply Forall_take, H.
Qed.

End GroundedFacts.

(** ** Cleaning of a question text *)

Section CleanFacts.
Import Bank BankFacts.
Variable db : Py.UnicodeDB.

Ltac ncases :=
  repeat match goal with
  | H : context [?a <=? ?b] |- _ => destruct (N.leb_spec a b); try lia
  | H : context [?a <? ?b] |- _ => destruct (N.ltb_spec a b); try lia
  | H : context [?a =? ?b] |- _ => destruct (N.eqb_spec a b); try lia
  | |- context [?a <=? ?b] => destruct (N.leb_spec a b); try lia
  | |- context [?a <? ?b] => destruct (N.ltb_spec a b); try lia
  | |- context [?a =? ?b] => destruct (N.eqb_spec a b); try lia
  end.

Lemma lstrip_Forall (P : N -> Prop) (s : Py.str) :
  Forall P s -> Forall P (Py.lstrip s).
Proof.
  induction 1 as [|c s Hc Hs IH]; [constructor|].
  cbn [Py.lstrip]. destruct (Py.isspace c); [exact IH|]. constructor; assumption.
Qed.

Lemma strip_Forall (P : N -> Prop) (s : Py.str) :
  Forall P s -> Forall P (Py.strip s).
Proof.
  intros H. unfold Py.strip, Py.rstrip.
  apply Forall_rev, lstrip_Forall, Forall_rev, lstrip_Forall, H.
Qed.

Lemma collapse_spaces_Forall (in_run : bool) (s : Py.str) :
  Forall (fun c => c < 128) s ->
  Forall (fun c => c < 128 /\ (Py.isspace c = true -> c = 32))
         (collapse_spaces in_run s).
Proof.
  intros H. revert in_run. induction H as [|c s Hc Hs IH]; intros in_run; [constructor|].
  cbn [collapse_spaces]. destruct (Py.isspace c) eqn:E.
  - destruct in_run; [apply IH|]. constructor; [|apply IH]. split; [lia|reflexivity].
  - constructor; [|apply IH]. split; [exact Hc|]. rewrite E. discriminate.
Qed.

Lemma clean_char (c : N) :
  c < 128 -> (Py.isspace c = true -> c = 32) ->
  Py.is_word db c || Py.isspace c || is_japanese c = true ->
  clean_ascii (Py.ascii_lower c).
Proof.
  intros Hc Hs Hkeep. unfold clean_ascii.
  destruct (Py.isspace c) eqn:E.
  - rewrite (Hs eq_refl). vm_compute. auto.
  - clear Hs E. unfold Py.is_word, is_japanese, Py.ascii_isalnum in Hkeep.
    unfold Py.ascii_lower.
    ncases; cbn [andb orb] in *; try discriminate; lia.
Qed.

(** X18: the cleaned form of a text of ASCII characters holds lower-case
    letters, digits, underscores and spaces only, whatever the character
    database says about the characters from 128 on. *)
Theorem clean_question_text_ascii (text : Py.str) :
  Forall (fun c => c < 128) text ->
  Forall clean_ascii (_clean_question_text db text).
Proof.
  intros H. unfold _clean_question_text.
  destruct (negb (Py.truthy text)); [constructor|].
  unfold Py.lower. apply Forall_flat_map.
  pose proof (collapse_spaces_Forall false _ (strip_Forall _ _ H)) as Hc.
  induction Hc as [|c s [Hlt Hsp] Hs IH]; [constructor|].
  cbn [List.filter].
  destruct (Py.is_word db c || Py.isspace c || is_japanese c) eqn:E; [|exact IH].
  constructor; [|exact IH].
  apply N.ltb_lt in Hlt as Hlt'. rewrite Hlt'.
  constructor; [|constructor]. apply clean_char; assumption.
Qed.

End CleanFacts.

Lemma clean_question_text_ascii_witness :
  Forall BankFacts.clean_ascii
         (Bank._clean_question_text Py.sample_db (Py.lit "  What is  2 + 3 ?  ")).
Proof.
  apply (clean_question_text_ascii Py.sample_db).
  apply Forall_forall. intros c Hc. apply list_elem_of_In in Hc.
  assert (E : forallb (fun c => c <? 128) (Py.lit "  What is  2 + 3 ?  ") = true)
    by (vm_compute; reflexivity).
  rewrite forallb_forall in E. apply N.ltb_lt, E, Hc.
Defined.

(** ** The debounce of the trigger key *)

Section HotkeyFacts.
Import Hotkey.

Lemma press_fold (keys : list key) (h : HotkeyListener) :
  exists new,
    event_queue (fold_left press keys h) = event_queue h ++ new
    /\ spaced (debounce_interval h) (last_trigger_time h) (trigger_stamps new)
    /\ total_triggers (fold_left press keys h)
       = (total_triggers h + length (trigger_stamps new))%nat
    /\ others new = others (map key_event keys)
    /\ debounce_interval (fold_left press keys h) = debounce_interval h.
Proof.
  revert h. induction keys as [|k keys IH]; intros h.
  - exists []. cbn. rewrite app_nil_r. auto.
  - cbn [fold_left]. destruct k as [t| | |]; cbn [press map key_event].
    + unfold _on_trigger_key.
      destruct (Bank.Qltb (t - last_trigger_time h) (debounce_interval h)) eqn:E.
      * destruct (IH h) as (new & Hq & Hs & Ht & Ho & Hd). exists new. auto.
      * match goal with |- context [fold_left press keys ?h1] =>
          destruct (IH h1) as (new & Hq & Hs & Ht & Ho & Hd)
        end.
        cbn [put event_queue last_trigger_time debounce_interval total_triggers] in *.
        exists (QTrigger t :: new). rewrite Hq, Ht, Hd, <- app_assoc.
        cbn [trigger_stamps flat_map app length others List.filter spaced].
        split; [reflexivity|]. split; [split; [apply Qltb_false, E|exact Hs]|].
        split; [unfold trigger_stamps in *; lia|]. split; [exact Ho|reflexivity].
    + destruct (IH (_on_exit_key h)) as (new & Hq & Hs & Ht & Ho & Hd).
      cbn [_on_exit_key put event_queue last_trigger_time debounce_interval
           total_triggers] in *.
      exists (QExit :: new). rewrite Hq, Ht, Hd, <- app_assoc.
      cbn [trigger_stamps flat_map app].
      split; [reflexivity|]. split; [exact Hs|]. split; [reflexivity|].
      split; [|reflexivity]. unfold others in *. cbn [List.filter]. f_equal. exact Ho.
    + destruct (IH (_on_reload_config h)) as (new & Hq & Hs & Ht & Ho & Hd).
      cbn [_on_reload_config put event_queue last_trigger_time debounce_interval
           total_triggers] in *.
      exists (QReloadConfig :: new). rewrite Hq, Ht, Hd, <- app_assoc.
      cbn [trigger_stamps flat_map app].
      split; [reflexivity|]. split; [exact Hs|]. split; [reflexivity|].
      split; [|reflexivity]. unfold others in *. cbn [List.filter]. f_equal. exact Ho.
    + destruct (IH (_on_show_stats h)) as (new & Hq & Hs & Ht & Ho & Hd).
      cbn [_on_show_stats put event_queue last_trigger_time debounce_interval
           total_triggers] in *.
      exists (QShowStats :: new). rewrite Hq, Ht, Hd, <- app_assoc.
      cbn [trigger_stamps flat_map app].
      split; [reflexivity|]. split; [exact Hs|]. split; [reflexivity|].
      split; [|reflexivity]. unfold others in *. cbn [List.filter]. f_equal. exact Ho.
Qed.

(** X19: after any sequence of presses of the four hot keys, the triggers
    put on the queue are at least the debounce interval apart, the first
    one that much after the last trigger before, [total_triggers] has
    grown by their number, and every press of another key is queued. *)
Theorem debounce_spacing (keys : list key) (h : HotkeyListener) :
  exists new,
    event_queue (fold_left press keys h) = event_queue h ++ new
    /\ spaced (debounce_interval h) (last_trigger_time h) (trigger_stamps new)
    /\ total_triggers (fold_left press keys h)
       = (total_triggers h + length (trigger_stamps new))%nat
    /\ others new = others (map key_event keys).
Proof.
  destruct (press_fold keys h) as (new & H1 & H2 & H3 & H4 & _).
  exists new. auto.
Qed.

End HotkeyFacts.

(** ** The recognised text *)

Section OcrFacts.
Import Ocr.
Variable uni_isdecimal : N -> bool.

Lemma sub_with_Forall (P : N -> Prop) (m : Py.str -> option (Py.str * nat))
    (skip : nat) (s : Py.str) :
  (forall t new n, Forall P t -> m t = Some (new, n) -> Forall P new) ->
  Forall P s -> Forall P (sub_with m skip s).
Proof.
  intros Hm Hs. revert skip. induction Hs as [|c r Hc Hr IH]; intros skip; [constructor|].
  cbn [sub_with]. destruct skip as [|k]; [|apply IH].
  destruct (m (c :: r)) as [[new n]|] eqn:E.
  - apply Forall_app. split; [|apply IH].
    eapply Hm; [|exact E]. constructor; assumption.
  - constructor; [assumption|apply IH].
Qed.

Lemma replace_Forall (P : N -> Prop) (old new s : Py.str) :
  Forall P new -> Forall P s -> Forall P (replace old new s).
Proof.
  intros Hn Hs. apply sub_with_Forall; [|exact Hs].
  intros t new' n _ E. destruct (Py.startswith old t); [|discriminate].
  injection E as <- _. exact Hn.
Qed.

Lemma replace_char_gone (c : N) (new s : Py.str) :
  Forall (fun x => x <> c) new -> Forall (fun x => x <> c) (replace [c] new s).
Proof.
  intros Hn. unfold replace. induction s as [|x r IH]; [constructor|].
  cbn [sub_with Py.startswith length Nat.sub].
  destruct (c =? x) eqn:E; cbn [andb].
  - destruct r; (apply Forall_app; split; [exact Hn|exact IH]).
  - constructor; [|exact IH]. apply N.eqb_neq in E. congruence.
Qed.

Lemma error_chars_keep (P : N -> Prop) (chars : list Py.str) (s : Py.str) :
  Forall P s -> Forall P (fold_left (fun text char => replace char [] text) chars s).
Proof.
  revert s. induction chars as [|ch chars IH]; intros s Hs; [exact Hs|].
  cbn [fold_left]. apply IH, replace_Forall; [constructor|exact Hs].
Qed.

Lemma error_chars_gone (c : N) (chars : list Py.str) (s : Py.str) :
  In [c] chars ->
  Forall (fun x => x <> c) (fold_left (fun text char => replace char [] text) chars s).
Proof.
  revert s. induction chars as [|ch chars IH]; intros s Hin; [destruct Hin|].
  cbn [fold_left]. destruct Hin as [-> | Hin]; [|apply IH, Hin].
  apply error_chars_keep, replace_char_gone. constructor.
Qed.

Lemma replacements_keep (P : N -> Prop) (pairs : list (Py.str * Py.str)) (s : Py.str) :
  Forall (fun old_new => Forall P (snd old_new)) pairs ->
  Forall P s ->
  Forall P (fold_left (fun text old_new => replace (fst old_new) (snd old_new) text)
                      pairs s).
Proof.
  intros Hp. revert s. induction Hp as [|p pairs Hn Hp IH]; intros s Hs; [exact Hs|].
  cbn [fold_left]. apply IH, replace_Forall; assumption.
Qed.

Lemma replacements_gone (c : N) (pairs : list (Py.str * Py.str)) (s : Py.str) :
  Forall (fun old_new => Forall (fun x => x <> c) (snd old_new)) pairs ->
  In [c] (map fst pairs) ->
  Forall (fun x => x <> c)
         (fold_left (fun text old_new => replace (fst old_new) (snd old_new) text)
                    pairs s).
Proof.
  intros Hp. revert s. induction Hp as [|p pairs Hn Hp IH]; intros s Hin; [destruct Hin|].
  cbn [fold_left]. destruct Hin as [E | Hin]; [|apply IH, Hin].
  apply replacements_keep; [exact Hp|]. rewrite E. apply replace_char_gone, Hn.
Qed.

Lemma collapse_spaces_keep (P : N -> Prop) (in_run : bool) (s : Py.str) :
  P 32 -> Forall P s -> Forall P (Bank.collapse_spaces in_run s).
Proof.
  intros H32 Hs. revert in_run. induction Hs as [|c r Hc Hr IH]; intros in_run;
    [constructor|].
  cbn [Bank.collapse_spaces]. destruct (Py.isspace c).
  - destruct in_run; [apply IH|]. constructor; [exact H32|apply IH].
  - constructor; [exact Hc|apply IH].
Qed.

Lemma match_arithmetic_keep (P : N -> Prop) (t new : Py.str) (n : nat) :
  Forall P t -> match_arithmetic uni_isdecimal t = Some (new, n) -> Forall P new.
Proof.
  intros Ht. unfold match_arithmetic.
  destruct Ht as [|d1 r Hd1 Hr]; [discriminate|].
  destruct (is_digit uni_isdecimal d1); [|discriminate].
  pose proof (lstrip_Forall P r Hr) as H1.
  destruct H1 as [|op r2 Hop Hr2]; [discriminate|].
  destruct (is_operator op); [|discriminate].
  pose proof (lstrip_Forall P r2 Hr2) as H2.
  destruct H2 as [|d2 tail Hd2 _]; [discriminate|].
  destruct (is_digit uni_isdecimal d2); [|discriminate].
  intros [= <- _]. repeat constructor; assumption.
Qed.

Lemma match_space_punctuation_keep (P : N -> Prop) (t new : Py.str) (n : nat) :
  Forall P t -> match_space_punctuation t = Some (new, n) -> Forall P new.
Proof.
  intros Ht. unfold match_space_punctuation.
  destruct Ht as [|c r Hc Hr]; [discriminate|].
  destruct (Py.isspace c); [|discriminate].
  pose proof (lstrip_Forall P r Hr) as H1.
  destruct H1 as [|p tail Hp _]; [discriminate|].
  destruct (is_punctuation p); [|discriminate].
  intros [= <- _]. repeat constructor; assumption.
Qed.

Lemma absent_spec (c : N) (l : Py.str) :
  forallb (fun x => negb (x =? c)) l = true -> Forall (fun x => x <> c) l.
Proof.
  intros H. apply Forall_forall. intros x Hx. apply list_elem_of_In in Hx.
  rewrite forallb_forall in H. specialize (H x Hx).
  apply negb_true_iff, N.eqb_neq in H. exact H.
Qed.

(** The steps after the two loops leave out what was out before. *)
Lemma clean_text_gone (c : N) (text : Py.str) :
  forallb (fun x => negb (x =? c)) (Py.lit " 。、！？（）「」【】0123456789.—") = true ->
  In [c] error_chars \/ In [c] (map fst replacements) ->
  Forall (fun x => x <> c) (_clean_text uni_isdecimal text).
Proof.
  intros Hnew Hc. apply absent_spec in Hnew.
  assert (Hlit : forall s, Forall (fun x => In x (Py.lit " 。、！？（）「」【】0123456789.—")) s ->
                           Forall (fun x => x <> c) s).
  { intros s Hs. apply Forall_forall. intros x Hx.
    rewrite Forall_forall in Hs, Hnew. apply Hnew, list_elem_of_In, Hs, Hx. }
  assert (Hcheck : forall s,
            forallb (fun x => existsb (N.eqb x) (Py.lit " 。、！？（）「」【】0123456789.—")) s
            = true -> Forall (fun x => x <> c) s).
  { intros s Hs. apply Hlit, Forall_forall. intros x Hx. apply list_elem_of_In in Hx.
    rewrite forallb_forall in Hs. specialize (Hs x Hx).
    apply existsb_exists in Hs as (y & Hy & E). apply N.eqb_eq in E. subst y. exact Hy. }
  unfold _clean_text. destruct (negb (Py.truthy text)); [constructor|].
  apply strip_Forall, collapse_spaces_keep; [apply (Forall_inv (Hcheck [32] eq_refl))|].
  apply sub_with_Forall; [intros t new n; apply match_space_punctuation_keep|].
  apply sub_with_Forall; [intros t new n; apply match_arithmetic_keep|].
  do 10 (apply replace_Forall; [apply Hcheck; vm_compute; reflexivity|]).
  destruct Hc as [Hc | Hc].
  - apply replacements_keep; [|apply error_chars_gone, Hc].
    unfold replacements.
    repeat (constructor; [apply Hcheck; vm_compute; reflexivity|]). constructor.
  - apply replacements_gone; [|exact Hc].
    unfold replacements.
    repeat (constructor; [apply Hcheck; vm_compute; reflexivity|]). constructor.
Qed.

(** X20: the cleaned text holds none of the characters the two loops of
    [_clean_text] remove or rewrite: none of the eleven error characters,
    and no letter O, l or I, wherever it stood in the recognised text. *)
Theorem clean_text_rewritten_gone (text : Py.str) :
  Forall (fun x => ~ In x rewritten) (_clean_text uni_isdecimal text).
Proof.
  assert (H : forall c, In c rewritten ->
                        Forall (fun x => x <> c) (_clean_text uni_isdecimal text)).
  { intros c Hc. vm_compute in Hc.
    repeat (destruct Hc as [<- | Hc]; [apply clean_text_gone;
                                         [vm_compute; reflexivity
                                         |vm_compute; tauto]|]).
    destruct Hc. }
  apply Forall_forall. intros x Hx Hin.
  specialize (H x Hin). rewrite Forall_forall in H. exact (H x Hx eq_refl).
Qed.

Variable image_to_string : tess_config -> outcome Py.str.
Variable image_copy : outcome unit.
Variable PYTESSERACT_AVAILABLE PIL_AVAILABLE : bool.

Abbreviation extracted :=
  (extract_text uni_isdecimal image_to_string image_copy
                PYTESSERACT_AVAILABLE PIL_AVAILABLE).

(** X21: [extract_text] gives the empty string, or the cleaned form of a
    text the engine returned that is not blank; that text is at least as
    long, stripped, as what the engine returned for the first two
    settings, and it comes from the third setting only when the first two
    gave nothing but blank text or exceptions. *)
Theorem extract_text_choice :
  extracted = []
  \/ exists cfg text,
       image_to_string cfg = Return text
       /\ Py.strip text <> []
       /\ extracted = _clean_text uni_isdecimal text
       /\ (forall cfg' text',
             cfg' <> Basic -> image_to_string cfg' = Return text' ->
             (length (Py.strip text') <= length (Py.strip text))%nat
             /\ (cfg = Basic -> Py.strip text' = [])).
Proof.
  unfold extract_text.
  destruct (negb PYTESSERACT_AVAILABLE); [auto|].
  destruct (negb PIL_AVAILABLE); [auto|].
  destruct image_copy as [[]|?]; [|auto].
  unfold recognise.
  destruct (image_to_string Standard) as [t1|e1] eqn:E1;
    destruct (image_to_string SingleWord) as [t2|e2] eqn:E2;
    destruct (image_to_string Basic) as [t3|e3] eqn:E3.
  all: repeat match goal with
       | |- context [Py.truthy (Py.strip ?t)] =>
         let H := fresh "Hb" in destruct (Py.strip t) eqn:H; cbn [Py.truthy app]
       end.
  all: cbn [py_max fold_left]; auto.
  all: repeat match goal with
       | |- context [(?a <? ?b)%nat] => destruct (Nat.ltb_spec a b)
       end.
  all: right.
  all: first
    [ exists Standard, t1; split; [assumption|]; split; [congruence|];
      split; [reflexivity|];
      intros [] t' Hne Ht'; try congruence;
      rewrite ?E1, ?E2 in Ht'; try discriminate; injection Ht' as <-;
      (split; [rewrite ?Hb, ?Hb0, ?Hb1 in *; cbn [length] in *; lia|discriminate])
    | exists SingleWord, t2; split; [assumption|]; split; [congruence|];
      split; [reflexivity|];
      intros [] t' Hne Ht'; try congruence;
      rewrite ?E1, ?E2 in Ht'; try discriminate; injection Ht' as <-;
      (split; [rewrite ?Hb, ?Hb0, ?Hb1 in *; cbn [length] in *; lia|discriminate])
    | exists Basic, t3; split; [assumption|]; split; [congruence|];
      split; [reflexivity|];
      intros [] t' Hne Ht'; try congruence;
      rewrite ?E1, ?E2 in Ht'; try discriminate; injection Ht' as <-;
      (split; [rewrite ?Hb, ?Hb0, ?Hb1 in *; cbn [length] in *; lia|auto]) ].
Qed.

End OcrFacts.
